(** * Verification of [scripts/convert_pdf.py]

    A shallow embedding of the PDF-to-slides converter and the proofs of
    its specification.

    Modelling conventions.
    - Python [str] values are [string]s whose characters are read as code
      points below 256.  Python [int] is [Z].
    - The filesystem is a finite map from path strings (relative to the
      working directory, in the normal form the script itself uses) to
      nodes; symbolic links and permissions are not represented.
    - The external collaborators ([pdfinfo], [pdf2image.convert_from_path],
      the Pillow resampling and colour conversion kernels and the clock)
      are fields of an environment record; the two tools that read the
      PDF receive the current filesystem.
    - A run is a function from a world (filesystem and the trace of calls
      issued so far) to a world and a result; an exception leaves the
      world as the failing statement found it.
    - Console output ([print]) is not part of the world.
    - The entry point is a function of the list [sys.argv]; its outcome
      says how the interpreter leaves the script. *)

From Stdlib Require Import ZArith Ascii String List Lia Bool.
From Stdlib Require Import DecimalString DecimalPos.
From stdpp Require Import gmap strings list.

Local Open Scope Z_scope.

(** ** Python text primitives *)

Module PyStr.

(** [str.isspace] on code points below 256. *)
Definition isspace (c : ascii) : bool :=
  let n := nat_of_ascii c in
  ((9 <=? n) && (n <=? 13) || (28 <=? n) && (n <=? 32)
   || (n =? 133) || (n =? 160))%nat.

(** Line boundaries recognised by [str.splitlines] ([\n] and [\r] are
    handled apart because of the two-character boundary [\r\n]). *)
Definition is_linebreak (c : ascii) : bool :=
  let n := nat_of_ascii c in
  ((n =? 10) || (n =? 11) || (n =? 12) || (n =? 13)
   || (28 <=? n) && (n <=? 30) || (n =? 133))%nat.

Definition CR : ascii := ascii_of_nat 13.
Definition LF : ascii := ascii_of_nat 10.
Definition NL : string := String LF "".

(** Reverse of a string, used for accumulators. *)
Fixpoint rev_onto (s acc : string) : string :=
  match s with
  | EmptyString => acc
  | String c s' => rev_onto s' (String c acc)
  end.

Definition rev (s : string) : string := rev_onto s EmptyString.

(** [s.splitlines()]: [cur] is the current line, reversed. *)
Fixpoint splitlines_from (s : string) (cur : string) : list string :=
  match s with
  | EmptyString =>
      match cur with EmptyString => [] | _ => [rev cur] end
  | String c s' =>
      if is_linebreak c then
        match s' with
        | String c' s'' =>
            if Ascii.eqb c CR && Ascii.eqb c' LF
            then rev cur :: splitlines_from s'' EmptyString
            else rev cur :: splitlines_from s' EmptyString
        | EmptyString => rev cur :: splitlines_from s' EmptyString
        end
      else splitlines_from s' (String c cur)
  end.

Definition splitlines (s : string) : list string :=
  splitlines_from s EmptyString.

(** [s.startswith(p)]. *)
Definition startswith (s p : string) : bool := String.prefix p s.

(** [s.split(sep)] for a one-character separator. *)
Fixpoint split_from (sep : ascii) (s : string) (cur : string) : list string :=
  match s with
  | EmptyString => [rev cur]
  | String c s' =>
      if Ascii.eqb c sep then rev cur :: split_from sep s' EmptyString
      else split_from sep s' (String c cur)
  end.

Definition split (sep : ascii) (s : string) : list string :=
  split_from sep s EmptyString.

(** [s.lstrip()], [s.rstrip()], [s.strip()]. *)
Fixpoint lstrip (s : string) : string :=
  match s with
  | EmptyString => EmptyString
  | String c s' => if isspace c then lstrip s' else s
  end.

Definition rstrip (s : string) : string := rev (lstrip (rev s)).

Definition strip (s : string) : string := rstrip (lstrip s).

(** Decimal digits and the digit groups of an integer literal: Python
    allows single underscores between digits. *)
Definition isdigit (c : ascii) : bool :=
  let n := nat_of_ascii c in ((48 <=? n) && (n <=? 57))%nat.

Definition underscore : ascii := "_"%char.

(** [digits_ok prev_digit s]: [s] continues a literal whose previous
    character was a digit ([prev_digit = true]) or an underscore or the
    start ([false]); the literal must end on a digit. *)
Fixpoint digits_ok (prev_digit : bool) (s : string) : bool :=
  match s with
  | EmptyString => prev_digit
  | String c s' =>
      if isdigit c then digits_ok true s'
      else if Ascii.eqb c underscore then prev_digit && digits_ok false s'
      else false
  end.

Fixpoint drop_underscores (s : string) : string :=
  match s with
  | EmptyString => EmptyString
  | String c s' =>
      if Ascii.eqb c underscore then drop_underscores s'
      else String c (drop_underscores s')
  end.

Definition nat_literal (s : string) : option Z :=
  if digits_ok false s then
    match NilEmpty.uint_of_string (drop_underscores s) with
    | Some d => Some (Z.of_uint d)
    | None => None
    end
  else None.

(** [int(s)] in base 10: surrounding whitespace, an optional sign, digit
    groups.  [None] stands for [ValueError].  (The length limit that
    recent interpreters put on such literals is not modelled.) *)
Definition int (s : string) : option Z :=
  match strip s with
  | String "+" body => nat_literal body
  | String "-" body => option_map Z.opp (nat_literal body)
  | body => nat_literal body
  end.

(** [str(n)] for an integer. *)
Definition of_int (n : Z) : string := NilEmpty.string_of_int (Z.to_int n).

Fixpoint zeros (k : nat) : string :=
  match k with
  | O => EmptyString
  | S k' => String "0" (zeros k')
  end.

(** [format(n, "0{w}d")]: sign-aware zero padding to a minimal width. *)
Definition format_0d (w : nat) (n : Z) : string :=
  if n <? 0 then
    let d := of_int (- n) in
    String "-" (zeros (w - 1 - String.length d) +:+ d)
  else
    let d := of_int n in
    zeros (w - String.length d) +:+ d.

End PyStr.

(** ** Paths ([posixpath]) *)

Module PosixPath.

Definition slash : ascii := "/"%char.

(** Cuts [p] after its last slash: [(p[:i], p[i:])] with
    [i = p.rfind("/") + 1]. *)
Fixpoint cut_last_slash (p : string) : string * string :=
  match p with
  | EmptyString => (EmptyString, EmptyString)
  | String c p' =>
      let '(h, t) := cut_last_slash p' in
      if Ascii.eqb c slash then (String c h, t)
      else match h with
           | EmptyString => (EmptyString, String c t)
           | _ => (String c h, t)
           end
  end.

Fixpoint all_slashes (s : string) : bool :=
  match s with
  | EmptyString => true
  | String c s' => Ascii.eqb c slash && all_slashes s'
  end.

Fixpoint lstrip_slashes (s : string) : string :=
  match s with
  | EmptyString => EmptyString
  | String c s' => if Ascii.eqb c slash then lstrip_slashes s' else s
  end.

Definition rstrip_slashes (s : string) : string :=
  PyStr.rev (lstrip_slashes (PyStr.rev s)).

(** [os.path.basename]. *)
Definition basename (p : string) : string := snd (cut_last_slash p).

(** [os.path.split]. *)
Definition split (p : string) : string * string :=
  let '(head, tail) := cut_last_slash p in
  if negb (String.eqb head "") && negb (all_slashes head)
  then (rstrip_slashes head, tail)
  else (head, tail).

Definition endswith_slash (p : string) : bool :=
  match PyStr.rev p with
  | String c _ => Ascii.eqb c slash
  | EmptyString => false
  end.

(** [os.path.join(a, b)]. *)
Definition join (a b : string) : string :=
  if PyStr.startswith b "/" then b
  else if String.eqb a "" || endswith_slash a then a +:+ b
  else a +:+ "/" +:+ b.

End PosixPath.

(** ** Classes of characters *)

(** [all_chars P s]: every character of [s] satisfies [P]. *)
Fixpoint all_chars (P : ascii -> bool) (s : string) : bool :=
  match s with
  | EmptyString => true
  | String c s' => P c && all_chars P s'
  end.

Definition nonspace (c : ascii) : bool := negb (PyStr.isspace c).

(** The characters of a printed integer. *)
Definition numeral_char (c : ascii) : bool :=
  PyStr.isdigit c || Ascii.eqb c "-".

Definition nonslash (c : ascii) : bool := negb (Ascii.eqb c PosixPath.slash).


(** ** Exceptions and results *)

Inductive exn : Type :=
| RuntimeError (about : string)
| ValueError
| IndexError
| FileNotFoundError (path : string)
| NotADirectoryError (path : string)
| IsADirectoryError (path : string)
| FileExistsError (path : string)
| OSError (msg : string)
| RecursionError
| External (tag : string).

Inductive Result (A : Type) : Type :=
| Ok (a : A)
| Raise (e : exn).

Arguments Ok {A} a.
Arguments Raise {A} e.

(** [l[i]] on a Python list, for a non-negative index. *)
Definition py_index {A : Type} (l : list A) (i : nat) : Result A :=
  match l !! i with
  | Some x => Ok x
  | None => Raise IndexError
  end.

(** ** Images, files and the filesystem *)

Record Image : Type := mkImage {
  im_size : Z * Z;
  im_mode : string;
  im_data : list Z
}.

Inductive FileData : Type :=
| JpegData (img : Image) (quality : Z)
| TextData (text : string).

Inductive Node : Type :=
| Dir
| File (data : FileData).

#[global] Instance Image_eq_dec : EqDecision Image.
Proof. solve_decision. Defined.
#[global] Instance FileData_eq_dec : EqDecision FileData.
Proof. solve_decision. Defined.
#[global] Instance Node_eq_dec : EqDecision Node.
Proof. solve_decision. Defined.

Abbreviation FS := (gmap string Node).

Module Fs.

(** [p] lies strictly below directory [d]. *)
Definition under (d p : string) : bool := String.prefix (d +:+ "/") p.

Definition within (d p : string) : bool := String.eqb p d || under d p.

(** [os.path.exists]. *)
Definition exists_ (fs : FS) (p : string) : bool :=
  match fs !! p with Some _ => true | None => false end.

(** The directory that must hold [p], when [p] is not at top level. *)
Definition check_parent (fs : FS) (p : string) : Result unit :=
  let head := fst (PosixPath.split p) in
  if String.eqb head "" then Ok tt
  else match fs !! head with
       | Some Dir => Ok tt
       | Some (File _) => Raise (NotADirectoryError p)
       | None => Raise (FileNotFoundError p)
       end.

(** [shutil.rmtree(d)]. *)
Definition rmtree (d : string) (fs : FS) : Result FS :=
  match fs !! d with
  | Some Dir => Ok (filter (fun kv => within d kv.1 = false) fs)
  | Some (File _) => Raise (NotADirectoryError d)
  | None => Raise (FileNotFoundError d)
  end.

(** [os.mkdir(p)]. *)
Definition mkdir (p : string) (fs : FS) : Result FS :=
  match check_parent fs p with
  | Raise e => Raise e
  | Ok _ =>
      match fs !! p with
      | Some _ => Raise (FileExistsError p)
      | None => Ok (<[p := Dir]> fs)
      end
  end.

(** [os.makedirs(name)] with [exist_ok=False]; the recursion climbs one
    path component per call, so the length of the name bounds its depth
    ([RecursionError] stands for exhausted fuel). *)
Fixpoint makedirs_fuel (fuel : nat) (name : string) (fs : FS) : Result FS :=
  match fuel with
  | O => Raise RecursionError
  | S fuel' =>
      let '(head, tail) := PosixPath.split name in
      let '(head, tail) :=
        if String.eqb tail "" then PosixPath.split head else (head, tail) in
      if negb (String.eqb head "") && negb (String.eqb tail "")
         && negb (exists_ fs head)
      then
        let after :=
          match makedirs_fuel fuel' head fs with
          | Ok fs' => Ok fs'
          | Raise (FileExistsError _) => Ok fs
          | Raise e => Raise e
          end in
        match after with
        | Raise e => Raise e
        | Ok fs' => if String.eqb tail "." then Ok fs' else mkdir name fs'
        end
      else mkdir name fs
  end.

Definition makedirs (name : string) (fs : FS) : Result FS :=
  makedirs_fuel (S (String.length name)) name fs.

(** Creating or truncating the regular file [p] and writing [data]. *)
Definition write_file (p : string) (data : FileData) (fs : FS) : Result FS :=
  match check_parent fs p with
  | Raise e => Raise e
  | Ok _ =>
      match fs !! p with
      | Some Dir => Raise (IsADirectoryError p)
      | _ => Ok (<[p := File data]> fs)
      end
  end.

(** [os.path.getsize(p)]: only whether the call succeeds is modelled. *)
Definition getsize (p : string) (fs : FS) : Result unit :=
  match fs !! p with
  | Some _ => Ok tt
  | None => Raise (FileNotFoundError p)
  end.

(** The directories that must exist for [p] to exist: the prefixes of
    [p] that a slash follows.  [pre] is what was read so far, reversed. *)
Fixpoint ancestors_from (pre : string) (p : string) : list string :=
  match p with
  | EmptyString => []
  | String c p' =>
      (if Ascii.eqb c PosixPath.slash then [PyStr.rev pre] else [])
      ++ ancestors_from (String c pre) p'
  end.

Definition ancestors (p : string) : list string :=
  ancestors_from EmptyString p.

(** Well-formed filesystems: whatever exists lies in directories. *)
Definition wf (fs : FS) : Prop :=
  map_Forall (fun p _ => Forall (fun d => fs !! d = Some Dir) (ancestors p)) fs.

#[global] Instance wf_dec (fs : FS) : Decision (wf fs).
Proof. unfold wf. apply _. Defined.

End Fs.

(** ** JSON output ([json.dump] with [indent=2, ensure_ascii=False]) *)

Module Json.

Inductive value : Type :=
| JInt (n : Z)
| JStr (s : string).

Definition hex_digit (n : nat) : ascii :=
  if (n <? 10)%nat then ascii_of_nat (48 + n) else ascii_of_nat (87 + n).

Definition dquote : ascii := ascii_of_nat 34.
Definition backslash : ascii := ascii_of_nat 92.

Definition escape_char (c : ascii) : string :=
  let n := nat_of_ascii c in
  if Ascii.eqb c dquote then String backslash (String dquote "")
  else if Ascii.eqb c backslash then String backslash (String backslash "")
  else if (n =? 8)%nat then String backslash "b"
  else if (n =? 12)%nat then String backslash "f"
  else if (n =? 10)%nat then String backslash "n"
  else if (n =? 13)%nat then String backslash "r"
  else if (n =? 9)%nat then String backslash "t"
  else if (n <? 32)%nat then
    String backslash
      ("u00" +:+ String (hex_digit (n / 16)) (String (hex_digit (n mod 16)) ""))
  else String c "".

Fixpoint escape (s : string) : string :=
  match s with
  | EmptyString => EmptyString
  | String c s' => escape_char c +:+ escape s'
  end.

Definition quote (s : string) : string :=
  String dquote (escape s +:+ String dquote "").

Definition encode (v : value) : string :=
  match v with
  | JInt n => PyStr.of_int n
  | JStr s => quote s
  end.

Definition NL : string := PyStr.NL.

Definition item (kv : string * value) : string :=
  quote kv.1 +:+ ": " +:+ encode kv.2.

Fixpoint items (kvs : list (string * value)) : string :=
  match kvs with
  | [] => ""
  | [kv] => item kv
  | kv :: rest => item kv +:+ "," +:+ NL +:+ "  " +:+ items rest
  end.

(** The text [json.dump(d, f, indent=2, ensure_ascii=False)] writes for
    a flat dictionary [d], keys in insertion order. *)
Definition dump (d : list (string * value)) : string :=
  match d with
  | [] => "{}"
  | _ => "{" +:+ NL +:+ "  " +:+ items d +:+ NL +:+ "}"
  end.

Fixpoint get (d : list (string * value)) (k : string) : option value :=
  match d with
  | [] => None
  | (k', v) :: rest => if String.eqb k k' then Some v else get rest k
  end.

(** *** A reader for the documents [dump] writes

    The reader is used to state what a written document records; it
    accepts the layout of [dump] only. *)












End Json.

(** ** Worlds, traces and the run monad *)

(** What [subprocess.run(..., capture_output=True, text=True)] returns. *)
Record CompletedProcess : Type := mkCompleted {
  returncode : Z;
  stdout : string;
  stderr : string
}.

(** The calls the script issues, in order: calls to the two external
    tools are recorded with what they returned ([inl tag] when the call
    raised), mutating filesystem calls are recorded when they are made. *)
Inductive Event : Type :=
| RunPdfinfo (pdf : string) (outcome : string + CompletedProcess)
| Rmtree (path : string)
| Makedirs (path : string)
| Render (pdf : string) (dpi first_page last_page : Z)
         (outcome : string + list Image)
| Save (path : string) (img : Image) (quality : Z)
| OpenWrite (path : string) (text : string).

Record World : Type := mkWorld {
  files : FS;
  trace : list Event
}.

Definition M (A : Type) : Type := World -> World * Result A.

Definition ret {A : Type} (a : A) : M A := fun w => (w, Ok a).

Definition raise {A : Type} (e : exn) : M A := fun w => (w, Raise e).

Definition bind {A B : Type} (m : M A) (k : A -> M B) : M B :=
  fun w =>
    match m w with
    | (w', Ok a) => k a w'
    | (w', Raise e) => (w', Raise e)
    end.

Notation "'let*' x ':=' m 'in' k" := (bind m (fun x => k))
  (at level 10, x pattern, m at level 100, k at level 200, only parsing).

Definition emit (ev : Event) : M unit :=
  fun w => (mkWorld (files w) (trace w ++ [ev]), Ok tt).

(** A filesystem operation that replaces the filesystem when it succeeds. *)
Definition update_fs (op : FS -> Result FS) : M unit :=
  fun w =>
    match op (files w) with
    | Ok fs' => (mkWorld fs' (trace w), Ok tt)
    | Raise e => (w, Raise e)
    end.

(** A filesystem operation that only reads. *)
Definition read_fs {A : Type} (op : FS -> Result A) : M A :=
  fun w => (w, op (files w)).

Definition lift {A : Type} (r : Result A) : M A := fun w => (w, r).

(** [for x in xs: body(x)]. *)
Fixpoint for_each {A : Type} (xs : list A) (body : A -> M unit) : M unit :=
  match xs with
  | [] => ret tt
  | x :: xs' => let* _ := body x in for_each xs' body
  end.

(** [range(lo, hi)]. *)
Definition range (lo hi : Z) : list Z :=
  map (fun k => lo + Z.of_nat k) (seq 0 (Z.to_nat (hi - lo))).

(** ** External collaborators *)

(** [run_pdfinfo fs path]: [inl tag] when [subprocess.run] itself raises
    (the executable cannot be started), otherwise the completed process,
    whatever its return code.
    [render fs path dpi first last]: [pdf2image.convert_from_path].
    [lanczos img size] and [to_rgb img]: the pixel data Pillow computes
    for [img.resize(size, Image.LANCZOS)] and [img.convert("RGB")].
    [utc_stamp]: the value of
    [datetime.now(timezone.utc).strftime("%Y-%m-%dT%H:%M:%SZ")]. *)
Record Env : Type := mkEnv {
  run_pdfinfo : FS -> string -> string + CompletedProcess;
  render : FS -> string -> Z -> Z -> Z -> string + list Image;
  lanczos : Image -> Z * Z -> list Z;
  to_rgb : Image -> list Z;
  utc_stamp : string
}.

Definition external {A : Type} (r : string + A) : Result A :=
  match r with
  | inl tag => Raise (External tag)
  | inr a => Ok a
  end.

(** Calling a tool: the outcome is recorded, an error of the tool is
    raised in the script. *)
Definition call_tool {A : Type} (tool : FS -> string + A)
    (record : string + A -> Event) : M A :=
  fun w =>
    let out := tool (files w) in
    (mkWorld (files w) (trace w ++ [record out]), external out).

(** ** Pillow *)

Module Pil.

Definition resize (E : Env) (img : Image) (size : Z * Z) : Image :=
  mkImage size (im_mode img) (lanczos E img size).

Definition convert_rgb (E : Env) (img : Image) : Image :=
  mkImage (im_size img) "RGB" (to_rgb E img).

(** Modes the JPEG writer accepts. *)
Definition jpeg_mode (m : string) : bool :=
  String.eqb m "1" || String.eqb m "L" || String.eqb m "RGB"
  || String.eqb m "RGBX" || String.eqb m "CMYK" || String.eqb m "YCbCr".

(** [img.save(path, "JPEG", quality=q)].  The script only saves images
    it has brought to mode [RGB]; for a mode the encoder rejects, the
    removal of the file Pillow had opened is not modelled. *)
Definition save (img : Image) (path : string) (q : Z) : M unit :=
  let* _ := emit (Save path img q) in
  if jpeg_mode (im_mode img)
  then update_fs (Fs.write_file path (JpegData img q))
  else raise (OSError "cannot write mode as JPEG").

End Pil.

(** ** The script *)

Definition OUTPUT_DIR : string := "Web/slides".
Definition META_PATH : string := "Web/meta.json".
Definition TARGET_WIDTH : Z := 1920.
Definition TARGET_HEIGHT : Z := 1080.
Definition JPG_QUALITY : Z := 85.
Definition DPI : Z := 150.

(** The body of the [for line in ...] loop of [get_total_pages]: the
    first line that starts with [Pages:] decides. *)
Definition parse_pages_line (line : string) : Result Z :=
  match py_index (PyStr.split ":" line) 1 with
  | Raise e => Raise e
  | Ok field =>
      match PyStr.int (PyStr.strip field) with
      | Some n => Ok n
      | None => Raise ValueError
      end
  end.

Fixpoint scan_lines (pdf_path : string) (lines : list string) : Result Z :=
  match lines with
  | [] => Raise (RuntimeError pdf_path)
  | line :: rest =>
      if PyStr.startswith line "Pages:" then parse_pages_line line
      else scan_lines pdf_path rest
  end.

(** The message of the [RuntimeError] is a fixed text followed by the
    path; only the path is kept. *)
Definition get_total_pages (E : Env) (pdf_path : string) : M Z :=
  let* result :=
    call_tool (fun fs => run_pdfinfo E fs pdf_path) (RunPdfinfo pdf_path) in
  lift (scan_lines pdf_path (PyStr.splitlines (stdout result))).

(** Lines 47-49. *)
Definition reset_output_dir : M unit :=
  let* present := read_fs (fun fs => Ok (Fs.exists_ fs OUTPUT_DIR)) in
  let* _ :=
    (if present : bool
     then let* _ := emit (Rmtree OUTPUT_DIR) in
          update_fs (Fs.rmtree OUTPUT_DIR)
     else ret tt) in
  let* _ := emit (Makedirs OUTPUT_DIR) in
  update_fs (Fs.makedirs OUTPUT_DIR).

Definition slide_filename (page_num : Z) : string :=
  "slide_" +:+ PyStr.format_0d 3 page_num +:+ ".jpg".

Definition slide_path (page_num : Z) : string :=
  PosixPath.join OUTPUT_DIR (slide_filename page_num).

(** What one iteration stores for a rendered [page]. *)
Definition normalise (E : Env) (page : Image) : Image :=
  let resized := Pil.resize E page (TARGET_WIDTH, TARGET_HEIGHT) in
  if negb (String.eqb (im_mode resized) "RGB")
  then Pil.convert_rgb E resized
  else resized.

(** Lines 54-73: one iteration of the page loop. *)
Definition convert_page (E : Env) (pdf_path : string) (page_num : Z) : M unit :=
  let* pages :=
    call_tool (fun fs => render E fs pdf_path DPI page_num page_num)
              (Render pdf_path DPI page_num page_num) in
  let* page := lift (py_index pages 0) in
  let resized := normalise E page in
  let filename := slide_filename page_num in
  let filepath := PosixPath.join OUTPUT_DIR filename in
  let* _ := Pil.save resized filepath JPG_QUALITY in
  read_fs (Fs.getsize filepath).

Definition make_meta (E : Env) (total_pages : Z) (pdf_filename : string)
  : list (string * Json.value) :=
  [ ("total_pages", Json.JInt total_pages);
    ("version", Json.JInt 1);
    ("generated_at", Json.JStr (utc_stamp E));
    ("source_pdf", Json.JStr pdf_filename) ].

(** Lines 83-84: [open(META_PATH, "w")] and [json.dump]. *)
Definition write_meta (meta : list (string * Json.value)) : M unit :=
  let text := Json.dump meta in
  let* _ := emit (OpenWrite META_PATH text) in
  update_fs (Fs.write_file META_PATH (TextData text)).

Definition convert_pdf_to_slides (E : Env) (pdf_path : string) : M unit :=
  let pdf_filename := PosixPath.basename pdf_path in
  let* total_pages := get_total_pages E pdf_path in
  let* _ := reset_output_dir in
  let* _ := for_each (range 1 (total_pages + 1)) (convert_page E pdf_path) in
  write_meta (make_meta E total_pages pdf_filename).

(** *** The entry point *)

(** How the interpreter leaves the script: the end of the file is
    reached, [sys.exit(code)] is called, or an exception is not caught. *)
Inductive Outcome : Type :=
| Completed
| SystemExit (code : Z)
| Uncaught (e : exn).

(** The exit status the interpreter hands to the calling process. *)
Definition exit_status (o : Outcome) : Z :=
  match o with
  | Completed => 0
  | SystemExit code => code
  | Uncaught _ => 1
  end.

(** Lines 90-100, on the list [sys.argv].  The usage line names
    [sys.argv[0]], which is evaluated before [sys.exit] is called; the
    input path is looked up as it is spelled. *)
Definition main (E : Env) (argv : list string) (w : World) : World * Outcome :=
  if negb (length argv =? 2)%nat then
    match py_index argv 0 with
    | Raise e => (w, Uncaught e)
    | Ok _ => (w, SystemExit 1)
    end
  else
    match py_index argv 1 with
    | Raise e => (w, Uncaught e)
    | Ok pdf_path =>
        if negb (Fs.exists_ (files w) pdf_path) then (w, SystemExit 1)
        else
          match convert_pdf_to_slides E pdf_path w with
          | (w', Ok _) => (w', Completed)
          | (w', Raise e) => (w', Uncaught e)
          end
    end.

(** ** A concrete environment for examples *)

Module Demo.

Definition page_image (i : Z) : Image :=
  mkImage (1240, 1754) (if Z.even i then "RGB" else "L") [i].

Definition env (out : string) (bad_page : Z) (stamp : string) : Env :=
  mkEnv (fun _ _ => inr (mkCompleted 0 out ""))
        (fun _ _ _ first _ =>
           if first =? bad_page then inl "PDFPageCountError"
           else inr [page_image first])
        (fun img size => size.1 :: size.2 :: im_data img)
        (fun img => 3 :: im_data img)
        stamp.

(** A three-page document as [pdfinfo] reports it. *)
Definition three_pages : string :=
  "Title:          deck" +:+ PyStr.NL +:+
  "Pages:          3" +:+ PyStr.NL +:+
  "Encrypted:      no" +:+ PyStr.NL.


(** An output whose first [Pages:] line carries no number. *)
Definition garbled : string :=
  "Pages: x" +:+ PyStr.NL +:+ "Pages: 5" +:+ PyStr.NL.

Definition stamp1 : string := "2024-01-01T00:00:00Z".
Definition stamp2 : string := "2024-01-02T08:30:00Z".

(** A filesystem that holds the leftovers of an earlier conversion. *)
Definition stale : FS :=
  <["Web" := Dir]>
  (<["Web/slides" := Dir]>
  (<["Web/slides/slide_009.jpg" := File (TextData "old")]>
  (<["Web/meta.json" := File (TextData "old meta")]>
  (<["in" := Dir]>
  (<["in/deck.pdf" := File (TextData "%PDF")]> ∅))))).

End Demo.

(** ** Vocabulary of the specification *)

(** A line that announces the page count. *)
Definition pages_line (line : string) : bool :=
  PyStr.startswith line "Pages:".

(** The first such line of the tool's output, if any. *)
Definition first_pages_line (out : string) : option string :=
  List.find pages_line (PyStr.splitlines out).

(** The text of [s] before its first [sep]. *)
Fixpoint before (sep : ascii) (s : string) : string :=
  match s with
  | EmptyString => EmptyString
  | String c s' =>
      if Ascii.eqb c sep then EmptyString else String c (before sep s')
  end.

Fixpoint skip (n : nat) (s : string) : string :=
  match n, s with
  | S n', String _ s' => skip n' s'
  | _, _ => s
  end.

(** What a [Pages:] line carries between its first and second colon. *)
Definition pages_field (line : string) : string :=
  before ":" (skip 6 line).

(** The paths of the files saved and the pages rendered, in call order,
    and whether the metadata file was opened. *)
Definition saved_paths (tr : list Event) : list string :=
  omap (fun ev => match ev with Save p _ _ => Some p | _ => None end) tr.

Definition saved_images (tr : list Event) : list Image :=
  omap (fun ev => match ev with Save _ img _ => Some img | _ => None end) tr.

Definition rendered_pages (tr : list Event) : list Z :=
  omap (fun ev => match ev with Render _ _ i _ _ => Some i | _ => None end) tr.

Definition meta_writes (tr : list Event) : list string :=
  omap (fun ev => match ev with OpenWrite _ t => Some t | _ => None end) tr.

(** The entries of the filesystem that lie below the output directory. *)
Definition slides_of (fs : FS) : FS :=
  filter (fun kv => Fs.under OUTPUT_DIR kv.1 = true) fs.

(** The calls of a successful directory reset. *)
Definition reset_trace (existed : bool) : list Event :=
  (if existed then [Rmtree OUTPUT_DIR] else []) ++ [Makedirs OUTPUT_DIR].

(** An image of the target size in three-channel colour, and a file
    that holds one, encoded at the configured quality. *)
Definition slide_image (img : Image) : Prop :=
  im_size img = (TARGET_WIDTH, TARGET_HEIGHT) /\ im_mode img = "RGB".

Definition is_slide (n : Node) : Prop :=
  exists img, n = File (JpegData img JPG_QUALITY) /\ slide_image img.

(** Every save call stores a slide image at a slide path. *)
Definition slide_event (ev : Event) : Prop :=
  match ev with
  | Save p img q =>
      slide_image img /\ q = JPG_QUALITY /\ exists i, p = slide_path i
  | _ => True
  end.

(** The output directory holds nothing while it does not exist. *)
Definition tidy (fs : FS) : Prop :=
  fs !! OUTPUT_DIR = None ->
  forall p, Fs.under OUTPUT_DIR p = true -> fs !! p = None.

(** The world after page [i] was rendered as [pages] and stored. *)
Definition page_stored (E : Env) (pdf : string) (i : Z) (pages : list Image)
    (page : Image) (w : World) : World :=
  let img := normalise E page in
  mkWorld (<[slide_path i := File (JpegData img JPG_QUALITY)]> (files w))
          (trace w ++ [Render pdf DPI i i (inr pages);
                       Save (slide_path i) img JPG_QUALITY]).

(** [pages_stored E pdf is w w']: from [w], the pages [is] were rendered
    and stored one after the other, which led to [w']. *)
Inductive pages_stored (E : Env) (pdf : string)
  : list Z -> World -> World -> Prop :=
| stored_nil (w : World) : pages_stored E pdf [] w w
| stored_cons (i : Z) (rest : list Z) (w w' : World)
      (page : Image) (more : list Image) :
    render E (files w) pdf DPI i i = inr (page :: more) ->
    files w !! slide_path i <> Some Dir ->
    pages_stored E pdf rest (page_stored E pdf i (page :: more) page w) w' ->
    pages_stored E pdf (i :: rest) w w'.

(** How the iteration for page [i] can fail from [w]: the renderer
    raises, it returns no image, or the slide cannot be written. *)
Inductive page_fails (E : Env) (pdf : string) (i : Z) (w : World)
  : World -> exn -> Prop :=
| fails_render (tag : string) :
    render E (files w) pdf DPI i i = inl tag ->
    page_fails E pdf i w
      (mkWorld (files w) (trace w ++ [Render pdf DPI i i (inl tag)]))
      (External tag)
| fails_index :
    render E (files w) pdf DPI i i = inr [] ->
    page_fails E pdf i w
      (mkWorld (files w) (trace w ++ [Render pdf DPI i i (inr [])]))
      IndexError
| fails_save (page : Image) (more : list Image) :
    render E (files w) pdf DPI i i = inr (page :: more) ->
    files w !! slide_path i = Some Dir ->
    page_fails E pdf i w
      (mkWorld (files w)
         (trace w ++ [Render pdf DPI i i (inr (page :: more));
                      Save (slide_path i) (normalise E page) JPG_QUALITY]))
      (IsADirectoryError (slide_path i)).

(** The metadata document of a run that probed [n] pages. *)
Definition meta_text (E : Env) (pdf : string) (n : Z) : string :=
  Json.dump (make_meta E n (PosixPath.basename pdf)).

(** A run of the script from a filesystem, with a fresh trace. *)
Definition run (E : Env) (pdf_path : string) (fs : FS) : World * Result unit :=
  convert_pdf_to_slides E pdf_path (mkWorld fs []).

Definition probe (E : Env) (pdf_path : string) (fs : FS) : Result Z :=
  snd (get_total_pages E pdf_path (mkWorld fs [])).

(** The world in which the probe leaves a run. *)
Definition probed (E : Env) (pdf : string) (fs : FS) : World :=
  mkWorld fs [RunPdfinfo pdf (run_pdfinfo E fs pdf)].

(** The ways a run can fail: at the probe, at the directory reset, at a
    page, or at the metadata file. *)
Inductive run_fails (E : Env) (pdf : string) (fs : FS) (w' : World) (e : exn)
  : Prop :=
| fails_at_probe :
    probe E pdf fs = Raise e -> w' = probed E pdf fs -> run_fails E pdf fs w' e
| fails_at_reset (n : Z) :
    probe E pdf fs = Ok n ->
    reset_output_dir (probed E pdf fs) = (w', Raise e) ->
    run_fails E pdf fs w' e
| fails_at_page (n : Z) (w1 wm : World) (done rest : list Z) (i : Z) :
    probe E pdf fs = Ok n ->
    reset_output_dir (probed E pdf fs) = (w1, Ok tt) ->
    range 1 (n + 1) = done ++ i :: rest ->
    pages_stored E pdf done w1 wm ->
    page_fails E pdf i wm w' e -> run_fails E pdf fs w' e
| fails_at_meta (n : Z) (w1 w2 : World) :
    probe E pdf fs = Ok n ->
    reset_output_dir (probed E pdf fs) = (w1, Ok tt) ->
    pages_stored E pdf (range 1 (n + 1)) w1 w2 ->
    files w2 !! META_PATH = Some Dir ->
    e = IsADirectoryError META_PATH ->
    w' = mkWorld (files w2)
           (trace w2 ++ [OpenWrite META_PATH (meta_text E pdf n)]) ->
    run_fails E pdf fs w' e.

(** A run of the entry point from a filesystem, with a fresh trace. *)
Definition run_main (E : Env) (argv : list string) (fs : FS)
  : World * Outcome :=
  main E argv (mkWorld fs []).

(** Regular files. *)
Definition is_file (fs : FS) (p : string) : bool :=
  match fs !! p with
  | Some (File _) => true
  | _ => false
  end.

(** A regular file stands where the output directory or its parent
    directory has to be. *)
Definition blocked (fs : FS) : bool :=
  is_file fs "Web" || is_file fs OUTPUT_DIR.

(** Spaces and tabs. *)
Definition blank (c : ascii) : bool :=
  Ascii.eqb c " " || Ascii.eqb c (ascii_of_nat 9).

Definition no_linebreak (c : ascii) : bool := negb (PyStr.is_linebreak c).

(** Lines printed one after the other, each ended by a newline. *)
Fixpoint text_lines (ls : list string) : string :=
  match ls with
  | [] => EmptyString
  | l :: ls' => l +:+ PyStr.NL +:+ text_lines ls'
  end.

(** A line of a tool's output that does not announce the page count. *)
Definition other_line (l : string) : bool :=
  all_chars no_linebreak l && negb (pages_line l).

(** A text ends here or goes on with a line boundary. *)
Definition at_line_end (rest : string) : bool :=
  match rest with
  | EmptyString => true
  | String c _ => PyStr.is_linebreak c
  end.

Definition is_render (ev : Event) : bool :=
  match ev with
  | Render _ _ _ _ _ => true
  | _ => false
  end.

(** Every call of the renderer asks for one page of [pdf] at the
    configured resolution, and the call that follows it, if there is one,
    saves the slide of that page. *)
Fixpoint one_page_at_a_time (pdf : string) (tr : list Event) : Prop :=
  match tr with
  | [] => True
  | Render pdf' dpi first last _ :: rest =>
      (pdf' = pdf /\ dpi = DPI /\ first = last)
      /\ match rest with
         | [] => True
         | Save p _ _ :: _ => p = slide_path first
         | _ => False
         end
      /\ one_page_at_a_time pdf rest
  | _ :: rest => one_page_at_a_time pdf rest
  end.

(** A trace that keeps to this discipline and does not end on a call of
    the renderer. *)
Definition settled (pdf : string) (tr : list Event) : Prop :=
  one_page_at_a_time pdf tr
  /\ forall ev, last tr = Some ev -> is_render ev = false.

(** The order of [str] values: by code points, a proper prefix first. *)
Definition str_lt (a b : string) : bool := String.ltb a b.

(** Filesystems for examples: a regular file in the place of [Web], and
    a directory in the place of the metadata file. *)
Definition web_is_file : FS :=
  <["Web" := File (TextData "not a directory")]>
  (<["in" := Dir]>
  (<["in/deck.pdf" := File (TextData "%PDF")]> ∅)).

Definition meta_is_dir : FS :=
  <["Web" := Dir]>
  (<["Web/meta.json" := Dir]>
  (<["in" := Dir]>
  (<["in/deck.pdf" := File (TextData "%PDF")]> ∅))).

(** The input document kept below the output directory. *)
Definition input_in_output_dir : FS :=
  <["Web" := Dir]>
  (<["Web/slides" := Dir]>
  (<["Web/slides/deck.pdf" := File (TextData "%PDF")]> ∅)).

(** An environment in which [pdfinfo] prints its report, complains on
    its error stream and ends with a non-zero return code. *)
Definition complaining (out : string) : Env :=
  mkEnv (fun _ _ => inr (mkCompleted 1 out "Syntax Warning: broken xref"))
        (render (Demo.env out 0 Demo.stamp1))
        (lanczos (Demo.env out 0 Demo.stamp1))
        (to_rgb (Demo.env out 0 Demo.stamp1))
        Demo.stamp1.

(** A report with a negative page count, one that separates the count
    by a tab, and one without a page count. *)
Definition negative_pages : string := "Pages:          -3" +:+ PyStr.NL.

Definition tabbed_report : string :=
  "Title:          deck" +:+ PyStr.NL +:+
  "Pages:" +:+ String (ascii_of_nat 9) "12" +:+ PyStr.NL +:+
  "Pages:          5".

Definition no_count_report : string :=
  "Title:          deck" +:+ PyStr.NL +:+
  "Total Pages:    3" +:+ PyStr.NL +:+
  "pages:          3" +:+ PyStr.NL.

(** Characters that a JSON string holds as they are, and a text between
    double quotes. *)
Definition plain_char (c : ascii) : bool :=
  (32 <=? nat_of_ascii c)%nat
  && negb (Ascii.eqb c Json.dquote) && negb (Ascii.eqb c Json.backslash).

Definition quoted (s : string) : string :=
  String Json.dquote (s +:+ String Json.dquote "").

(** * Properties *)

(** ** Text *)

Section Text.

Lemma app_cons (c : ascii) (s t : string) :
  String c s +:+ t = String c (s +:+ t).
Proof. reflexivity. Qed.

Lemma app_empty_l (t : string) : "" +:+ t = t.
Proof. reflexivity. Qed.

Lemma app_empty_r (s : string) : s +:+ "" = s.
Proof. induction s as [|c s IH]; [reflexivity|]. rewrite app_cons. by f_equal. Qed.

Lemma app_assoc_s (s t u : string) : (s +:+ t) +:+ u = s +:+ (t +:+ u).
Proof.
  induction s as [|c s IH]; [reflexivity|].
  rewrite !app_cons. by f_equal.
Qed.

Lemma all_chars_app P (s t : string) :
  all_chars P (s +:+ t) = all_chars P s && all_chars P t.
Proof.
  induction s as [|c s IH]; [reflexivity|].
  rewrite app_cons. simpl. rewrite IH. by rewrite andb_assoc.
Qed.

Lemma all_chars_weaken (P Q : ascii -> bool) (s : string) :
  (forall c, P c = true -> Q c = true) ->
  all_chars P s = true -> all_chars Q s = true.
Proof.
  intros HPQ. induction s as [|c s IH]; [done|]. simpl.
  intros [Hc Hs]%andb_true_iff. rewrite (HPQ c Hc). by apply IH.
Qed.

Lemma rev_onto_spec (s acc : string) :
  PyStr.rev_onto s acc = PyStr.rev s +:+ acc.
Proof.
  unfold PyStr.rev. revert acc.
  induction s as [|c s IH]; intros acc; [reflexivity|]. simpl.
  rewrite (IH (String c acc)), (IH (String c "")).
  by rewrite app_assoc_s.
Qed.

Lemma rev_cons (c : ascii) (s : string) :
  PyStr.rev (String c s) = PyStr.rev s +:+ String c "".
Proof. unfold PyStr.rev at 1. simpl. apply rev_onto_spec. Qed.

Lemma rev_app (s t : string) :
  PyStr.rev (s +:+ t) = PyStr.rev t +:+ PyStr.rev s.
Proof.
  induction s as [|c s IH].
  - by rewrite app_empty_l, app_empty_r.
  - by rewrite app_cons, !rev_cons, IH, app_assoc_s.
Qed.

Lemma rev_involutive (s : string) : PyStr.rev (PyStr.rev s) = s.
Proof.
  induction s as [|c s IH]; [reflexivity|].
  by rewrite rev_cons, rev_app, IH.
Qed.

Lemma all_chars_rev P (s : string) :
  all_chars P (PyStr.rev s) = all_chars P s.
Proof.
  induction s as [|c s IH]; [reflexivity|].
  rewrite rev_cons, all_chars_app, IH. simpl.
  rewrite andb_true_r. apply andb_comm.
Qed.

Lemma lstrip_nonspace (s : string) :
  all_chars nonspace s = true -> PyStr.lstrip s = s.
Proof.
  destruct s as [|c s]; [done|]. simpl. unfold nonspace.
  intros [Hc _]%andb_true_iff. by destruct (PyStr.isspace c).
Qed.

Lemma strip_nonspace (s : string) :
  all_chars nonspace s = true -> PyStr.strip s = s.
Proof.
  intros Hs. unfold PyStr.strip, PyStr.rstrip.
  rewrite (lstrip_nonspace s Hs).
  rewrite lstrip_nonspace by (by rewrite all_chars_rev).
  apply rev_involutive.
Qed.

Lemma lstrip_spaces (ws s : string) :
  all_chars PyStr.isspace ws = true ->
  PyStr.lstrip (ws +:+ s) = PyStr.lstrip s.
Proof.
  induction ws as [|c ws IH]; [done|]. simpl.
  intros [Hc Hws]%andb_true_iff. rewrite Hc. by apply IH.
Qed.

Lemma strip_padded (ws s : string) :
  all_chars PyStr.isspace ws = true ->
  all_chars nonspace s = true ->
  PyStr.strip (ws +:+ s) = s.
Proof.
  intros Hws Hs. unfold PyStr.strip.
  rewrite (lstrip_spaces ws s Hws), (lstrip_nonspace s Hs).
  unfold PyStr.rstrip.
  rewrite lstrip_nonspace by (by rewrite all_chars_rev).
  apply rev_involutive.
Qed.

(** Splitting a text without the separator. *)
Lemma split_from_no_sep (sep : ascii) (s cur : string) :
  all_chars (fun c => negb (Ascii.eqb c sep)) s = true ->
  PyStr.split_from sep s cur = [PyStr.rev cur +:+ s].
Proof.
  revert cur. induction s as [|c s IH]; intros cur; simpl.
  - by rewrite app_empty_r.
  - intros [Hc Hs]%andb_true_iff.
    destruct (Ascii.eqb c sep); [done|].
    rewrite (IH _ Hs), rev_cons, app_assoc_s. by rewrite app_cons.
Qed.

(** *** Decimal numerals *)

Lemma isdigit_neq (c d : ascii) :
  PyStr.isdigit d = false -> PyStr.isdigit c = true -> Ascii.eqb c d = false.
Proof.
  intros Hd Hc. destruct (Ascii.eqb_spec c d) as [->|]; [congruence|done].
Qed.

Lemma digits_uint (u : Decimal.uint) :
  all_chars PyStr.isdigit (NilEmpty.string_of_uint u) = true.
Proof. induction u; simpl; auto. Qed.

Lemma digits_zeros (k : nat) : all_chars PyStr.isdigit (PyStr.zeros k) = true.
Proof. induction k; simpl; auto. Qed.

Lemma uint_nonempty (u : Decimal.uint) :
  u <> Decimal.Nil -> NilEmpty.string_of_uint u <> "".
Proof. by destruct u. Qed.

Lemma digits_ok_digits (s : string) :
  all_chars PyStr.isdigit s = true -> PyStr.digits_ok true s = true.
Proof.
  induction s as [|c s IH]; [done|]. simpl.
  intros [Hc Hs]%andb_true_iff. rewrite Hc. by apply IH.
Qed.

Lemma digits_ok_literal (s : string) :
  all_chars PyStr.isdigit s = true -> s <> "" ->
  PyStr.digits_ok false s = true.
Proof.
  destruct s as [|c s]; [done|]. simpl.
  intros [Hc Hs]%andb_true_iff _. rewrite Hc. by apply digits_ok_digits.
Qed.

Lemma drop_underscores_digits (s : string) :
  all_chars PyStr.isdigit s = true -> PyStr.drop_underscores s = s.
Proof.
  induction s as [|c s IH]; [done|]. simpl.
  intros [Hc Hs]%andb_true_iff.
  rewrite (isdigit_neq c PyStr.underscore) by done.
  by rewrite IH.
Qed.

Lemma uint_of_zeros (k : nat) (s : string) :
  NilEmpty.uint_of_string (PyStr.zeros k +:+ s) =
  Nat.iter k (option_map Decimal.D0) (NilEmpty.uint_of_string s).
Proof.
  induction k as [|k IH]; [done|]. simpl. rewrite IH.
  by destruct (Nat.iter k _ _).
Qed.

Lemma of_uint_zeros (k : nat) (u : Decimal.uint) :
  option_map Z.of_uint (Nat.iter k (option_map Decimal.D0) (Some u)) =
  Some (Z.of_uint u).
Proof.
  induction k as [|k IH]; [done|]. simpl.
  destruct (Nat.iter k _ _) as [d|]; [|done].
  simpl in *. exact IH.
Qed.

(** A zero-padded numeral is a literal for the number it pads. *)
Lemma nat_literal_padded (k : nat) (u : Decimal.uint) :
  u <> Decimal.Nil ->
  PyStr.nat_literal (PyStr.zeros k +:+ NilEmpty.string_of_uint u) =
  Some (Z.of_uint u).
Proof.
  intros Hu. unfold PyStr.nat_literal.
  assert (Hd : all_chars PyStr.isdigit
                 (PyStr.zeros k +:+ NilEmpty.string_of_uint u) = true).
  { by rewrite all_chars_app, digits_zeros, digits_uint. }
  rewrite digits_ok_literal; [|done|].
  - rewrite (drop_underscores_digits _ Hd), uint_of_zeros, NilEmpty.usu.
    pose proof (of_uint_zeros k u) as Hz.
    destruct (Nat.iter k _ _) as [d|]; [|done]. simpl in Hz. done.
  - destruct k; [by apply uint_nonempty|done].
Qed.

Lemma int_unfold (s : string) :
  PyStr.int s =
  match PyStr.strip s with
  | EmptyString => None
  | String c body =>
      if Ascii.eqb c "+" then PyStr.nat_literal body
      else if Ascii.eqb c "-" then option_map Z.opp (PyStr.nat_literal body)
      else PyStr.nat_literal (String c body)
  end.
Proof.
  unfold PyStr.int. destruct (PyStr.strip s) as [|c body]; [done|].
  destruct c as [[|] [|] [|] [|] [|] [|] [|] [|]]; reflexivity.
Qed.

Lemma numeral_char_nonspace (c : ascii) :
  numeral_char c = true -> nonspace c = true.
Proof.
  unfold numeral_char, nonspace. intros [H|H]%orb_true_iff.
  - destruct (PyStr.isspace c) eqn:Hs; [|done].
    destruct c as [[|] [|] [|] [|] [|] [|] [|] [|]]; done.
  - apply Ascii.eqb_eq in H as ->. done.
Qed.

Lemma numeral_chars_format (w : nat) (n : Z) :
  all_chars numeral_char (PyStr.format_0d w n) = true.
Proof.
  assert (Hdig : forall s, all_chars PyStr.isdigit s = true ->
                           all_chars numeral_char s = true).
  { intros s. apply all_chars_weaken. unfold numeral_char.
    intros c ->. done. }
  unfold PyStr.format_0d, PyStr.of_int.
  destruct n as [|p|p]; simpl.
  - rewrite all_chars_app. rewrite !Hdig; [done| |]; [done|apply digits_zeros].
  - rewrite all_chars_app.
    rewrite !Hdig; [done|apply digits_uint|apply digits_zeros].
  - rewrite all_chars_app.
    rewrite !Hdig; [done|apply digits_uint|apply digits_zeros].
Qed.

Lemma of_uint_pos (p : positive) : Z.of_uint (Pos.to_uint p) = Z.pos p.
Proof. unfold Z.of_uint. by rewrite DecimalPos.Unsigned.of_to. Qed.

(** [int] reads back what the [0{w}d] format prints. *)
Lemma int_format_0d (w : nat) (n : Z) :
  PyStr.int (PyStr.format_0d w n) = Some n.
Proof.
  rewrite int_unfold.
  rewrite strip_nonspace; cycle 1.
  { eapply all_chars_weaken; [apply numeral_char_nonspace|].
    apply numeral_chars_format. }
  unfold PyStr.format_0d, PyStr.of_int.
  destruct n as [|p|p]; simpl.
  - generalize (w - 1)%nat as k. intros k.
    pose proof (nat_literal_padded k (Decimal.D0 Decimal.Nil)) as H.
    simpl in H. specialize (H ltac:(done)).
    destruct k as [|k]; [done|]. exact H.
  - set (k := (w - _)%nat). clearbody k.
    pose proof (nat_literal_padded k (Pos.to_uint p)
                  (DecimalPos.Unsigned.to_uint_nonnil p)) as H.
    rewrite of_uint_pos in H.
    pose proof (digits_uint (Pos.to_uint p)) as Hd.
    pose proof (uint_nonempty _ (DecimalPos.Unsigned.to_uint_nonnil p)) as Hne.
    destruct k as [|k]; [|exact H].
    simpl in H |- *. rewrite app_empty_l in H |- *.
    destruct (NilEmpty.string_of_uint (Pos.to_uint p)) as [|c body]; [done|].
    simpl in Hd. apply andb_true_iff in Hd as [Hc _].
    rewrite (isdigit_neq c "+"), (isdigit_neq c "-") by done. exact H.
  - set (k := (w - 1 - _)%nat). clearbody k.
    rewrite (nat_literal_padded k (Pos.to_uint p)
               (DecimalPos.Unsigned.to_uint_nonnil p)).
    by rewrite of_uint_pos.
Qed.

Lemma format_0d_inj (w : nat) (n m : Z) :
  PyStr.format_0d w n = PyStr.format_0d w m -> n = m.
Proof.
  intros H. pose proof (int_format_0d w n) as Hn.
  rewrite H, int_format_0d in Hn. congruence.
Qed.

Lemma int_of_int (n : Z) : PyStr.int (PyStr.of_int n) = Some n.
Proof.
  pose proof (int_format_0d 0 n) as H.
  unfold PyStr.format_0d in H. simpl in H.
  destruct (n <? 0) eqn:Hn; [|exact H].
  destruct n as [|p|p]; try done.
Qed.

(** *** Reading back a JSON document *)

Lemma length_app_s (s t : string) :
  String.length (s +:+ t) = (String.length s + String.length t)%nat.
Proof. induction s as [|c s IH]; simpl; [done|]. by rewrite IH. Qed.





Lemma numeral_chars_of_int (n : Z) :
  all_chars numeral_char (PyStr.of_int n) = true.
Proof.
  pose proof (numeral_chars_format 0 n) as H.
  unfold PyStr.format_0d in H. destruct (n <? 0) eqn:Hn; [|exact H].
  destruct n; done.
Qed.






(** *** The page-count line *)

Lemma prefix_app (p s : string) :
  String.prefix p s = true -> exists r, s = p +:+ r.
Proof.
  revert s. induction p as [|c p IH]; intros s.
  - intros _. by exists s.
  - destruct s as [|d s]; [done|]. simpl.
    destruct (ascii_dec c d) as [->|]; [|done].
    intros [r ->]%IH. by exists r.
Qed.

Lemma split_from_head (sep : ascii) (s cur : string) :
  exists rest,
    PyStr.split_from sep s cur = (PyStr.rev cur +:+ before sep s) :: rest.
Proof.
  revert cur. induction s as [|c s IH]; intros cur; simpl.
  - exists []. by rewrite app_empty_r.
  - destruct (Ascii.eqb c sep).
    + eexists. by rewrite app_empty_r.
    + destruct (IH (String c cur)) as [rest ->]. exists rest.
      by rewrite rev_cons, app_assoc_s.
Qed.

(** On a line that starts with [Pages:] the index [1] is in bounds and
    selects the text up to the next colon. *)
Lemma split_pages_line (line : string) :
  pages_line line = true ->
  py_index (PyStr.split ":" line) 1 = Ok (pages_field line).
Proof.
  intros [r ->]%prefix_app. unfold PyStr.split, pages_field. simpl.
  rewrite app_empty_l.
  destruct (split_from_head ":" r "") as [rest ->]. done.
Qed.

Lemma parse_pages_line_eq (line : string) :
  pages_line line = true ->
  parse_pages_line line =
  match PyStr.int (PyStr.strip (pages_field line)) with
  | Some n => Ok n
  | None => Raise ValueError
  end.
Proof. intros H. unfold parse_pages_line. by rewrite split_pages_line. Qed.

Lemma scan_lines_eq (pdf : string) (lines : list string) :
  scan_lines pdf lines =
  match List.find pages_line lines with
  | None => Raise (RuntimeError pdf)
  | Some line =>
      match PyStr.int (PyStr.strip (pages_field line)) with
      | Some n => Ok n
      | None => Raise ValueError
      end
  end.
Proof.
  induction lines as [|line rest IH]; [done|]. simpl.
  fold (pages_line line). destruct (pages_line line) eqn:Hl; [|done].
  by apply parse_pages_line_eq.
Qed.

(** A line [Pages:<blanks><decimal n>] carries [n]. *)
Lemma pages_field_numeral (ws : string) (n : Z) :
  all_chars PyStr.isspace ws = true ->
  PyStr.int (PyStr.strip (pages_field ("Pages:" +:+ ws +:+ PyStr.of_int n)))
  = Some n.
Proof.
  intros Hws. unfold pages_field. simpl. rewrite app_empty_l.
  assert (Hnum : all_chars numeral_char (PyStr.of_int n) = true).
  { pose proof (numeral_chars_format 0 n) as H.
    unfold PyStr.format_0d in H. destruct (n <? 0) eqn:Hn; [|exact H].
    destruct n; try done. }
  assert (Hcolon : forall s (P : ascii -> bool),
             (forall c, P c = true -> Ascii.eqb c ":" = false) ->
             all_chars P s = true -> forall t, before ":" (s +:+ t) = s +:+ before ":" t).
  { intros s P HP. induction s as [|c s IH]; [done|]. simpl.
    intros [Hc Hs]%andb_true_iff t. rewrite (HP c Hc). by rewrite IH. }
  rewrite (Hcolon ws PyStr.isspace); [| |done]; cycle 1.
  { intros c Hc. destruct (Ascii.eqb_spec c ":") as [->|]; done. }
  rewrite <- (app_empty_r (PyStr.of_int n)) at 1.
  rewrite (Hcolon (PyStr.of_int n) numeral_char); [| |done]; cycle 1.
  { intros c Hc. destruct (Ascii.eqb_spec c ":") as [->|]; done. }
  simpl. rewrite app_empty_r.
  rewrite strip_padded; [apply int_of_int|done|].
  eapply all_chars_weaken; [apply numeral_char_nonspace|done].
Qed.

End Text.

(** ** The page-count probe *)

Section Probe.

Context (E : Env) (pdf_path : string).

Lemma get_total_pages_eq (w : World) :
  get_total_pages E pdf_path w =
  let out := run_pdfinfo E (files w) pdf_path in
  (mkWorld (files w) (trace w ++ [RunPdfinfo pdf_path out]),
   match out with
   | inl tag => Raise (External tag)
   | inr cp => scan_lines pdf_path (PyStr.splitlines (stdout cp))
   end).
Proof.
  unfold get_total_pages, bind, call_tool, lift. simpl.
  by destruct (run_pdfinfo E (files w) pdf_path).
Qed.

Lemma probe_eq (fs : FS) :
  probe E pdf_path fs =
  match run_pdfinfo E fs pdf_path with
  | inl tag => Raise (External tag)
  | inr cp =>
      match first_pages_line (stdout cp) with
      | None => Raise (RuntimeError pdf_path)
      | Some line =>
          match PyStr.int (PyStr.strip (pages_field line)) with
          | Some n => Ok n
          | None => Raise ValueError
          end
      end
  end.
Proof.
  unfold probe. rewrite get_total_pages_eq. simpl.
  destruct (run_pdfinfo E fs pdf_path); [done|]. apply scan_lines_eq.
Qed.

End Probe.

(** ** Paths of the script *)

Section Paths.

Lemma slide_path_eq (i : Z) :
  slide_path i = "Web/slides/slide_" +:+ PyStr.format_0d 3 i +:+ ".jpg".
Proof. reflexivity. Qed.

Lemma slide_path_under (i : Z) : Fs.under OUTPUT_DIR (slide_path i) = true.
Proof. reflexivity. Qed.

Lemma slide_path_not_dir (i : Z) : slide_path i <> OUTPUT_DIR.
Proof. rewrite slide_path_eq. discriminate. Qed.

Lemma slide_path_not_meta (i : Z) : slide_path i <> META_PATH.
Proof. rewrite slide_path_eq. discriminate. Qed.

Lemma slide_path_not_web (i : Z) : slide_path i <> "Web".
Proof. rewrite slide_path_eq. discriminate. Qed.

Lemma append_cancel_tail (P : ascii -> bool) (c : ascii) (s s' t t' : string) :
  P c = false ->
  all_chars P s = true -> all_chars P s' = true ->
  s +:+ String c t = s' +:+ String c t' -> s = s'.
Proof.
  intros Hc. revert s'.
  induction s as [|a s IH]; intros [|a' s']; simpl; intros Hs Hs' Heq.
  - done.
  - injection Heq as <- _. apply andb_true_iff in Hs' as [? _]. congruence.
  - injection Heq as -> _. apply andb_true_iff in Hs as [? _]. congruence.
  - injection Heq as -> Heq.
    apply andb_true_iff in Hs as [_ Hs]. apply andb_true_iff in Hs' as [_ Hs'].
    f_equal. by apply IH.
Qed.

Lemma slide_path_inj (i j : Z) : slide_path i = slide_path j -> i = j.
Proof.
  rewrite !slide_path_eq. intros H. simpl in H.
  injection H as H.
  apply (format_0d_inj 3).
  apply (append_cancel_tail numeral_char "." _ _ "jpg" "jpg");
    [done|apply numeral_chars_format..|done].
Qed.

Lemma cut_last_slash_plain (t : string) :
  all_chars nonslash t = true -> PosixPath.cut_last_slash t = ("", t).
Proof.
  induction t as [|c t IH]; [done|]. simpl.
  intros [Hc Ht]%andb_true_iff. rewrite (IH Ht).
  unfold nonslash in Hc. by destruct (Ascii.eqb c PosixPath.slash).
Qed.

Lemma cut_last_slash_app (h t : string) :
  all_chars nonslash t = true ->
  PosixPath.cut_last_slash (h +:+ String PosixPath.slash t)
  = (h +:+ String PosixPath.slash "", t).
Proof.
  intros Ht. induction h as [|c h IH]; simpl.
  - rewrite !app_empty_l. simpl. by rewrite (cut_last_slash_plain t Ht).
  - rewrite IH. destruct (Ascii.eqb c PosixPath.slash); [done|].
    by destruct h.
Qed.

Lemma numeral_char_nonslash (c : ascii) :
  numeral_char c = true -> nonslash c = true.
Proof.
  unfold numeral_char, nonslash, PosixPath.slash.
  intros H. destruct (Ascii.eqb_spec c "/") as [->|]; done.
Qed.

Lemma slide_filename_nonslash (i : Z) :
  all_chars nonslash (slide_filename i) = true.
Proof.
  unfold slide_filename. rewrite !all_chars_app.
  repeat (apply andb_true_iff; split); try reflexivity.
  eapply all_chars_weaken;
    [apply numeral_char_nonslash|apply numeral_chars_format].
Qed.

(** The directory of a slide is the output directory. *)
Lemma slide_path_parent (i : Z) :
  PosixPath.split (slide_path i) = (OUTPUT_DIR, slide_filename i).
Proof.
  unfold PosixPath.split.
  change (slide_path i)
    with ("Web/slides" +:+ String PosixPath.slash (slide_filename i)).
  rewrite cut_last_slash_app by apply slide_filename_nonslash.
  reflexivity.
Qed.


Lemma basename_plain (name : string) :
  all_chars nonslash name = true -> PosixPath.basename name = name.
Proof. intros H. unfold PosixPath.basename. by rewrite cut_last_slash_plain. Qed.

End Paths.

(** ** Filesystem operations *)

Section Filesystem.

Implicit Types (fs : FS) (p d : string).

Lemma ancestors_from_spec (pre d r : string) :
  In (PyStr.rev pre +:+ d)
     (Fs.ancestors_from pre (d +:+ String PosixPath.slash r)).
Proof.
  revert pre. induction d as [|c d IH]; intros pre.
  - rewrite app_empty_l, app_empty_r. simpl. by left.
  - rewrite app_cons. simpl. apply in_or_app. right.
    specialize (IH (String c pre)).
    by rewrite rev_cons, app_assoc_s in IH.
Qed.

Lemma under_ancestor d p : Fs.under d p = true -> In d (Fs.ancestors p).
Proof.
  unfold Fs.under. intros [r ->]%prefix_app.
  rewrite app_assoc_s. exact (ancestors_from_spec "" d r).
Qed.

(** In a well-formed filesystem whatever exists below [d] makes [d] a
    directory. *)
Lemma wf_under fs d p :
  Fs.wf fs -> Fs.under d p = true -> is_Some (fs !! p) -> fs !! d = Some Dir.
Proof.
  intros Hwf Hu [n Hn]. specialize (Hwf p n Hn). simpl in Hwf.
  rewrite Forall_forall in Hwf. apply Hwf, list_elem_of_In.
  by apply under_ancestor.
Qed.

Lemma wf_empty : Fs.wf ∅.
Proof. apply map_Forall_empty. Qed.

Lemma prefix_refl_app (p r : string) : String.prefix p (p +:+ r) = true.
Proof.
  induction p as [|c p IH]; simpl; [by destruct r|].
  by destruct (ascii_dec c c).
Qed.

Lemma ancestors_from_inv (pre p a : string) :
  In a (Fs.ancestors_from pre p) ->
  exists d r, p = d +:+ String PosixPath.slash r /\ a = PyStr.rev pre +:+ d.
Proof.
  revert pre. induction p as [|c p IH]; intros pre; simpl; [done|].
  intros [Hin|Hin]%in_app_or.
  - destruct (Ascii.eqb_spec c PosixPath.slash) as [->|]; [|done].
    destruct Hin as [<-|[]]. exists "", p. by rewrite app_empty_r.
  - destruct (IH _ Hin) as (d & r & -> & ->).
    exists (String c d), r. split; [done|].
    by rewrite rev_cons, app_assoc_s.
Qed.

Lemma ancestor_under (d p : string) :
  In d (Fs.ancestors p) <-> Fs.under d p = true.
Proof.
  split; [|apply under_ancestor].
  intros (d' & r & -> & ->)%ancestors_from_inv. unfold Fs.under.
  change (PyStr.rev "" +:+ d') with d'.
  change (d' +:+ String PosixPath.slash r) with (d' +:+ "/" +:+ r).
  rewrite <- app_assoc_s. apply prefix_refl_app.
Qed.

Lemma under_trans (a b c : string) :
  Fs.under a b = true -> Fs.under b c = true -> Fs.under a c = true.
Proof.
  unfold Fs.under. intros [r ->]%prefix_app [r' ->]%prefix_app.
  rewrite (app_assoc_s (a +:+ "/") r). rewrite (app_assoc_s (a +:+ "/")).
  apply prefix_refl_app.
Qed.

Lemma under_irrefl (p : string) : Fs.under p p = false.
Proof.
  unfold Fs.under. destruct (String.prefix (p +:+ "/") p) eqn:H; [|done].
  apply prefix_app in H as [r Hr].
  apply (f_equal String.length) in Hr. rewrite !length_app_s in Hr.
  simpl in Hr. lia.
Qed.

(** The characterisation of well-formedness by lookups. *)
Lemma wf_spec fs :
  Fs.wf fs <->
  forall d p, Fs.under d p = true -> is_Some (fs !! p) -> fs !! d = Some Dir.
Proof.
  split; [intros Hwf d p; by apply wf_under|].
  intros H p n Hn. simpl. apply Forall_forall. intros d Hd.
  apply list_elem_of_In, ancestor_under in Hd. by eapply H.
Qed.

Lemma rmtree_lookup fs fs' d p :
  Fs.rmtree d fs = Ok fs' ->
  fs' !! p = if Fs.within d p then None else fs !! p.
Proof.
  unfold Fs.rmtree. destruct (fs !! d) as [[|?]|]; try done.
  intros [= <-]. destruct (Fs.within d p) eqn:Hw.
  - apply map_lookup_filter_None. right. intros n _. simpl. congruence.
  - destruct (fs !! p) as [n|] eqn:Hp.
    + by apply map_lookup_filter_Some.
    + apply map_lookup_filter_None. by left.
Qed.

Lemma within_refl d : Fs.within d d = true.
Proof. unfold Fs.within. by rewrite String.eqb_refl. Qed.

Lemma under_within d p : Fs.under d p = true -> Fs.within d p = true.
Proof. unfold Fs.within. intros ->. apply orb_true_r. Qed.

(** Removing a tree keeps a filesystem well-formed. *)
Lemma rmtree_wf fs fs' d :
  Fs.wf fs -> Fs.rmtree d fs = Ok fs' -> Fs.wf fs'.
Proof.
  rewrite !wf_spec. intros Hwf Hrm a p Hap [n Hn].
  rewrite (rmtree_lookup _ _ _ p Hrm) in Hn.
  rewrite (rmtree_lookup _ _ _ a Hrm).
  destruct (Fs.within d p) eqn:Hp; [done|].
  destruct (Fs.within d a) eqn:Ha.
  - exfalso. unfold Fs.within in Ha, Hp.
    apply orb_false_iff in Hp as [_ Hp].
    apply orb_true_iff in Ha as [->%String.eqb_eq|Ha]; [congruence|].
    by rewrite (under_trans _ _ _ Ha Hap) in Hp.
  - apply (Hwf a p Hap). by exists n.
Qed.

(** Adding an entry whose ancestors are directories keeps a filesystem
    well-formed, unless it replaces a directory by a file. *)
Lemma insert_wf fs p (n : Node) :
  Fs.wf fs ->
  (forall d, Fs.under d p = true -> fs !! d = Some Dir) ->
  n = Dir \/ fs !! p <> Some Dir ->
  Fs.wf (<[p := n]> fs).
Proof.
  rewrite !wf_spec. intros Hwf Hanc Hn a q Haq [m Hm].
  assert (Ha : fs !! a = Some Dir).
  { destruct (decide (p = q)) as [<-|Hpq]; [by apply Hanc|].
    rewrite lookup_insert_ne in Hm by done. apply (Hwf a q Haq). by exists m. }
  destruct (decide (p = a)) as [->|Hpa].
  - rewrite lookup_insert_eq. by destruct Hn as [->|].
  - by rewrite lookup_insert_ne.
Qed.

Lemma makedirs_fuel_S (fuel : nat) (name : string) fs :
  Fs.makedirs_fuel (S fuel) name fs =
  let '(head, tail) := PosixPath.split name in
  let '(head, tail) :=
    if String.eqb tail "" then PosixPath.split head else (head, tail) in
  if negb (String.eqb head "") && negb (String.eqb tail "")
     && negb (Fs.exists_ fs head)
  then
    let after :=
      match Fs.makedirs_fuel fuel head fs with
      | Ok fs' => Ok fs'
      | Raise (FileExistsError _) => Ok fs
      | Raise e => Raise e
      end in
    match after with
    | Raise e => Raise e
    | Ok fs' => if String.eqb tail "." then Ok fs' else Fs.mkdir name fs'
    end
  else Fs.mkdir name fs.
Proof. reflexivity. Qed.

(** What [os.makedirs("Web/slides")] does, by the state of [Web] and of
    [Web/slides]. *)
Lemma makedirs_output_dir fs :
  Fs.makedirs OUTPUT_DIR fs =
  match fs !! "Web" with
  | None =>
      match fs !! OUTPUT_DIR with
      | Some _ => Raise (FileExistsError OUTPUT_DIR)
      | None => Ok (<[OUTPUT_DIR := Dir]> (<["Web" := Dir]> fs))
      end
  | Some Dir =>
      match fs !! OUTPUT_DIR with
      | Some _ => Raise (FileExistsError OUTPUT_DIR)
      | None => Ok (<[OUTPUT_DIR := Dir]> fs)
      end
  | Some (File _) => Raise (NotADirectoryError OUTPUT_DIR)
  end.
Proof.
  unfold Fs.makedirs, OUTPUT_DIR.
  change (S (String.length "Web/slides")) with 11%nat.
  assert (Hmk : forall fs0, Fs.mkdir "Web/slides" fs0 =
            match fs0 !! "Web" with
            | Some Dir =>
                match fs0 !! "Web/slides" with
                | Some _ => Raise (FileExistsError "Web/slides")
                | None => Ok (<["Web/slides" := Dir]> fs0)
                end
            | Some (File _) => Raise (NotADirectoryError "Web/slides")
            | None => Raise (FileNotFoundError "Web/slides")
            end).
  { intros fs0. unfold Fs.mkdir, Fs.check_parent.
    change (PosixPath.split "Web/slides") with ("Web", "slides").
    change (String.eqb ("Web", "slides").1 "") with false.
    cbv beta iota. change (("Web", "slides").1) with "Web".
    by destruct (fs0 !! "Web") as [[|?]|]. }
  assert (Hmk' : forall fs0, Fs.mkdir "Web" fs0 =
            match fs0 !! "Web" with
            | Some _ => Raise (FileExistsError "Web")
            | None => Ok (<["Web" := Dir]> fs0)
            end).
  { intros fs0. unfold Fs.mkdir, Fs.check_parent.
    change (PosixPath.split "Web") with ("", "Web").
    change (String.eqb ("", "Web").1 "") with true.
    by cbv beta iota. }
  rewrite makedirs_fuel_S.
  change (PosixPath.split "Web/slides") with ("Web", "slides").
  cbv beta iota.
  change (String.eqb "slides" "") with false. cbv beta iota.
  change (String.eqb "Web" "") with false.
  change (String.eqb "slides" ".") with false.
  simpl negb. simpl andb. unfold Fs.exists_.
  destruct (fs !! "Web") as [n|] eqn:HWeb.
  - simpl negb. cbv iota. rewrite Hmk, HWeb. done.
  - simpl negb. cbv iota.
    rewrite makedirs_fuel_S.
    change (PosixPath.split "Web") with ("", "Web").
    cbv beta iota.
    change (String.eqb "Web" "") with false. cbv beta iota.
    change (String.eqb "" "") with true.
    simpl negb. simpl andb. cbv iota.
    rewrite Hmk', HWeb, Hmk, lookup_insert_eq.
    rewrite lookup_insert_ne by done. done.
Qed.

End Filesystem.

(** ** The steps of the script *)

Section Steps.

Context (E : Env) (pdf : string).

Implicit Types (w : World) (fs : FS) (p : string).

Lemma wf_tidy fs : Fs.wf fs -> tidy fs.
Proof.
  intros Hwf Hnone p Hp. destruct (fs !! p) as [n|] eqn:Hn; [|done].
  rewrite (wf_under fs OUTPUT_DIR p Hwf Hp) in Hnone; [done|by eexists].
Qed.

(** *** Directory reset *)

Lemma reset_output_dir_eq w :
  reset_output_dir w =
  match files w !! OUTPUT_DIR with
  | Some (File _) =>
      (mkWorld (files w) (trace w ++ [Rmtree OUTPUT_DIR]),
       Raise (NotADirectoryError OUTPUT_DIR))
  | Some Dir =>
      let fs1 := filter (fun kv => Fs.within OUTPUT_DIR kv.1 = false) (files w) in
      let tr := trace w ++ [Rmtree OUTPUT_DIR; Makedirs OUTPUT_DIR] in
      match Fs.makedirs OUTPUT_DIR fs1 with
      | Ok fs2 => (mkWorld fs2 tr, Ok tt)
      | Raise e => (mkWorld fs1 tr, Raise e)
      end
  | None =>
      let tr := trace w ++ [Makedirs OUTPUT_DIR] in
      match Fs.makedirs OUTPUT_DIR (files w) with
      | Ok fs2 => (mkWorld fs2 tr, Ok tt)
      | Raise e => (mkWorld (files w) tr, Raise e)
      end
  end.
Proof.
  unfold reset_output_dir, bind, read_fs, emit, update_fs, ret, Fs.exists_,
    Fs.rmtree.
  destruct w as [fs tr]. cbn [files trace].
  destruct (fs !! OUTPUT_DIR) as [[|data]|] eqn:Hdir;
    cbn [files trace]; rewrite ?Hdir; cbn [files trace]; try done.
  - rewrite <- app_assoc. by destruct (Fs.makedirs _ _).
Qed.

(** The reset touches nothing outside the output directory, but for the
    creation of [Web]. *)
Lemma reset_frame w w' r p :
  reset_output_dir w = (w', r) ->
  Fs.within OUTPUT_DIR p = false -> p <> "Web" ->
  files w' !! p = files w !! p.
Proof.
  rewrite reset_output_dir_eq. intros Hrun Hp HWeb.
  assert (Hne : p <> OUTPUT_DIR).
  { intros ->. by rewrite within_refl in Hp. }
  assert (Hfilter :
    filter (fun kv : string * Node => Fs.within OUTPUT_DIR kv.1 = false)
      (files w) !! p = files w !! p).
  { destruct (files w !! p) as [n|] eqn:Hn.
    - by apply map_lookup_filter_Some.
    - apply map_lookup_filter_None. by left. }
  destruct (files w !! OUTPUT_DIR) as [[|data]|] eqn:Hdir.
  - simpl in Hrun. rewrite makedirs_output_dir in Hrun.
    repeat case_match; simplify_eq; simpl; try done;
      rewrite ?lookup_insert_ne by done; done.
  - by simplify_eq.
  - simpl in Hrun. rewrite makedirs_output_dir in Hrun.
    repeat case_match; simplify_eq; simpl; try done;
      rewrite ?lookup_insert_ne by done; done.
Qed.

(** After a successful reset the output directory exists, [Web] exists,
    and in a tidy filesystem nothing lies below the output directory. *)
Lemma reset_ok w w' :
  reset_output_dir w = (w', Ok tt) ->
  files w' !! OUTPUT_DIR = Some Dir
  /\ files w' !! "Web" = Some Dir
  /\ (tidy (files w) ->
      forall p, Fs.under OUTPUT_DIR p = true -> files w' !! p = None)
  /\ trace w' = trace w ++ reset_trace (Fs.exists_ (files w) OUTPUT_DIR).
Proof.
  rewrite reset_output_dir_eq. unfold reset_trace, Fs.exists_, tidy.
  assert (Hfresh : forall fs n p,
            Fs.under OUTPUT_DIR p = true ->
            <[OUTPUT_DIR := n]> fs !! p = fs !! p
            /\ <["Web" := n]> fs !! p = fs !! p).
  { intros fs n p Hp. split; apply lookup_insert_ne; by intros <-. }
  destruct (files w !! OUTPUT_DIR) as [[|data]|] eqn:Hdir; [| done |].
  - simpl. rewrite makedirs_output_dir.
    set (fs1 := filter _ (files w)).
    assert (Hin : forall p, Fs.within OUTPUT_DIR p = true -> fs1 !! p = None).
    { intros p Hp. apply map_lookup_filter_None. right. intros n _. simpl.
      congruence. }
    rewrite (Hin OUTPUT_DIR (within_refl _)).
    destruct (fs1 !! "Web") as [[|?]|] eqn:HWeb; [| done |];
      intros [= <-]; simpl; rewrite lookup_insert_eq;
      (split; [done|]); (split; [by simplify_map_eq|]);
      (split; [|done]); intros _ p Hp.
    + rewrite (proj1 (Hfresh _ _ _ Hp)). by apply Hin, under_within.
    + rewrite (proj1 (Hfresh _ _ _ Hp)), (proj2 (Hfresh _ _ _ Hp)).
      by apply Hin, under_within.
  - simpl. rewrite makedirs_output_dir, Hdir.
    destruct (files w !! "Web") as [[|?]|] eqn:HWeb; [| done |];
      intros [= <-]; simpl; rewrite lookup_insert_eq;
      (split; [done|]); (split; [by simplify_map_eq|]);
      (split; [|done]); intros Htidy p Hp.
    + rewrite (proj1 (Hfresh _ _ _ Hp)). by apply Htidy.
    + rewrite (proj1 (Hfresh _ _ _ Hp)), (proj2 (Hfresh _ _ _ Hp)).
      by apply Htidy.
Qed.

(** *** One page *)

Lemma normalise_slide (page : Image) : slide_image (normalise E page).
Proof.
  unfold slide_image, normalise.
  destruct (String.eqb (im_mode (Pil.resize E page _)) "RGB") eqn:Hm; simpl.
  - by apply String.eqb_eq in Hm.
  - done.
Qed.

Lemma check_parent_slide fs (i : Z) :
  fs !! OUTPUT_DIR = Some Dir -> Fs.check_parent fs (slide_path i) = Ok tt.
Proof.
  intros Hdir. unfold Fs.check_parent. rewrite slide_path_parent. simpl.
  by rewrite Hdir.
Qed.

Lemma convert_page_eq (i : Z) w :
  files w !! OUTPUT_DIR = Some Dir ->
  convert_page E pdf i w =
  match render E (files w) pdf DPI i i with
  | inl tag =>
      (mkWorld (files w) (trace w ++ [Render pdf DPI i i (inl tag)]),
       Raise (External tag))
  | inr [] =>
      (mkWorld (files w) (trace w ++ [Render pdf DPI i i (inr [])]),
       Raise IndexError)
  | inr (page :: more) =>
      match files w !! slide_path i with
      | Some Dir =>
          (mkWorld (files w)
             (trace w ++ [Render pdf DPI i i (inr (page :: more));
                          Save (slide_path i) (normalise E page) JPG_QUALITY]),
           Raise (IsADirectoryError (slide_path i)))
      | _ => (page_stored E pdf i (page :: more) page w, Ok tt)
      end
  end.
Proof.
  intros Hdir. unfold convert_page, bind, call_tool, lift, external.
  fold (slide_path i). cbn [files trace].
  destruct (render E (files w) pdf DPI i i) as [tag|[|page more]]; [done..|].
  unfold py_index. cbn [lookup list_lookup].
  unfold Pil.save, bind, emit, update_fs, read_fs, raise, page_stored.
  cbn [files trace].
  destruct (normalise_slide page) as [_ Hmode]. rewrite Hmode.
  change (Pil.jpeg_mode "RGB") with true. cbv beta iota. cbn [files trace].
  unfold Fs.write_file. rewrite (check_parent_slide _ i Hdir).
  rewrite <- app_assoc. cbn [app].
  destruct (files w !! slide_path i) as [[|data]|] eqn:Hp; try done.
  - cbn [files trace]. unfold Fs.getsize. by rewrite lookup_insert_eq.
  - cbn [files trace]. unfold Fs.getsize. by rewrite lookup_insert_eq.
Qed.

Lemma convert_page_cases (i : Z) w w' r :
  files w !! OUTPUT_DIR = Some Dir ->
  convert_page E pdf i w = (w', r) ->
  match r with
  | Ok _ =>
      exists page more,
        render E (files w) pdf DPI i i = inr (page :: more)
        /\ files w !! slide_path i <> Some Dir
        /\ w' = page_stored E pdf i (page :: more) page w
  | Raise e => page_fails E pdf i w w' e
  end.
Proof.
  intros Hdir. rewrite (convert_page_eq i w Hdir).
  destruct (render E (files w) pdf DPI i i) as [tag|[|page more]] eqn:Hr.
  - intros [= <- <-]. by constructor.
  - intros [= <- <-]. by constructor.
  - destruct (files w !! slide_path i) as [[|data]|] eqn:Hp;
      intros [= <- <-].
    + by econstructor.
    + by exists page, more.
    + by exists page, more.
Qed.

Lemma page_stored_dir (i : Z) pages page w :
  files w !! OUTPUT_DIR = Some Dir ->
  files (page_stored E pdf i pages page w) !! OUTPUT_DIR = Some Dir.
Proof.
  intros Hdir. simpl. rewrite lookup_insert_ne; [done|].
  apply slide_path_not_dir.
Qed.

(** *** The page loop *)

Lemma for_each_pages (pages : list Z) w w' r :
  files w !! OUTPUT_DIR = Some Dir ->
  for_each pages (convert_page E pdf) w = (w', r) ->
  match r with
  | Ok _ => pages_stored E pdf pages w w'
  | Raise e =>
      exists done i rest wm,
        pages = done ++ i :: rest
        /\ pages_stored E pdf done w wm
        /\ page_fails E pdf i wm w' e
  end.
Proof.
  revert w. induction pages as [|i pages IH]; intros w Hdir.
  - intros [= <- <-]. constructor.
  - simpl. unfold bind.
    destruct (convert_page E pdf i w) as [w1 [[]|e]] eqn:Hpage.
    + pose proof (convert_page_cases i w w1 _ Hdir Hpage)
        as (page & more & Hr & Hfree & ->).
      intros Hloop. apply IH in Hloop; [|by apply page_stored_dir].
      destruct r as [[]|e].
      * by econstructor.
      * destruct Hloop as (done & j & rest & wm & -> & Hdone & Hfail).
        exists (i :: done), j, rest, wm. split; [done|].
        split; [by econstructor|done].
    + intros [= <- <-].
      pose proof (convert_page_cases i w w1 _ Hdir Hpage) as Hfail.
      exists [], i, pages, w. split; [done|]. split; [constructor|done].
Qed.

(** What the stored pages leave in the filesystem. *)
Lemma stored_files (pages : list Z) w w' :
  pages_stored E pdf pages w w' ->
  (forall p, (forall i, In i pages -> p <> slide_path i) ->
             files w' !! p = files w !! p)
  /\ (forall i, In i pages ->
        exists fs page more,
          render E fs pdf DPI i i = inr (page :: more)
          /\ files w' !! slide_path i
             = Some (File (JpegData (normalise E page) JPG_QUALITY))).
Proof.
  induction 1 as [w|i rest w w' page more Hr Hfree Hrest [IHframe IHnew]].
  - split; [done|]. intros i [].
  - split.
    + intros p Hp. rewrite IHframe.
      * simpl. apply lookup_insert_ne. intros Heq.
        apply (Hp i); [by left|done].
      * intros j Hj. apply Hp. by right.
    + intros j Hj. destruct (in_dec Z.eq_dec j rest) as [Hin|Hout].
      * by apply IHnew.
      * destruct Hj as [<-|Hj]; [|done].
        rewrite IHframe.
        -- simpl. rewrite lookup_insert_eq. by exists (files w), page, more.
        -- intros j Hj ->%slide_path_inj. done.
Qed.

(** The events of storing pages. *)
Lemma stored_trace (pages : list Z) w w' :
  pages_stored E pdf pages w w' ->
  exists tr,
    trace w' = trace w ++ tr
    /\ rendered_pages tr = pages
    /\ saved_paths tr = map slide_path pages
    /\ meta_writes tr = []
    /\ Forall slide_image (saved_images tr)
    /\ (forall ev, In ev tr ->
          (exists i imgs, ev = Render pdf DPI i i (inr imgs) /\ In i pages)
          \/ (exists i img, ev = Save (slide_path i) img JPG_QUALITY
                           /\ In i pages)).
Proof.
  induction 1 as [w|i rest w w' page more Hr Hfree Hrest IH].
  - exists []. rewrite app_nil_r. repeat split; done.
  - destruct IH as (tr & Htr & Hren & Hsav & Hmeta & Himg & Hev).
    exists ([Render pdf DPI i i (inr (page :: more));
             Save (slide_path i) (normalise E page) JPG_QUALITY] ++ tr).
    split; [|split; [|split; [|split; [|split]]]].
    + rewrite Htr. simpl. by rewrite <- app_assoc.
    + simpl. by rewrite Hren.
    + simpl. by rewrite Hsav.
    + done.
    + simpl. constructor; [apply normalise_slide|done].
    + intros ev [<-|[<-|Hin]].
      * left. exists i, (page :: more). split; [done|by left].
      * right. exists i, (normalise E page). split; [done|by left].
      * destruct (Hev ev Hin) as [(j & imgs & -> & Hj)|(j & img & -> & Hj)].
        -- left. exists j, imgs. split; [done|by right].
        -- right. exists j, img. split; [done|by right].
Qed.

Lemma stored_slides (pages : list Z) w w' (i : Z) :
  pages_stored E pdf pages w w' -> In i pages ->
  exists n, files w' !! slide_path i = Some n /\ is_slide n.
Proof.
  intros [_ Hnew]%stored_files Hi.
  destruct (Hnew i Hi) as (fs & page & more & _ & ->).
  eexists. split; [done|]. eexists. split; [done|]. apply normalise_slide.
Qed.

Lemma stored_dir (pages : list Z) w w' :
  pages_stored E pdf pages w w' ->
  files w !! OUTPUT_DIR = Some Dir -> files w' !! OUTPUT_DIR = Some Dir.
Proof.
  intros [Hframe _]%stored_files Hdir. rewrite Hframe; [done|].
  intros i _ Heq. by apply (slide_path_not_dir i).
Qed.

End Steps.

(** ** Runs *)

Section Runs.

Context (E : Env) (pdf : string).

Implicit Types (w : World) (fs : FS) (p : string).

Lemma range_lookup (lo hi : Z) (k : nat) :
  range lo hi !! k =
  if decide (Z.of_nat k < hi - lo) then Some (lo + Z.of_nat k) else None.
Proof.
  unfold range. rewrite list_lookup_fmap.
  case_decide as Hk.
  - rewrite lookup_seq_lt by lia. done.
  - rewrite lookup_seq_ge by lia. done.
Qed.

Lemma range_In (lo hi i : Z) : In i (range lo hi) <-> lo <= i < hi.
Proof.
  unfold range. rewrite in_map_iff. split.
  - intros (k & <- & Hk%in_seq). lia.
  - intros Hi. exists (Z.to_nat (i - lo)). split; [lia|].
    apply in_seq. lia.
Qed.

Lemma range_NoDup (lo hi : Z) : NoDup (range lo hi).
Proof.
  unfold range. apply NoDup_fmap_2; [|apply NoDup_seq].
  intros a b. lia.
Qed.

Lemma range_length (lo hi : Z) : length (range lo hi) = Z.to_nat (hi - lo).
Proof. unfold range. by rewrite length_map, length_seq. Qed.

(** Where a range splits, the pages before are the smaller ones. *)
Lemma range_split (lo hi i : Z) (done rest : list Z) :
  range lo hi = done ++ i :: rest ->
  lo <= i < hi /\ done = range lo i.
Proof.
  intros Heq.
  assert (Hi : i = lo + Z.of_nat (length done) /\
               Z.of_nat (length done) < hi - lo).
  { pose proof (range_lookup lo hi (length done)) as Hk.
    rewrite Heq, list_lookup_middle in Hk by done.
    case_decide; [|done]. split; [congruence|done]. }
  destruct Hi as [-> Hlen]. split; [lia|].
  apply list_eq. intros k. rewrite range_lookup.
  destruct (decide (k < length done)%nat) as [Hk|Hk].
  - pose proof (range_lookup lo hi k) as Hr.
    rewrite Heq, lookup_app_l in Hr by done.
    rewrite Hr. repeat case_decide; try done; lia.
  - rewrite lookup_ge_None_2 by lia. case_decide; [lia|done].
Qed.

Lemma range_snoc (lo i : Z) : lo <= i -> range lo i ++ [i] = range lo (i + 1).
Proof.
  intros Hi. unfold range.
  replace (Z.to_nat (i + 1 - lo)) with (S (Z.to_nat (i - lo))) by lia.
  rewrite seq_S, map_app. simpl. do 2 f_equal. lia.
Qed.

Lemma write_meta_eq (meta : list (string * Json.value)) w :
  files w !! "Web" = Some Dir ->
  write_meta meta w =
  let text := Json.dump meta in
  let tr := trace w ++ [OpenWrite META_PATH text] in
  match files w !! META_PATH with
  | Some Dir => (mkWorld (files w) tr, Raise (IsADirectoryError META_PATH))
  | _ => (mkWorld (<[META_PATH := File (TextData text)]> (files w)) tr, Ok tt)
  end.
Proof.
  intros HWeb. unfold write_meta, bind, emit, update_fs, Fs.write_file,
    Fs.check_parent.
  change (PosixPath.split META_PATH) with ("Web", "meta.json").
  cbn [fst files trace]. change (String.eqb "Web" "") with false.
  cbv iota. rewrite HWeb.
  by destruct (files w !! META_PATH) as [[|?]|].
Qed.

Lemma convert_unfold w :
  convert_pdf_to_slides E pdf w =
  match get_total_pages E pdf w with
  | (w0, Raise e) => (w0, Raise e)
  | (w0, Ok n) =>
      match reset_output_dir w0 with
      | (w1, Raise e) => (w1, Raise e)
      | (w1, Ok _) =>
          match for_each (range 1 (n + 1)) (convert_page E pdf) w1 with
          | (w2, Raise e) => (w2, Raise e)
          | (w2, Ok _) =>
              write_meta (make_meta E n (PosixPath.basename pdf)) w2
          end
      end
  end.
Proof.
  unfold convert_pdf_to_slides, bind.
  destruct (get_total_pages E pdf w) as [w0 [n|e]]; [|done].
  destruct (reset_output_dir w0) as [w1 [[]|e]]; [|done].
  by destruct (for_each _ _ w1) as [w2 [[]|e]].
Qed.

Lemma probe_world fs :
  get_total_pages E pdf (mkWorld fs []) = (probed E pdf fs, probe E pdf fs).
Proof. unfold probe. by rewrite get_total_pages_eq. Qed.

(** The shape of a successful run. *)
Lemma run_ok fs w' :
  run E pdf fs = (w', Ok tt) ->
  exists n w1 w2,
    probe E pdf fs = Ok n
    /\ reset_output_dir (probed E pdf fs) = (w1, Ok tt)
    /\ pages_stored E pdf (range 1 (n + 1)) w1 w2
    /\ files w2 !! META_PATH <> Some Dir
    /\ w' = mkWorld
              (<[META_PATH := File (TextData (meta_text E pdf n))]> (files w2))
              (trace w2 ++ [OpenWrite META_PATH (meta_text E pdf n)]).
Proof.
  unfold run. rewrite convert_unfold, probe_world.
  destruct (probe E pdf fs) as [n|e] eqn:Hprobe; [|done].
  destruct (reset_output_dir (probed E pdf fs)) as [w1 [[]|e]] eqn:Hreset;
    [|done].
  destruct (for_each _ _ w1) as [w2 [[]|e]] eqn:Hloop; [|done].
  destruct (reset_ok _ _ Hreset) as (Hdir & HWeb & _ & _).
  pose proof (for_each_pages E pdf _ _ _ _ Hdir Hloop) as Hstored.
  simpl in Hstored.
  assert (HWeb2 : files w2 !! "Web" = Some Dir).
  { destruct (stored_files E pdf _ _ _ Hstored) as [Hframe _].
    rewrite Hframe; [done|]. intros i _ Heq. by apply (slide_path_not_web i). }
  rewrite (write_meta_eq _ _ HWeb2). simpl.
  intros Hw. exists n, w1, w2. split; [done|]. split; [done|].
  split; [done|].
  unfold meta_text.
  by destruct (files w2 !! META_PATH) as [[|?]|]; simplify_eq.
Qed.

Lemma run_raise fs w' e :
  run E pdf fs = (w', Raise e) -> run_fails E pdf fs w' e.
Proof.
  unfold run. rewrite convert_unfold, probe_world.
  destruct (probe E pdf fs) as [n|e0] eqn:Hprobe.
  2:{ intros [= <- <-]. by apply fails_at_probe. }
  destruct (reset_output_dir (probed E pdf fs)) as [w1 [[]|e1]] eqn:Hreset.
  2:{ intros [= <- <-]. by eapply fails_at_reset. }
  destruct (reset_ok _ _ Hreset) as (Hdir & HWeb & _ & _).
  destruct (for_each _ _ w1) as [w2 [[]|e2]] eqn:Hloop.
  - pose proof (for_each_pages E pdf _ _ _ _ Hdir Hloop) as Hstored.
    simpl in Hstored.
    assert (HWeb2 : files w2 !! "Web" = Some Dir).
    { destruct (stored_files E pdf _ _ _ Hstored) as [Hframe _].
      rewrite Hframe; [done|].
      intros i _ Heq. by apply (slide_path_not_web i). }
    rewrite (write_meta_eq _ _ HWeb2). simpl.
    destruct (files w2 !! META_PATH) as [[|?]|] eqn:Hmeta; try done.
    intros [= <- <-]. by eapply fails_at_meta.
  - intros [= <- <-].
    pose proof (for_each_pages E pdf _ _ _ _ Hdir Hloop) as Hfail.
    destruct Hfail as (done & i & rest & wm & Heq & Hdone & Hfail).
    by eapply fails_at_page.
Qed.

End Runs.

(** ** What a run leaves behind *)

Section RunFacts.

Context (E : Env) (pdf : string).

Implicit Types (w : World) (fs : FS) (p : string).

Lemma within_cases p :
  Fs.within OUTPUT_DIR p = true <-> p = OUTPUT_DIR \/ Fs.under OUTPUT_DIR p = true.
Proof.
  unfold Fs.within. rewrite orb_true_iff, String.eqb_eq. done.
Qed.

(** Away from [Web] and [Web/slides] a reset, successful or not, either
    keeps an entry or, below the output directory, removes it. *)
Lemma reset_lookup w w' r p :
  reset_output_dir w = (w', r) ->
  p <> OUTPUT_DIR -> p <> "Web" ->
  files w' !! p = files w !! p
  \/ (Fs.under OUTPUT_DIR p = true /\ files w' !! p = None).
Proof.
  intros Hreset Hdir HWeb.
  destruct (Fs.within OUTPUT_DIR p) eqn:Hin.
  2:{ left. by eapply reset_frame. }
  apply within_cases in Hin as [?|Hunder]; [done|].
  revert Hreset. rewrite reset_output_dir_eq.
  assert (Hfilter :
    filter (fun kv : string * Node => Fs.within OUTPUT_DIR kv.1 = false)
      (files w) !! p = None).
  { apply map_lookup_filter_None. right. intros n _. simpl.
    by rewrite (under_within _ _ Hunder). }
  destruct (files w !! OUTPUT_DIR) as [[|data]|] eqn:Hd.
  - simpl. rewrite makedirs_output_dir. intros Hreset. right.
    split; [done|].
    repeat case_match; simplify_eq; simpl;
      rewrite ?lookup_insert_ne by done; done.
  - intros [= <- <-]. by left.
  - simpl. rewrite makedirs_output_dir. intros Hreset. left.
    repeat case_match; simplify_eq; simpl;
      rewrite ?lookup_insert_ne by done; done.
Qed.

Lemma reset_events w w' r :
  reset_output_dir w = (w', r) ->
  exists tr,
    trace w' = trace w ++ tr
    /\ Forall (fun ev => ev = Rmtree OUTPUT_DIR \/ ev = Makedirs OUTPUT_DIR) tr.
Proof.
  rewrite reset_output_dir_eq.
  destruct (files w !! OUTPUT_DIR) as [[|data]|]; simpl;
    try destruct (Fs.makedirs _ _); intros [= <- <-]; eexists;
    (split; [done|]); repeat (constructor; [by auto|]); constructor.
Qed.

(** A reset fails for the state of the directories only. *)
Lemma reset_error w w' e :
  reset_output_dir w = (w', Raise e) ->
  e = NotADirectoryError OUTPUT_DIR \/ e = FileExistsError OUTPUT_DIR.
Proof.
  rewrite reset_output_dir_eq.
  destruct (files w !! OUTPUT_DIR) as [[|data]|]; simpl;
    rewrite ?makedirs_output_dir; intros Hreset;
    repeat case_match; simplify_eq; auto.
Qed.

Lemma reset_trace_projections (b : bool) :
  rendered_pages (reset_trace b) = []
  /\ saved_paths (reset_trace b) = []
  /\ saved_images (reset_trace b) = []
  /\ meta_writes (reset_trace b) = [].
Proof. by destruct b. Qed.

(** The trace of a successful run. *)
Lemma run_ok_trace fs w' :
  run E pdf fs = (w', Ok tt) ->
  exists n tr,
    probe E pdf fs = Ok n
    /\ trace w' =
         RunPdfinfo pdf (run_pdfinfo E fs pdf)
         :: reset_trace (Fs.exists_ fs OUTPUT_DIR)
         ++ tr ++ [OpenWrite META_PATH (meta_text E pdf n)]
    /\ rendered_pages tr = range 1 (n + 1)
    /\ saved_paths tr = map slide_path (range 1 (n + 1))
    /\ meta_writes tr = []
    /\ Forall slide_image (saved_images tr).
Proof.
  intros (n & w1 & w2 & Hprobe & Hreset & Hstored & Hfree & ->)%run_ok.
  destruct (reset_ok _ _ Hreset) as (_ & _ & _ & Htr1).
  destruct (stored_trace E pdf _ _ _ Hstored)
    as (tr & Htr2 & Hren & Hsav & Hmeta & Himg & _).
  exists n, tr. split; [done|]. split; [|done].
  simpl. rewrite Htr2, Htr1. simpl. by rewrite <- !app_assoc.
Qed.

(** The filesystem after a successful run. *)
Lemma run_ok_files fs w' :
  run E pdf fs = (w', Ok tt) ->
  exists n,
    probe E pdf fs = Ok n
    /\ files w' !! META_PATH = Some (File (TextData (meta_text E pdf n)))
    /\ files w' !! OUTPUT_DIR = Some Dir
    /\ files w' !! "Web" = Some Dir
    /\ (forall i, 1 <= i <= n ->
          exists fs' page more,
            render E fs' pdf DPI i i = inr (page :: more)
            /\ files w' !! slide_path i
               = Some (File (JpegData (normalise E page) JPG_QUALITY)))
    /\ (forall p, Fs.under OUTPUT_DIR p = true ->
          (forall i, 1 <= i <= n -> p <> slide_path i) ->
          files w' !! p = fs !! p \/ files w' !! p = None)
    /\ (tidy fs ->
        forall p, Fs.under OUTPUT_DIR p = true ->
          (forall i, 1 <= i <= n -> p <> slide_path i) ->
          files w' !! p = None)
    /\ (forall p, Fs.within OUTPUT_DIR p = false ->
          p <> "Web" -> p <> META_PATH -> files w' !! p = fs !! p).
Proof.
  intros (n & w1 & w2 & Hprobe & Hreset & Hstored & Hfree & ->)%run_ok.
  destruct (reset_ok _ _ Hreset) as (Hdir & HWeb & Htidy & _).
  destruct (stored_files E pdf _ _ _ Hstored) as [Hframe Hnew].
  assert (Hother : forall p,
            (forall i, 1 <= i <= n -> p <> slide_path i) ->
            files w2 !! p = files w1 !! p).
  { intros p Hp. apply Hframe. intros i Hi%range_In. apply Hp. lia. }
  exists n. split; [done|]. simpl.
  split; [by rewrite lookup_insert_eq|].
  split.
  { rewrite lookup_insert_ne by done. rewrite Hother; [done|].
    intros i _ Heq. by apply (slide_path_not_dir i). }
  split.
  { rewrite lookup_insert_ne by done. rewrite Hother; [done|].
    intros i _ Heq. by apply (slide_path_not_web i). }
  split.
  { intros i Hi. rewrite lookup_insert_ne.
    - apply Hnew, range_In. lia.
    - intros Heq. by apply (slide_path_not_meta i). }
  assert (Hm : forall p, Fs.under OUTPUT_DIR p = true -> META_PATH <> p).
  { by intros p Hp <-. }
  assert (Hd : forall p, Fs.under OUTPUT_DIR p = true ->
                         p <> OUTPUT_DIR /\ p <> "Web").
  { intros p Hp. split; by intros ->. }
  split.
  { intros p Hp Hfresh. rewrite lookup_insert_ne by by apply Hm.
    rewrite (Hother p Hfresh).
    destruct (Hd p Hp) as [? ?].
    destruct (reset_lookup _ _ _ p Hreset) as [->|[_ ->]]; auto. }
  split.
  { intros Hfs p Hp Hfresh. rewrite lookup_insert_ne by by apply Hm.
    rewrite (Hother p Hfresh). by apply Htidy. }
  intros p Hp HpWeb Hpmeta. rewrite lookup_insert_ne by done.
  rewrite Hother.
  - by rewrite (reset_frame _ _ _ p Hreset).
  - intros i _ ->.
    by rewrite (under_within _ _ (slide_path_under i)) in Hp.
Qed.

End RunFacts.

(** ** Runs of any outcome *)

Section AnyRun.

Context (E : Env) (pdf : string).

Implicit Types (w : World) (fs : FS) (p : string).

Lemma page_fails_files (i : Z) w w' e :
  page_fails E pdf i w w' e -> files w' = files w.
Proof. by inversion 1. Qed.

Lemma page_fails_events (i : Z) w w' e :
  page_fails E pdf i w w' e ->
  Forall slide_event (trace w) -> Forall slide_event (trace w').
Proof.
  inversion 1; subst; simpl; intros Hall; apply Forall_app; split; try done.
  - by repeat constructor.
  - by repeat constructor.
  - repeat constructor; [apply normalise_slide..|by exists i].
Qed.

Lemma stored_events (pages : list Z) w w' :
  pages_stored E pdf pages w w' ->
  Forall slide_event (trace w) -> Forall slide_event (trace w').
Proof.
  induction 1 as [w|i rest w w' page more Hr Hfree Hrest IH]; [done|].
  intros Hall. apply IH. simpl. apply Forall_app. split; [done|].
  repeat constructor; [apply normalise_slide..|by exists i].
Qed.

Lemma reset_slide_events w w' r :
  reset_output_dir w = (w', r) ->
  Forall slide_event (trace w) -> Forall slide_event (trace w').
Proof.
  intros (tr & -> & Hall)%reset_events Hw. apply Forall_app. split; [done|].
  eapply Forall_impl; [exact Hall|]. by intros ev [-> | ->].
Qed.

(** Whatever its outcome, a run saves slide images only. *)
Lemma run_events fs w' r :
  run E pdf fs = (w', r) -> Forall slide_event (trace w').
Proof.
  assert (H0 : Forall slide_event (trace (probed E pdf fs))).
  { by repeat constructor. }
  destruct r as [[]|e].
  - intros (n & w1 & w2 & _ & Hreset & Hst & _ & ->)%run_ok. simpl.
    apply Forall_app. split; [|by repeat constructor].
    eapply stored_events; [exact Hst|]. by eapply reset_slide_events.
  - intros [Hprobe ->|n Hprobe Hreset
           |n w1 wm done rest i0 Hprobe Hreset Hsplit Hst Hfail
           |n w1 w2 Hprobe Hreset Hst Hdir -> ->]%run_raise.
    + done.
    + by eapply reset_slide_events.
    + eapply page_fails_events; [exact Hfail|].
      eapply stored_events; [exact Hst|]. by eapply reset_slide_events.
    + simpl. apply Forall_app. split; [|by repeat constructor].
      eapply stored_events; [exact Hst|]. by eapply reset_slide_events.
Qed.

Lemma stored_lookup (pages : list Z) w w' p :
  pages_stored E pdf pages w w' ->
  files w' !! p = files w !! p
  \/ exists node, files w' !! p = Some node /\ is_slide node.
Proof.
  intros Hst.
  destruct (in_dec string_dec p (map slide_path pages)) as [Hin|Hout].
  - right. apply in_map_iff in Hin as (i & <- & Hi).
    by eapply stored_slides.
  - left. destruct (stored_files E pdf _ _ _ Hst) as [Hframe _].
    apply Hframe. intros i Hi ->. by apply Hout, in_map.
Qed.

(** Below the output directory a run, whatever its outcome, keeps an
    entry, removes it, or puts a slide there. *)
Lemma run_under_lookup fs w' r p :
  run E pdf fs = (w', r) -> Fs.under OUTPUT_DIR p = true ->
  files w' !! p = fs !! p \/ files w' !! p = None
  \/ exists node, files w' !! p = Some node /\ is_slide node.
Proof.
  intros Hrun Hp.
  assert (Hd : p <> OUTPUT_DIR /\ p <> "Web" /\ META_PATH <> p).
  { split; [by intros ->|]. split; [by intros ->|by intros <-]. }
  destruct Hd as (Hd1 & Hd2 & Hd3).
  assert (Hafter : forall w1 w2 r1 pages,
            reset_output_dir (probed E pdf fs) = (w1, r1) ->
            pages_stored E pdf pages w1 w2 ->
            files w2 !! p = fs !! p \/ files w2 !! p = None
            \/ exists node, files w2 !! p = Some node /\ is_slide node).
  { intros w1 w2 r1 pages Hreset Hst.
    destruct (stored_lookup pages w1 w2 p Hst) as [->|?]; [|auto].
    destruct (reset_lookup _ _ _ p Hreset) as [->|[_ ->]]; auto. }
  destruct r as [[]|e].
  - apply run_ok in Hrun as (n & w1 & w2 & _ & Hreset & Hst & _ & ->). simpl.
    rewrite lookup_insert_ne by done. by eapply Hafter.
  - apply run_raise in Hrun
      as [Hprobe ->|n Hprobe Hreset
         |n w1 wm done rest i0 Hprobe Hreset Hsplit Hst Hfail
         |n w1 w2 Hprobe Hreset Hst Hdir -> ->].
    + by left.
    + apply (Hafter w' w' (Raise e) []); [done|constructor].
    + rewrite (page_fails_files _ _ _ _ Hfail). by eapply Hafter.
    + simpl. by eapply Hafter.
Qed.

(** A failed run leaves the metadata path as it found it. *)
Lemma run_meta_kept fs w' e :
  run E pdf fs = (w', Raise e) -> files w' !! META_PATH = fs !! META_PATH.
Proof.
  assert (Hafter : forall w1 w2 r1 pages,
            reset_output_dir (probed E pdf fs) = (w1, r1) ->
            pages_stored E pdf pages w1 w2 ->
            files w2 !! META_PATH = fs !! META_PATH).
  { intros w1 w2 r1 pages Hreset Hst.
    destruct (stored_files E pdf _ _ _ Hst) as [Hframe _].
    rewrite Hframe.
    - by rewrite (reset_frame _ _ _ META_PATH Hreset).
    - intros j _ Heq. by apply (slide_path_not_meta j). }
  intros [Hprobe ->|n Hprobe Hreset
         |n w1 wm done rest i0 Hprobe Hreset Hsplit Hst Hfail
         |n w1 w2 Hprobe Hreset Hst Hdir -> ->]%run_raise.
  - done.
  - apply (Hafter w' w' (Raise e) []); [done|constructor].
  - rewrite (page_fails_files _ _ _ _ Hfail). by eapply Hafter.
  - simpl. by eapply Hafter.
Qed.

(** *** Well-formedness *)

Lemma ancestors_from_app (pre s t : string) :
  Fs.ancestors_from pre (s +:+ t)
  = Fs.ancestors_from pre s ++ Fs.ancestors_from (PyStr.rev_onto s pre) t.
Proof.
  revert pre. induction s as [|c s IH]; intros pre; simpl; [done|].
  by rewrite IH, app_assoc.
Qed.

Lemma ancestors_from_plain (pre t : string) :
  all_chars nonslash t = true -> Fs.ancestors_from pre t = [].
Proof.
  revert pre. induction t as [|c t IH]; intros pre; simpl; [done|].
  intros [Hc Ht]%andb_true_iff. rewrite (IH _ Ht).
  unfold nonslash in Hc. by destruct (Ascii.eqb c PosixPath.slash).
Qed.

Lemma slide_path_ancestors (i : Z) :
  Fs.ancestors (slide_path i) = ["Web"; OUTPUT_DIR].
Proof.
  unfold Fs.ancestors.
  change (slide_path i) with ("Web/slides/" +:+ slide_filename i).
  rewrite ancestors_from_app.
  by rewrite (ancestors_from_plain _ _ (slide_filename_nonslash i)).
Qed.

(** Creating what the script creates keeps a filesystem well-formed. *)
Lemma insert_Web_wf fs : Fs.wf fs -> Fs.wf (<["Web" := Dir]> fs).
Proof.
  intros Hwf. apply insert_wf; [done| |by left].
  by intros d Hd%ancestor_under.
Qed.

Lemma insert_output_dir_wf fs :
  Fs.wf fs -> fs !! "Web" = Some Dir -> Fs.wf (<[OUTPUT_DIR := Dir]> fs).
Proof.
  intros Hwf HWeb. apply insert_wf; [done| |by left].
  intros d [<-|[]]%ancestor_under. done.
Qed.

Lemma insert_slide_wf fs (i : Z) (n : Node) :
  Fs.wf fs -> fs !! "Web" = Some Dir -> fs !! OUTPUT_DIR = Some Dir ->
  fs !! slide_path i <> Some Dir ->
  Fs.wf (<[slide_path i := n]> fs).
Proof.
  intros Hwf HWeb Hdir Hfree. apply insert_wf; [done| |by right].
  intros d Hd%ancestor_under. rewrite slide_path_ancestors in Hd.
  by destruct Hd as [<-|[<-|[]]].
Qed.

Lemma insert_meta_wf fs (n : Node) :
  Fs.wf fs -> fs !! "Web" = Some Dir -> fs !! META_PATH <> Some Dir ->
  Fs.wf (<[META_PATH := n]> fs).
Proof.
  intros Hwf HWeb Hfree. apply insert_wf; [done| |by right].
  intros d [<-|[]]%ancestor_under. done.
Qed.

Lemma reset_wf w w' r :
  Fs.wf (files w) -> reset_output_dir w = (w', r) -> Fs.wf (files w').
Proof.
  intros Hwf. rewrite reset_output_dir_eq.
  destruct (files w !! OUTPUT_DIR) as [[|data]|] eqn:Hdir.
  - assert (Hrm : Fs.rmtree OUTPUT_DIR (files w)
             = Ok (filter (fun kv : string * Node =>
                             Fs.within OUTPUT_DIR kv.1 = false) (files w))).
    { unfold Fs.rmtree. by rewrite Hdir. }
    pose proof (rmtree_wf _ _ _ Hwf Hrm) as Hwf1.
    simpl. rewrite makedirs_output_dir.
    repeat case_match; intros; simplify_eq; simpl; try done.
    + by apply insert_output_dir_wf.
    + apply insert_output_dir_wf; [by apply insert_Web_wf|].
      apply lookup_insert_eq.
  - by intros [= <- <-].
  - simpl. rewrite makedirs_output_dir.
    repeat case_match; intros; simplify_eq; simpl; try done.
    + by apply insert_output_dir_wf.
    + apply insert_output_dir_wf; [by apply insert_Web_wf|].
      apply lookup_insert_eq.
Qed.

Lemma stored_wf (pages : list Z) w w' :
  pages_stored E pdf pages w w' ->
  Fs.wf (files w) ->
  files w !! "Web" = Some Dir -> files w !! OUTPUT_DIR = Some Dir ->
  Fs.wf (files w')
  /\ files w' !! "Web" = Some Dir /\ files w' !! OUTPUT_DIR = Some Dir.
Proof.
  induction 1 as [w|i rest w w' page more Hr Hfree Hrest IH]; [done|].
  intros Hwf HWeb Hdir. apply IH; simpl.
  - by apply insert_slide_wf.
  - rewrite lookup_insert_ne; [done|]. apply slide_path_not_web.
  - rewrite lookup_insert_ne; [done|]. apply slide_path_not_dir.
Qed.

(** Whatever its outcome, a run leaves a well-formed filesystem
    well-formed. *)
Lemma run_wf fs w' r :
  Fs.wf fs -> run E pdf fs = (w', r) -> Fs.wf (files w').
Proof.
  intros Hwf.
  assert (Hafter : forall w1 w2 pages,
            reset_output_dir (probed E pdf fs) = (w1, Ok tt) ->
            pages_stored E pdf pages w1 w2 ->
            Fs.wf (files w2) /\ files w2 !! "Web" = Some Dir).
  { intros w1 w2 pages Hreset Hst.
    destruct (reset_ok _ _ Hreset) as (Hdir & HWeb & _).
    destruct (stored_wf pages w1 w2 Hst) as (? & ? & _); [|done..].
    by apply (reset_wf (probed E pdf fs) _ _ Hwf Hreset). }
  destruct r as [[]|e].
  - intros (n & w1 & w2 & _ & Hreset & Hst & Hfree & ->)%run_ok. simpl.
    destruct (Hafter _ _ _ Hreset Hst). by apply insert_meta_wf.
  - intros [Hprobe ->|n Hprobe Hreset
           |n w1 wm done rest i0 Hprobe Hreset Hsplit Hst Hfail
           |n w1 w2 Hprobe Hreset Hst Hdir -> ->]%run_raise.
    + done.
    + by apply (reset_wf (probed E pdf fs) _ _ Hwf Hreset).
    + rewrite (page_fails_files _ _ _ _ Hfail).
      by destruct (Hafter _ _ _ Hreset Hst).
    + simpl. by destruct (Hafter _ _ _ Hreset Hst).
Qed.

Lemma probe_error fs e :
  probe E pdf fs = Raise e ->
  (exists tag, e = External tag) \/ e = RuntimeError pdf \/ e = ValueError.
Proof.
  rewrite probe_eq. repeat case_match; intros; simplify_eq; eauto.
Qed.

End AnyRun.

(** ** Counting the slides *)

Section Counting.

Context (E : Env) (pdf : string).

Lemma trace_projections_ok (fs : FS) (w' : World) (n : Z) :
  run E pdf fs = (w', Ok tt) -> probe E pdf fs = Ok n ->
  rendered_pages (trace w') = range 1 (n + 1)
  /\ saved_paths (trace w') = map slide_path (range 1 (n + 1))
  /\ meta_writes (trace w') = [meta_text E pdf n]
  /\ Forall slide_image (saved_images (trace w'))
  /\ last (trace w') = Some (OpenWrite META_PATH (meta_text E pdf n))
  /\ In (Makedirs OUTPUT_DIR) (trace w').
Proof.
  intros (m & tr & Hm & -> & Hren & Hsav & Hmeta & Himg)%run_ok_trace Hn.
  assert (m = n) as -> by congruence.
  destruct (reset_trace_projections (Fs.exists_ fs OUTPUT_DIR))
    as (R1 & R2 & R3 & R4).
  unfold rendered_pages, saved_paths, meta_writes, saved_images in *.
  cbn [omap list_omap]. rewrite !omap_app, R1, R2, R3, R4, Hren, Hsav, Hmeta.
  simpl. rewrite !app_nil_r.
  split; [done|]. split; [done|]. split; [done|]. split; [done|].
  split.
  - rewrite last_cons, !last_app. simpl. done.
  - right. apply in_or_app. left. unfold reset_trace.
    apply in_or_app. right. by left.
Qed.

Lemma slide_paths_NoDup (lo hi : Z) : NoDup (map slide_path (range lo hi)).
Proof.
  unfold range. rewrite <- list_fmap_compose.
  apply NoDup_fmap_2; [|apply NoDup_seq].
  intros a b Hab%slide_path_inj. lia.
Qed.

(** In a tidy filesystem the output directory holds, after a successful
    run, the slides of the pages and nothing else. *)
Lemma slides_dom (fs : FS) (w' : World) (n : Z) :
  run E pdf fs = (w', Ok tt) -> probe E pdf fs = Ok n -> tidy fs ->
  dom (slides_of (files w')) = list_to_set (map slide_path (range 1 (n + 1))).
Proof.
  intros (m & Hm & _ & _ & _ & Hnew & _ & Hclean & _)%run_ok_files Hn Htidy.
  assert (m = n) as -> by congruence.
  apply set_eq. intros p.
  rewrite elem_of_dom, elem_of_list_to_set, list_elem_of_In, in_map_iff.
  unfold slides_of. split.
  - intros [node [Hp Hunder]%map_lookup_filter_Some]. simpl in Hunder.
    destruct (in_dec string_dec p (map slide_path (range 1 (n + 1))))
      as [Hyes|Hno]; [by apply in_map_iff|].
    rewrite Hclean in Hp; [done..|].
    intros i Hi ->. apply Hno, in_map, range_In. lia.
  - intros (i & <- & Hi%range_In).
    destruct (Hnew i ltac:(lia)) as (fs' & page & more & _ & Hp).
    eexists. apply map_lookup_filter_Some. split; [exact Hp|].
    apply slide_path_under.
Qed.

(** The number of save calls and of entries of the output directory. *)
Lemma saved_count (fs : FS) (w' : World) (n : Z) :
  run E pdf fs = (w', Ok tt) -> probe E pdf fs = Ok n ->
  length (saved_paths (trace w')) = Z.to_nat n
  /\ (Fs.wf fs -> size (slides_of (files w')) = Z.to_nat n).
Proof.
  intros Hrun Hprobe.
  destruct (trace_projections_ok fs w' n Hrun Hprobe) as (_ & Hsaved & _).
  split.
  - rewrite Hsaved, length_map, range_length. lia.
  - intros Hwf%wf_tidy.
    rewrite <- size_dom, (slides_dom fs w' n Hrun Hprobe Hwf).
    rewrite size_list_to_set by apply slide_paths_NoDup.
    rewrite length_map, range_length. lia.
Qed.

End Counting.

(** * The statements of the specification *)

(** ** The page-count probe *)

(** C6, as amended.  The probe raises exactly when [pdfinfo] cannot be
    run (its error propagates), when no line of its output starts with
    [Pages:] (a [RuntimeError]), or when the first such line carries no
    integer between its first and second colon (a [ValueError]); when the
    first line that starts with [Pages:] has the form [Pages: <integer>],
    the probe returns that integer. *)
Theorem probe_outcome (E : Env) (pdf : string) (fs : FS) :
  let out := run_pdfinfo E fs pdf in
  ((exists e, probe E pdf fs = Raise e) <->
     (exists tag, out = inl tag)
     \/ (exists cp, out = inr cp /\ first_pages_line (stdout cp) = None)
     \/ (exists cp line,
           out = inr cp /\ first_pages_line (stdout cp) = Some line
           /\ PyStr.int (PyStr.strip (pages_field line)) = None))
  /\ (forall tag, out = inl tag -> probe E pdf fs = Raise (External tag))
  /\ (forall cp, out = inr cp -> first_pages_line (stdout cp) = None ->
        probe E pdf fs = Raise (RuntimeError pdf))
  /\ (forall cp line,
        out = inr cp -> first_pages_line (stdout cp) = Some line ->
        PyStr.int (PyStr.strip (pages_field line)) = None ->
        probe E pdf fs = Raise ValueError)
  /\ (forall cp line ws n,
        out = inr cp -> first_pages_line (stdout cp) = Some line ->
        all_chars PyStr.isspace ws = true ->
        line = "Pages:" +:+ ws +:+ PyStr.of_int n ->
        probe E pdf fs = Ok n).
Proof.
  intros out. subst out. rewrite probe_eq.
  destruct (run_pdfinfo E fs pdf) as [tag|cp].
  { split; [|repeat split; intros; by simplify_eq].
    split; [intros _; left; by exists tag|intros _; by eexists]. }
  destruct (first_pages_line (stdout cp)) as [line|] eqn:Hline.
  2:{ split; [|repeat split; intros; by simplify_eq].
      split; [intros _; right; left; by exists cp|intros _; by eexists]. }
  destruct (PyStr.int (PyStr.strip (pages_field line))) as [n|] eqn:Hint.
  - split.
    { split; [by intros [e ?]|].
      intros [[tag ?]|[(cp' & ? & ?)|(cp' & line' & ? & ? & ?)]];
        simplify_eq. }
    repeat split; intros; simplify_eq; try done.
    rewrite pages_field_numeral in Hint by done. by simplify_eq.
  - split.
    { split; [|intros _; by eexists].
      intros _. right. right. by exists cp, line. }
    repeat split; intros; simplify_eq; try done.
    rewrite pages_field_numeral in Hint by done. done.
Qed.

Lemma probe_outcome_witness :
  probe (Demo.env Demo.three_pages 0 Demo.stamp1) "in/deck.pdf" ∅ = Ok 3.
Proof.
  apply (proj2 (proj2 (proj2 (proj2
           (probe_outcome (Demo.env Demo.three_pages 0 Demo.stamp1)
              "in/deck.pdf" ∅))))
         (mkCompleted 0 Demo.three_pages "")
         "Pages:          3" "          " 3);
    reflexivity.
Defined.

(** C6 as stated fails: a line [Pages: 5] is present in the output and
    the tool did not fail, yet the probe raises, because only the first
    line that starts with [Pages:] is read. *)
Lemma probe_reads_first_pages_line_only :
  let E := Demo.env Demo.garbled 0 Demo.stamp1 in
  run_pdfinfo E ∅ "in/deck.pdf" = inr (mkCompleted 0 Demo.garbled "")
  /\ In ("Pages: " +:+ PyStr.of_int 5) (PyStr.splitlines Demo.garbled)
  /\ probe E "in/deck.pdf" ∅ = Raise ValueError
  /\ probe E "in/deck.pdf" ∅ <> Ok 5.
Proof. vm_compute. split; [done|]. split; [by right; left|]. done. Qed.

(** ** Failure of the probe *)

(** C4.  When the probe raises, the run ends with that error, the
    filesystem is exactly the initial one (nothing deleted, created or
    written, the metadata file included) and the only call issued is the
    call to [pdfinfo]. *)
Theorem probe_failure_leaves_filesystem (E : Env) (pdf : string) (fs : FS)
    (e : exn) :
  probe E pdf fs = Raise e ->
  snd (run E pdf fs) = Raise e
  /\ files (fst (run E pdf fs)) = fs
  /\ trace (fst (run E pdf fs)) = [RunPdfinfo pdf (run_pdfinfo E fs pdf)].
Proof.
  intros Hprobe. unfold run. rewrite convert_unfold, probe_world, Hprobe.
  done.
Qed.

Lemma probe_failure_leaves_filesystem_witness :
  let E := Demo.env "" 0 Demo.stamp1 in
  snd (run E "in/deck.pdf" Demo.stale) = Raise (RuntimeError "in/deck.pdf")
  /\ files (fst (run E "in/deck.pdf" Demo.stale)) = Demo.stale
  /\ trace (fst (run E "in/deck.pdf" Demo.stale))
     = [RunPdfinfo "in/deck.pdf" (inr (mkCompleted 0 "" ""))].
Proof.
  apply (probe_failure_leaves_filesystem (Demo.env "" 0 Demo.stamp1)
           "in/deck.pdf" Demo.stale (RuntimeError "in/deck.pdf")).
  reflexivity.
Defined.

(** ** Successful runs *)

(** C1.  In a successful run that probed [n] pages the files saved are,
    in this order, [slide_path 1], ..., [slide_path n]: the [k]-th file
    written is the slide of page [k + 1], each name is the output
    directory joined with [slide_] followed by the page number padded
    with zeros to three digits and [.jpg], distinct pages have distinct
    names, and the output directory ends up holding exactly these [n]
    files. *)
Theorem slides_written (E : Env) (pdf : string) (fs : FS) (w' : World) (n : Z) :
  run E pdf fs = (w', Ok tt) -> probe E pdf fs = Ok n ->
  saved_paths (trace w') = map slide_path (range 1 (n + 1))
  /\ (forall k : nat, Z.of_nat k < n ->
        saved_paths (trace w') !! k = Some (slide_path (Z.of_nat k + 1)))
  /\ length (saved_paths (trace w')) = Z.to_nat n
  /\ (forall i, 1 <= i <= n ->
        exists node, files w' !! slide_path i = Some node /\ is_slide node)
  /\ (forall i,
        slide_path i = "Web/slides/slide_" +:+ PyStr.format_0d 3 i +:+ ".jpg")
  /\ slide_path 7 = "Web/slides/slide_007.jpg"
  /\ (forall i j, slide_path i = slide_path j -> i = j)
  /\ (Fs.wf fs ->
        dom (slides_of (files w'))
        = list_to_set (map slide_path (range 1 (n + 1)))
        /\ size (slides_of (files w')) = Z.to_nat n)
  /\ (0 <= n ->
        Z.of_nat (length (saved_paths (trace w'))) = n
        /\ (Fs.wf fs -> Z.of_nat (size (slides_of (files w'))) = n)).
Proof.
  intros Hrun Hprobe.
  destruct (trace_projections_ok E pdf fs w' n Hrun Hprobe)
    as (_ & Hsaved & _).
  destruct (saved_count E pdf fs w' n Hrun Hprobe) as [Hlen Hsize].
  split; [done|]. split.
  { intros k Hk. rewrite Hsaved, list_lookup_fmap, range_lookup.
    case_decide; [|lia]. simpl. f_equal. f_equal. lia. }
  split; [done|]. split.
  { intros i Hi.
    destruct (run_ok_files E pdf fs w' Hrun)
      as (m & Hm & _ & _ & _ & Hnew & _).
    assert (m = n) as -> by congruence.
    destruct (Hnew i Hi) as (fs' & page & more & _ & ->).
    eexists. split; [done|]. eexists. split; [done|].
    apply normalise_slide. }
  split; [apply slide_path_eq|]. split; [reflexivity|].
  split; [apply slide_path_inj|]. split.
  { intros Hwf. split; [|by apply Hsize].
    by apply (slides_dom E pdf fs w' n Hrun Hprobe), wf_tidy. }
  intros Hn. split; [lia|]. intros Hwf. rewrite (Hsize Hwf). lia.
Qed.

Lemma slides_written_witness :
  let E := Demo.env Demo.three_pages 0 Demo.stamp1 in
  let w' := fst (run E "in/deck.pdf" Demo.stale) in
  run E "in/deck.pdf" Demo.stale = (w', Ok tt)
  /\ probe E "in/deck.pdf" Demo.stale = Ok 3
  /\ Fs.wf Demo.stale
  /\ saved_paths (trace w')
     = ["Web/slides/slide_001.jpg"; "Web/slides/slide_002.jpg";
        "Web/slides/slide_003.jpg"]
  /\ Z.of_nat (size (slides_of (files w'))) = 3.
Proof.
  intros E w'.
  assert (Hrun : run E "in/deck.pdf" Demo.stale = (w', Ok tt))
    by (vm_compute; reflexivity).
  assert (Hprobe : probe E "in/deck.pdf" Demo.stale = Ok 3)
    by (vm_compute; reflexivity).
  assert (Hwf : Fs.wf Demo.stale)
    by (refine (bool_decide_unpack (Fs.wf Demo.stale) _); vm_compute; exact I).
  pose proof (slides_written E "in/deck.pdf" Demo.stale w' 3 Hrun Hprobe)
    as (Hsaved & _ & _ & _ & _ & _ & _ & _ & Hcount).
  split; [exact Hrun|]. split; [exact Hprobe|]. split; [exact Hwf|].
  split; [exact Hsaved|].
  exact (proj2 (Hcount ltac:(lia)) Hwf).
Defined.





(** ** Failure of a page *)

(** C3.  When a run issued the render call for page [i] and the
    renderer raised, the run ends with that error; the failed call is
    the last call of the run (nothing is skipped over, retried or
    continued), the pages rendered are 1, ..., [i], once each, the
    slides of the pages 1, ..., [i - 1] are the files saved and they are
    in the filesystem the run leaves, no metadata file is opened and the
    metadata path holds what it held before the run. *)
Theorem render_failure_fatal (E : Env) (pdf : string) (fs : FS) (w' : World)
    (r : Result unit) (i : Z) (tag : string) :
  run E pdf fs = (w', r) ->
  In (Render pdf DPI i i (inl tag)) (trace w') ->
  r = Raise (External tag)
  /\ (exists n, probe E pdf fs = Ok n /\ 1 <= i <= n)
  /\ last (trace w') = Some (Render pdf DPI i i (inl tag))
  /\ rendered_pages (trace w') = range 1 (i + 1)
  /\ saved_paths (trace w') = map slide_path (range 1 i)
  /\ meta_writes (trace w') = []
  /\ files w' !! META_PATH = fs !! META_PATH
  /\ (forall j, 1 <= j < i ->
        exists node, files w' !! slide_path j = Some node /\ is_slide node).
Proof.
  intros Hrun Hev.
  assert (Hquiet : forall pages w1 w2 tr,
            pages_stored E pdf pages w1 w2 -> trace w2 = trace w1 ++ tr ->
            ~ In (Render pdf DPI i i (inl tag)) tr).
  { intros pages w1 w2 tr Hst Htr Hin.
    destruct (stored_trace E pdf _ _ _ Hst) as (tr' & Htr' & _ & _ & _ & _ & Hk).
    rewrite Htr' in Htr. apply app_inv_head in Htr as <-.
    destruct (Hk _ Hin) as [(j & imgs & ? & _)|(j & img & ? & _)]; done. }
  assert (Hreset_quiet : forall w1 w2 r1,
            reset_output_dir w1 = (w2, r1) ->
            exists tr, trace w2 = trace w1 ++ tr
                       /\ ~ In (Render pdf DPI i i (inl tag)) tr).
  { intros w1 w2 r1 (tr & Htr & Hall)%reset_events. exists tr.
    split; [done|]. intros Hin. rewrite Forall_forall in Hall.
    apply list_elem_of_In in Hin. by destruct (Hall _ Hin). }
  destruct r as [[]|e].
  { (* a successful run saw no renderer error *)
    exfalso.
    apply run_ok in Hrun as (n & w1 & w2 & _ & Hreset & Hst & _ & ->).
    destruct (Hreset_quiet _ _ _ Hreset) as (tr1 & Htr1 & Hno1).
    destruct (stored_trace E pdf _ _ _ Hst) as (tr2 & Htr2 & _).
    simpl in Hev. rewrite Htr2, Htr1 in Hev. simpl in Hev.
    destruct Hev as [|Hev]; [done|].
    rewrite !in_app_iff in Hev. destruct Hev as [[?|Hev]|[|[]]]; try done.
    by apply (Hquiet _ _ _ tr2 Hst Htr2). }
  apply run_raise in Hrun
    as [Hprobe ->|n Hprobe Hreset
       |n w1 wm done rest i0 Hprobe Hreset Hsplit Hst Hfail
       |n w1 w2 Hprobe Hreset Hst Hdir -> ->].
  - (* the probe failed: no page was reached *)
    simpl in Hev. by destruct Hev.
  - (* the reset failed: no page was reached *)
    destruct (Hreset_quiet _ _ _ Hreset) as (tr1 & Htr1 & Hno1).
    rewrite Htr1 in Hev. simpl in Hev. destruct Hev as [|Hev]; done.
  - (* a page failed: it is page [i], and the renderer raised *)
    destruct (Hreset_quiet _ _ _ Hreset) as (tr1 & Htr1 & Hno1).
    destruct (reset_events _ _ _ Hreset) as (tr1' & Htr1' & Hall).
    rewrite Htr1 in Htr1'. apply app_inv_head in Htr1' as <-.
    destruct (stored_trace E pdf _ _ _ Hst)
      as (tr2 & Htr2 & Hren & Hsav & Hmeta & _ & _).
    assert (Hno2 := Hquiet _ _ _ tr2 Hst Htr2).
    destruct (range_split _ _ _ _ _ Hsplit) as [Hi ->].
    assert (Hproj : rendered_pages tr1 = [] /\ saved_paths tr1 = []
                    /\ meta_writes tr1 = []).
    { clear -Hall. induction Hall as [|ev tr [-> | ->] _ IH]; [done|..];
        simpl; done. }
    destruct Hproj as (P1 & P2 & P3).
    assert (Hmeta_kept : files wm !! META_PATH = fs !! META_PATH).
    { destruct (stored_files E pdf _ _ _ Hst) as [Hframe _].
      rewrite Hframe.
      - by rewrite (reset_frame _ _ _ META_PATH Hreset).
      - intros j _ Heq. by apply (slide_path_not_meta j). }
    assert (Hslides : forall j, 1 <= j < i0 ->
              exists node, files wm !! slide_path j = Some node
                           /\ is_slide node).
    { intros j Hj. eapply stored_slides; [exact Hst|]. apply range_In. lia. }
    inversion Hfail as [tag0 Hr Hw He|Hr Hw He|page more Hr Hp Hw He];
      subst w' e; simpl in Hev |- *;
      rewrite Htr2, Htr1 in Hev |- *; simpl in Hev |- *;
      (destruct Hev as [|Hev]; [done|]);
      rewrite !in_app_iff in Hev; simpl in Hev.
    + destruct Hev as [[?|?]|[Hev|[]]]; try done.
      assert (i0 = i /\ tag0 = tag) as [-> ->] by (by injection Hev).
      split; [done|]. split; [exists n; split; [done|lia]|].
      split.
      { change (RunPdfinfo pdf (run_pdfinfo E fs pdf)
                  :: (tr1 ++ tr2) ++ [Render pdf DPI i i (inl tag)])
          with ((RunPdfinfo pdf (run_pdfinfo E fs pdf) :: tr1 ++ tr2)
                  ++ [Render pdf DPI i i (inl tag)]).
        apply last_snoc. }
      unfold rendered_pages, saved_paths, meta_writes in *.
      cbn [omap list_omap]. rewrite !omap_app, P1, P2, P3, Hren, Hsav, Hmeta.
      simpl. rewrite app_nil_r.
      split; [apply range_snoc; lia|]. done.
    + destruct Hev as [[?|?]|[Hev|[]]]; done.
    + destruct Hev as [[?|?]|[Hev|[Hev|[]]]]; done.
  - (* the metadata file could not be opened: every page was stored *)
    destruct (Hreset_quiet _ _ _ Hreset) as (tr1 & Htr1 & Hno1).
    destruct (stored_trace E pdf _ _ _ Hst) as (tr2 & Htr2 & _).
    simpl in Hev. rewrite Htr2, Htr1 in Hev. simpl in Hev.
    destruct Hev as [|Hev]; [done|].
    rewrite !in_app_iff in Hev. destruct Hev as [[?|Hev]|[|[]]]; try done.
    by destruct (Hquiet _ _ _ tr2 Hst Htr2).
Qed.

Lemma render_failure_fatal_witness :
  let E := Demo.env Demo.three_pages 2 Demo.stamp1 in
  let w' := fst (run E "in/deck.pdf" Demo.stale) in
  In (Render "in/deck.pdf" DPI 2 2 (inl "PDFPageCountError")) (trace w')
  /\ snd (run E "in/deck.pdf" Demo.stale) = Raise (External "PDFPageCountError")
  /\ saved_paths (trace w') = ["Web/slides/slide_001.jpg"]
  /\ files w' !! META_PATH = Some (File (TextData "old meta"))
  /\ exists node,
       files w' !! "Web/slides/slide_001.jpg" = Some node /\ is_slide node.
Proof.
  intros E w'.
  assert (Hev : In (Render "in/deck.pdf" DPI 2 2 (inl "PDFPageCountError"))
                   (trace w'))
    by (vm_compute; do 5 right; left; reflexivity).
  pose proof (render_failure_fatal E "in/deck.pdf" Demo.stale w'
                (snd (run E "in/deck.pdf" Demo.stale)) 2 "PDFPageCountError"
                (surjective_pairing _) Hev)
    as (Hr & _ & _ & _ & Hsaved & _ & Hmeta & Hslides).
  split; [exact Hev|]. split; [exact Hr|]. split; [exact Hsaved|].
  split; [exact Hmeta|]. exact (Hslides 1 ltac:(lia)).
Defined.

(** ** The format of the slides *)

(** C5.  Whatever the renderer returns for a page, the image stored for
    it has size 1920 x 1080 and mode [RGB].  Every save call of a run,
    whatever the outcome of the run, stores such an image at a slide
    path with the configured quality; every entry below the output
    directory that differs from what was there before the run is such a
    slide, and after a successful run in a well-formed filesystem so is
    every entry below the output directory. *)
Theorem slides_have_target_format (E : Env) (pdf : string) (fs : FS)
    (w' : World) (r : Result unit) :
  run E pdf fs = (w', r) ->
  (forall page,
     im_size (normalise E page) = (1920, 1080)
     /\ im_mode (normalise E page) = "RGB")
  /\ (forall p img q, In (Save p img q) (trace w') ->
        im_size img = (1920, 1080) /\ im_mode img = "RGB"
        /\ q = JPG_QUALITY /\ exists i, p = slide_path i)
  /\ Forall slide_image (saved_images (trace w'))
  /\ (forall p node,
        Fs.under OUTPUT_DIR p = true ->
        files w' !! p = Some node -> fs !! p <> Some node ->
        is_slide node)
  /\ (r = Ok tt -> Fs.wf fs ->
      forall p node,
        Fs.under OUTPUT_DIR p = true -> files w' !! p = Some node ->
        is_slide node).
Proof.
  intros Hrun. pose proof (run_events E pdf fs w' r Hrun) as Hall.
  rewrite Forall_forall in Hall.
  split; [intros page; apply normalise_slide|].
  split.
  { intros p img q Hin%list_elem_of_In.
    destruct (Hall _ Hin) as ([Hsize Hmode] & Hq & Hp). done. }
  split.
  { apply Forall_forall. intros img Himg.
    apply list_elem_of_omap in Himg as (ev & Hev & Heq).
    destruct ev; simplify_eq. by destruct (Hall _ Hev) as (? & _). }
  split.
  { intros p node Hp Hnode Hnew.
    destruct (run_under_lookup E pdf fs w' r p Hrun Hp)
      as [Heq|[Heq|(node' & Heq & Hslide)]]; [congruence..|].
    by simplify_eq. }
  intros -> Hwf p node Hp Hnode.
  destruct (run_ok_files E pdf fs w' Hrun)
    as (n & _ & _ & _ & _ & Hnew & _ & Hclean & _).
  destruct (in_dec string_dec p (map slide_path (range 1 (n + 1))))
    as [Hin|Hout].
  - apply in_map_iff in Hin as (i & <- & Hi%range_In).
    destruct (Hnew i ltac:(lia)) as (fs' & page & more & _ & Hfile).
    rewrite Hfile in Hnode. simplify_eq.
    eexists. split; [done|]. apply normalise_slide.
  - rewrite (Hclean (wf_tidy _ Hwf) p Hp) in Hnode; [done|].
    intros i Hi ->. apply Hout, in_map, range_In. lia.
Qed.

Lemma slides_have_target_format_witness :
  let E := Demo.env Demo.three_pages 0 Demo.stamp1 in
  let w' := fst (run E "in/deck.pdf" Demo.stale) in
  Fs.wf Demo.stale
  /\ Forall slide_image (saved_images (trace w'))
  /\ forall p node,
       Fs.under OUTPUT_DIR p = true -> files w' !! p = Some node ->
       is_slide node.
Proof.
  intros E w'.
  assert (Hrun : run E "in/deck.pdf" Demo.stale = (w', Ok tt))
    by (vm_compute; reflexivity).
  assert (Hwf : Fs.wf Demo.stale)
    by (refine (bool_decide_unpack (Fs.wf Demo.stale) _); vm_compute; exact I).
  pose proof (slides_have_target_format E "in/deck.pdf" Demo.stale w' (Ok tt)
                Hrun) as (_ & _ & Himgs & _ & Hall).
  split; [exact Hwf|]. split; [exact Himgs|]. exact (Hall eq_refl Hwf).
Defined.

(** ** The metadata file and the output directory *)

(** C9.  The metadata path is not the output directory nor below it,
    and both lie in the same directory.  The directory reset, whatever
    its outcome, leaves the metadata path as it was; so does every run
    that fails.  A run changes what the metadata path holds only when it
    succeeds, and then by its last call. *)
Theorem metadata_outside_output_dir :
  Fs.within OUTPUT_DIR META_PATH = false
  /\ fst (PosixPath.split META_PATH) = fst (PosixPath.split OUTPUT_DIR)
  /\ (forall w w' r,
        reset_output_dir w = (w', r) ->
        files w' !! META_PATH = files w !! META_PATH)
  /\ (forall E pdf fs w' e,
        run E pdf fs = (w', Raise e) ->
        files w' !! META_PATH = fs !! META_PATH)
  /\ (forall E pdf fs w' r,
        run E pdf fs = (w', r) ->
        files w' !! META_PATH <> fs !! META_PATH ->
        r = Ok tt
        /\ exists text,
             last (trace w') = Some (OpenWrite META_PATH text)
             /\ meta_writes (trace w') = [text]
             /\ files w' !! META_PATH = Some (File (TextData text))).
Proof.
  split; [reflexivity|]. split; [reflexivity|].
  split.
  { intros w w' r Hreset. by apply (reset_frame _ _ _ META_PATH Hreset). }
  split; [intros E pdf fs w' e; apply run_meta_kept|].
  intros E pdf fs w' [[]|e] Hrun Hchanged.
  - split; [done|].
    destruct (run_ok_files E pdf fs w' Hrun) as (n & Hprobe & Hfile & _).
    destruct (trace_projections_ok E pdf fs w' n Hrun Hprobe)
      as (_ & _ & Hmeta & _ & Hlast & _).
    by exists (meta_text E pdf n).
  - by rewrite (run_meta_kept E pdf fs w' e Hrun) in Hchanged.
Qed.

Lemma metadata_outside_output_dir_witness :
  let E := Demo.env Demo.three_pages 2 Demo.stamp2 in
  let w' := fst (run E "in/deck.pdf" Demo.stale) in
  run E "in/deck.pdf" Demo.stale = (w', Raise (External "PDFPageCountError"))
  /\ files w' !! META_PATH = Some (File (TextData "old meta")).
Proof.
  intros E w'.
  assert (Hrun : run E "in/deck.pdf" Demo.stale
                 = (w', Raise (External "PDFPageCountError")))
    by (vm_compute; reflexivity).
  split; [exact Hrun|].
  exact (proj1 (proj2 (proj2 (proj2 metadata_outside_output_dir)))
           E "in/deck.pdf" Demo.stale w' _ Hrun).
Defined.

(** ** The index into the rendered pages *)

(** C10.  If the renderer returns a non-empty list for every page
    between 1 and the probed page count, whatever the state of the
    filesystem, then a run does not raise [IndexError]: every list it
    indexes at position 0 has an element there. *)
Theorem render_index_in_bounds (E : Env) (pdf : string) (fs : FS) :
  (forall n, probe E pdf fs = Ok n ->
     forall fs' i, 1 <= i <= n ->
       exists page more, render E fs' pdf DPI i i = inr (page :: more)) ->
  snd (run E pdf fs) <> Raise IndexError
  /\ (forall i imgs,
        In (Render pdf DPI i i (inr imgs)) (trace (fst (run E pdf fs))) ->
        exists page, py_index imgs 0 = Ok page).
Proof.
  intros Hpre.
  destruct (run E pdf fs) as [w' r] eqn:Hrun. simpl.
  assert (Hstored : forall pages w1 w2 n,
            probe E pdf fs = Ok n ->
            (forall j, In j pages -> 1 <= j <= n) ->
            pages_stored E pdf pages w1 w2 ->
            forall tr, trace w2 = trace w1 ++ tr ->
            forall i imgs, In (Render pdf DPI i i (inr imgs)) tr ->
                           exists page, py_index imgs 0 = Ok page).
  { intros pages w1 w2 n Hn Hpages Hst.
    induction Hst as [w|j rest w w2 page more Hr Hfree Hrest IH].
    - intros tr Htr i imgs Hin.
      rewrite <- (app_nil_r (trace w)) in Htr at 1.
      apply app_inv_head in Htr as <-. done.
    - destruct (stored_trace E pdf _ _ _ Hrest) as (tr' & Htr' & _).
      intros tr Htr i imgs Hin. rewrite Htr' in Htr. simpl in Htr.
      rewrite <- app_assoc in Htr. apply app_inv_head in Htr as <-.
      simpl in Hin. destruct Hin as [Hin|[Hin|Hin]]; [|done|].
      + simplify_eq. by exists page.
      + apply (IH ltac:(intros; apply Hpages; by right) tr' Htr' i imgs Hin). }
  assert (Hreset_quiet : forall w1 w2 r1,
            reset_output_dir w1 = (w2, r1) ->
            exists tr, trace w2 = trace w1 ++ tr
                       /\ forall i imgs,
                            ~ In (Render pdf DPI i i (inr imgs)) tr).
  { intros w1 w2 r1 (tr & Htr & Hall)%reset_events. exists tr.
    split; [done|]. intros i imgs Hin. rewrite Forall_forall in Hall.
    apply list_elem_of_In in Hin. by destruct (Hall _ Hin). }
  destruct r as [[]|e].
  - split; [done|].
    apply run_ok in Hrun as (n & w1 & w2 & Hprobe & Hreset & Hst & _ & ->).
    destruct (Hreset_quiet _ _ _ Hreset) as (tr1 & Htr1 & Hno1).
    destruct (stored_trace E pdf _ _ _ Hst) as (tr2 & Htr2 & _).
    intros i imgs Hin. simpl in Hin. rewrite Htr2, Htr1 in Hin.
    simpl in Hin. destruct Hin as [|Hin]; [done|].
    rewrite !in_app_iff in Hin. destruct Hin as [[Hin|Hin]|[|[]]]; try done.
    + by destruct (Hno1 i imgs).
    + eapply (Hstored _ _ _ n Hprobe); [|exact Hst|exact Htr2|exact Hin].
      intros j Hj%range_In. lia.
  - apply run_raise in Hrun
      as [Hprobe ->|n Hprobe Hreset
         |n w1 wm done rest i0 Hprobe Hreset Hsplit Hst Hfail
         |n w1 w2 Hprobe Hreset Hst Hdir -> ->].
    + split; [|by intros i imgs [|[]]].
      destruct (probe_error E pdf fs e Hprobe) as [[tag ->]|[->| ->]]; done.
    + split; [destruct (reset_error _ _ _ Hreset) as [-> | ->]; done|].
      destruct (Hreset_quiet _ _ _ Hreset) as (tr1 & Htr1 & Hno1).
      intros i imgs Hin. rewrite Htr1 in Hin. simpl in Hin.
      destruct Hin as [|Hin]; [done|]. by destruct (Hno1 i imgs).
    + destruct (range_split _ _ _ _ _ Hsplit) as [Hi ->].
      destruct (Hpre n Hprobe (files wm) i0 ltac:(lia))
        as (page0 & more0 & Hrender).
      destruct (Hreset_quiet _ _ _ Hreset) as (tr1 & Htr1 & Hno1).
      destruct (stored_trace E pdf _ _ _ Hst) as (tr2 & Htr2 & _).
      assert (Hdone : forall i imgs, In (Render pdf DPI i i (inr imgs)) tr2 ->
                        exists page, py_index imgs 0 = Ok page).
      { eapply (Hstored _ _ _ n Hprobe); [|exact Hst|exact Htr2].
        intros j Hj%range_In. lia. }
      inversion Hfail as [tag0 Hr Hw He|Hr Hw He|page more Hr Hp Hw He];
        subst w' e; [|congruence|]; (split; [done|]);
        intros i imgs Hin; simpl in Hin; rewrite Htr2, Htr1 in Hin;
        simpl in Hin; (destruct Hin as [|Hin]; [done|]);
        rewrite !in_app_iff in Hin; simpl in Hin.
      * destruct Hin as [[Hin|Hin]|[Hin|[]]].
        -- by destruct (Hno1 i imgs).
        -- by apply (Hdone i).
        -- done.
      * destruct Hin as [[Hin|Hin]|[Hin|[Hin|[]]]].
        -- by destruct (Hno1 i imgs).
        -- by apply (Hdone i).
        -- simplify_eq. by exists page.
        -- done.
    + split; [done|].
      destruct (Hreset_quiet _ _ _ Hreset) as (tr1 & Htr1 & Hno1).
      destruct (stored_trace E pdf _ _ _ Hst) as (tr2 & Htr2 & _).
      intros i imgs Hin. simpl in Hin. rewrite Htr2, Htr1 in Hin.
      simpl in Hin. destruct Hin as [|Hin]; [done|].
      rewrite !in_app_iff in Hin. destruct Hin as [[Hin|Hin]|[|[]]]; try done.
      * by destruct (Hno1 i imgs).
      * eapply (Hstored _ _ _ n Hprobe); [|exact Hst|exact Htr2|exact Hin].
        intros j Hj%range_In. lia.
Qed.

Lemma render_index_in_bounds_witness :
  let E := Demo.env Demo.three_pages 0 Demo.stamp1 in
  (forall fs' i, 1 <= i <= 3 ->
     exists page more, render E fs' "in/deck.pdf" DPI i i = inr (page :: more))
  /\ snd (run E "in/deck.pdf" Demo.stale) <> Raise IndexError.
Proof.
  intros E.
  assert (Hpre : forall fs' i, 1 <= i <= 3 ->
            exists page more,
              render E fs' "in/deck.pdf" DPI i i = inr (page :: more)).
  { intros fs' i Hi. simpl. destruct (i =? 0) eqn:H0; [lia|].
    by exists (Demo.page_image i), []. }
  split; [exact Hpre|].
  refine (proj1 (render_index_in_bounds E "in/deck.pdf" Demo.stale _)).
  intros n Hn. vm_compute in Hn. injection Hn as <-. exact Hpre.
Defined.

(** With a renderer that returns no image for a page that is reached,
    the index is out of bounds and the run raises [IndexError]. *)
Lemma empty_render_raises (E : Env) (pdf : string) (w : World) (i : Z) :
  files w !! OUTPUT_DIR = Some Dir ->
  render E (files w) pdf DPI i i = inr [] ->
  snd (convert_page E pdf i w) = Raise IndexError.
Proof. intros Hdir Hr. by rewrite (convert_page_eq E pdf i w Hdir), Hr. Qed.

(** ** Running twice *)

(** C7.  Let a run succeed from a well-formed filesystem, and let a
    second run on the same input succeed from the filesystem the first
    one left, the probe reporting the same page count.  Then the second
    run starts by removing the output directory with the slides of the
    first; the two final filesystems have the same set of paths, the
    same slide paths were saved, everything outside the output directory
    but the metadata file is identical, and the two metadata documents
    agree on every key but [generated_at].  If moreover the renderer and
    the image kernels answer the same in both runs, the two filesystems
    agree everywhere but at the metadata path. *)
Theorem rerun_same_content (E1 E2 : Env) (pdf : string) (fs0 : FS)
    (w1 w2 : World) :
  Fs.wf fs0 ->
  run E1 pdf fs0 = (w1, Ok tt) ->
  run E2 pdf (files w1) = (w2, Ok tt) ->
  probe E2 pdf (files w1) = probe E1 pdf fs0 ->
  exists n,
    probe E1 pdf fs0 = Ok n
    /\ (exists tr,
          trace w2 = RunPdfinfo pdf (run_pdfinfo E2 (files w1) pdf)
                     :: Rmtree OUTPUT_DIR :: Makedirs OUTPUT_DIR :: tr)
    /\ (exists wr,
          reset_output_dir (probed E2 pdf (files w1)) = (wr, Ok tt)
          /\ slides_of (files wr) = ∅)
    /\ dom (files w2) = dom (files w1)
    /\ dom (slides_of (files w2)) = dom (slides_of (files w1))
    /\ saved_paths (trace w2) = saved_paths (trace w1)
    /\ (forall p, Fs.under OUTPUT_DIR p = false -> p <> META_PATH ->
          files w2 !! p = files w1 !! p)
    /\ files w1 !! META_PATH
       = Some (File (TextData
           (Json.dump (make_meta E1 n (PosixPath.basename pdf)))))
    /\ files w2 !! META_PATH
       = Some (File (TextData
           (Json.dump (make_meta E2 n (PosixPath.basename pdf)))))
    /\ (forall k, k <> "generated_at" ->
          Json.get (make_meta E2 n (PosixPath.basename pdf)) k
          = Json.get (make_meta E1 n (PosixPath.basename pdf)) k)
    /\ ((forall fs fs' i, render E2 fs' pdf DPI i i = render E1 fs pdf DPI i i) ->
        (forall page, normalise E2 page = normalise E1 page) ->
        forall p, p <> META_PATH -> files w2 !! p = files w1 !! p).
Proof.
  intros Hwf Hrun1 Hrun2 Hsame.
  destruct (run_ok_files E1 pdf fs0 w1 Hrun1)
    as (n & Hn1 & Hmeta1 & Hdir1 & HWeb1 & Hnew1 & _ & Hclean1 & _).
  destruct (run_ok_files E2 pdf (files w1) w2 Hrun2)
    as (n2 & Hn2 & Hmeta2 & Hdir2 & HWeb2 & Hnew2 & _ & Hclean2 & Hframe2).
  assert (n2 = n) as -> by congruence.
  assert (Htidy1 : tidy (files w1)) by (intros Hnone; congruence).
  specialize (Hclean1 (wf_tidy _ Hwf)). specialize (Hclean2 Htidy1).
  pose proof (slides_dom E1 pdf fs0 w1 n Hrun1 Hn1 (wf_tidy _ Hwf)) as Hdom1.
  pose proof (slides_dom E2 pdf (files w1) w2 n Hrun2 Hn2 Htidy1) as Hdom2.
  assert (Hout : forall p, Fs.under OUTPUT_DIR p = false -> p <> META_PATH ->
                           files w2 !! p = files w1 !! p).
  { intros p Hp Hpm.
    destruct (decide (p = OUTPUT_DIR)) as [->|Hpd]; [congruence|].
    destruct (decide (p = "Web")) as [->|HpW]; [congruence|].
    apply Hframe2; [|done..]. unfold Fs.within. rewrite Hp, orb_false_r.
    by apply String.eqb_neq. }
  assert (Hunder : forall (w : World) p, Fs.under OUTPUT_DIR p = true ->
            (p ∈ dom (slides_of (files w)) <-> is_Some (files w !! p))).
  { intros w p Hp. rewrite elem_of_dom. unfold slides_of. split.
    - intros [node [Hnode _]%map_lookup_filter_Some]. by exists node.
    - intros [node Hnode]. exists node. by apply map_lookup_filter_Some. }
  exists n. split; [done|]. split.
  { destruct (run_ok_trace E2 pdf (files w1) w2 Hrun2)
      as (m & tr & _ & -> & _).
    unfold Fs.exists_. rewrite Hdir1. simpl. by eexists. }
  split.
  { apply run_ok in Hrun2 as (m & wr & w2' & _ & Hreset & _).
    exists wr. split; [done|].
    destruct (reset_ok _ _ Hreset) as (_ & _ & Hempty & _).
    apply map_empty. intros p. apply map_lookup_filter_None.
    destruct (Fs.under OUTPUT_DIR p) eqn:Hp.
    - left. by apply Hempty.
    - right. intros node _. simpl. congruence. }
  split.
  { apply set_eq. intros p. destruct (Fs.under OUTPUT_DIR p) eqn:Hp.
    - rewrite !elem_of_dom, <- !Hunder by done. by rewrite Hdom1, Hdom2.
    - destruct (decide (p = META_PATH)) as [->|Hpm].
      + rewrite !elem_of_dom, Hmeta1, Hmeta2. split; intros _; by eexists.
      + by rewrite !elem_of_dom, Hout. }
  split; [by rewrite Hdom1, Hdom2|].
  split.
  { destruct (trace_projections_ok E1 pdf fs0 w1 n Hrun1 Hn1) as (_ & -> & _).
    by destruct (trace_projections_ok E2 pdf (files w1) w2 n Hrun2 Hn2)
      as (_ & -> & _). }
  split; [done|]. split; [done|]. split; [done|].
  split.
  { intros k Hk. simpl.
    destruct (String.eqb_spec k "generated_at"); done. }
  intros Hrender Hnorm p Hpm.
  destruct (Fs.under OUTPUT_DIR p) eqn:Hp; [|by apply Hout].
  destruct (in_dec string_dec p (map slide_path (range 1 (n + 1))))
    as [Hin|Hnotin].
  - apply in_map_iff in Hin as (i & <- & Hi%range_In).
    destruct (Hnew1 i ltac:(lia)) as (fsa & page1 & more1 & Hr1 & ->).
    destruct (Hnew2 i ltac:(lia)) as (fsb & page2 & more2 & Hr2 & ->).
    rewrite (Hrender fsa fsb i), Hr1 in Hr2. simplify_eq.
    by rewrite Hnorm.
  - assert (Hfresh : forall i, 1 <= i <= n -> p <> slide_path i).
    { intros i Hi ->. apply Hnotin, in_map, range_In. lia. }
    by rewrite Hclean1, Hclean2.
Qed.

Lemma rerun_same_content_witness :
  let E1 := Demo.env Demo.three_pages 0 Demo.stamp1 in
  let E2 := Demo.env Demo.three_pages 0 Demo.stamp2 in
  let w1 := fst (run E1 "in/deck.pdf" Demo.stale) in
  let w2 := fst (run E2 "in/deck.pdf" (files w1)) in
  Fs.wf Demo.stale
  /\ run E1 "in/deck.pdf" Demo.stale = (w1, Ok tt)
  /\ run E2 "in/deck.pdf" (files w1) = (w2, Ok tt)
  /\ dom (files w2) = dom (files w1)
  /\ forall p, p <> META_PATH -> files w2 !! p = files w1 !! p.
Proof.
  intros E1 E2 w1 w2.
  assert (Hwf : Fs.wf Demo.stale)
    by (refine (bool_decide_unpack (Fs.wf Demo.stale) _); vm_compute; exact I).
  assert (Hrun1 : run E1 "in/deck.pdf" Demo.stale = (w1, Ok tt))
    by (vm_compute; reflexivity).
  assert (Hrun2 : run E2 "in/deck.pdf" (files w1) = (w2, Ok tt))
    by (vm_compute; reflexivity).
  assert (Hsame : probe E2 "in/deck.pdf" (files w1)
                  = probe E1 "in/deck.pdf" Demo.stale)
    by (vm_compute; reflexivity).
  destruct (rerun_same_content E1 E2 "in/deck.pdf" Demo.stale w1 w2
              Hwf Hrun1 Hrun2 Hsame)
    as (n & _ & _ & _ & Hdom & _ & _ & _ & _ & _ & _ & Hall).
  split; [exact Hwf|]. split; [exact Hrun1|]. split; [exact Hrun2|].
  split; [exact Hdom|].
  apply Hall; reflexivity.
Defined.

(** * Further properties of the script *)

(** ** The output of [pdfinfo] as text *)

Section ToolOutput.

Lemma blank_isspace (c : ascii) : blank c = true -> PyStr.isspace c = true.
Proof.
  unfold blank. intros [->%Ascii.eqb_eq | ->%Ascii.eqb_eq]%orb_true_iff;
    reflexivity.
Qed.

Lemma blank_no_linebreak (c : ascii) : blank c = true -> no_linebreak c = true.
Proof.
  unfold blank. intros [->%Ascii.eqb_eq | ->%Ascii.eqb_eq]%orb_true_iff;
    reflexivity.
Qed.

Lemma numeral_char_no_linebreak (c : ascii) :
  numeral_char c = true -> no_linebreak c = true.
Proof.
  destruct c as [[] [] [] [] [] [] [] []]; vm_compute; congruence.
Qed.

(** A line that a newline ends is the next element of [splitlines]. *)
Lemma splitlines_from_line (l rest cur : string) :
  all_chars no_linebreak l = true ->
  PyStr.splitlines_from (l +:+ PyStr.NL +:+ rest) cur
  = (PyStr.rev cur +:+ l) :: PyStr.splitlines_from rest EmptyString.
Proof.
  revert cur. induction l as [|c l IH]; intros cur Hl.
  - rewrite app_empty_l, app_empty_r. unfold PyStr.NL. rewrite app_cons, app_empty_l.
    cbn [PyStr.splitlines_from].
    change (PyStr.is_linebreak PyStr.LF) with true. cbv iota.
    change (Ascii.eqb PyStr.LF PyStr.CR) with false.
    destruct rest; reflexivity.
  - cbn [all_chars] in Hl. apply andb_true_iff in Hl as [Hc Hl].
    rewrite app_cons. cbn [PyStr.splitlines_from].
    unfold no_linebreak in Hc. apply negb_true_iff in Hc. rewrite Hc.
    rewrite IH by exact Hl. rewrite rev_cons, app_assoc_s, app_cons, app_empty_l.
    reflexivity.
Qed.

(** So is a non-empty last line, and a line that any boundary ends. *)
Lemma splitlines_from_head (l rest cur : string) :
  all_chars no_linebreak l = true -> l <> EmptyString ->
  at_line_end rest = true ->
  exists more,
    PyStr.splitlines_from (l +:+ rest) cur = (PyStr.rev cur +:+ l) :: more.
Proof.
  revert cur. induction l as [|c l IH]; intros cur Hl Hne Hrest; [done|].
  cbn [all_chars] in Hl. apply andb_true_iff in Hl as [Hc Hl].
  rewrite app_cons. cbn [PyStr.splitlines_from].
  unfold no_linebreak in Hc. apply negb_true_iff in Hc. rewrite Hc.
  destruct l as [|c' l].
  - rewrite app_empty_l.
    assert (PyStr.rev (String c cur) = PyStr.rev cur +:+ String c "") as Hrev
      by apply rev_cons.
    destruct rest as [|d rest].
    + cbn [PyStr.splitlines_from]. rewrite Hrev. eauto.
    + cbn [at_line_end] in Hrest. cbn [PyStr.splitlines_from]. rewrite Hrest.
      rewrite Hrev. destruct rest as [|d' rest]; [eauto|].
      destruct (Ascii.eqb d PyStr.CR && Ascii.eqb d' PyStr.LF); eauto.
  - destruct (IH (String c cur) Hl) as [more Hmore]; [done|exact Hrest|].
    rewrite Hmore, rev_cons, app_assoc_s, app_cons, app_empty_l. eauto.
Qed.

Lemma splitlines_text_lines (pre : list string) (rest : string) :
  forallb other_line pre = true ->
  PyStr.splitlines (text_lines pre +:+ rest) = pre ++ PyStr.splitlines rest.
Proof.
  unfold PyStr.splitlines.
  induction pre as [|l pre IH]; intros Hpre.
  - by rewrite app_empty_l.
  - cbn [forallb] in Hpre. apply andb_true_iff in Hpre as [Hl Hpre].
    apply andb_true_iff in Hl as [Hl _].
    cbn [text_lines]. rewrite !app_assoc_s.
    rewrite splitlines_from_line by exact Hl.
    rewrite IH by exact Hpre. reflexivity.
Qed.

Lemma find_other_lines (pre rest : list string) :
  forallb other_line pre = true ->
  List.find pages_line (pre ++ rest) = List.find pages_line rest.
Proof.
  induction pre as [|l pre IH]; intros Hpre; [done|].
  cbn [forallb] in Hpre. apply andb_true_iff in Hpre as [Hl Hpre].
  apply andb_true_iff in Hl as [_ Hl]. apply negb_true_iff in Hl.
  cbn [app List.find]. rewrite Hl. by apply IH.
Qed.

Lemma pages_line_intro (r : string) : pages_line ("Pages:" +:+ r) = true.
Proof. unfold pages_line, PyStr.startswith. apply prefix_refl_app. Qed.

(** The first line that announces the page count, in an output that has
    other lines before it. *)
Lemma first_pages_line_text (pre : list string) (ws : string) (n : Z)
    (rest : string) :
  forallb other_line pre = true ->
  all_chars blank ws = true ->
  at_line_end rest = true ->
  first_pages_line
    (text_lines pre +:+ "Pages:" +:+ ws +:+ PyStr.of_int n +:+ rest)
  = Some ("Pages:" +:+ ws +:+ PyStr.of_int n).
Proof.
  intros Hpre Hws Hrest. unfold first_pages_line.
  rewrite splitlines_text_lines by exact Hpre.
  rewrite find_other_lines by exact Hpre.
  set (line := "Pages:" +:+ ws +:+ PyStr.of_int n).
  assert (all_chars no_linebreak line = true) as Hline.
  { unfold line. rewrite !all_chars_app.
    apply andb_true_iff; split; [reflexivity|]. apply andb_true_iff; split.
    - eapply all_chars_weaken; [apply blank_no_linebreak|exact Hws].
    - eapply all_chars_weaken;
        [apply numeral_char_no_linebreak|apply numeral_chars_of_int]. }
  assert ("Pages:" +:+ ws +:+ PyStr.of_int n +:+ rest = line +:+ rest) as ->.
  { unfold line. by rewrite !app_assoc_s. }
  destruct (splitlines_from_head line rest EmptyString Hline) as [more Hmore];
    [done|exact Hrest|].
  unfold PyStr.splitlines. rewrite Hmore.
  change (PyStr.rev "") with EmptyString. rewrite app_empty_l.
  cbn [List.find]. unfold line at 1. by rewrite pages_line_intro.
Qed.

End ToolOutput.

(** ** The directory reset, case by case *)

Section Reset.

Implicit Types (w : World) (fs : FS) (p : string).

Lemma blocked_cases fs :
  blocked fs = true <->
  (exists data, fs !! "Web" = Some (File data))
  \/ (exists data, fs !! OUTPUT_DIR = Some (File data)).
Proof.
  unfold blocked, is_file. rewrite orb_true_iff.
  split; intros [H|H]; [left|right|left|right];
    repeat case_match; try done; try (by eexists); by destruct H.
Qed.

Lemma filter_keeps_Web fs :
  filter (fun kv : string * Node => Fs.within OUTPUT_DIR kv.1 = false) fs
    !! "Web" = fs !! "Web".
Proof.
  destruct (fs !! "Web") as [n|] eqn:Hn.
  - by apply map_lookup_filter_Some.
  - apply map_lookup_filter_None. by left.
Qed.

Lemma filter_drops_output_dir fs :
  filter (fun kv : string * Node => Fs.within OUTPUT_DIR kv.1 = false) fs
    !! OUTPUT_DIR = None.
Proof.
  apply map_lookup_filter_None. right. intros n _. simpl.
  by rewrite within_refl.
Qed.

(** A reset fails in one way only: a regular file stands in the place of
    the output directory or of its parent. *)
Lemma reset_raise_blocked w w' e :
  reset_output_dir w = (w', Raise e) ->
  e = NotADirectoryError OUTPUT_DIR /\ blocked (files w) = true.
Proof.
  rewrite reset_output_dir_eq. rewrite blocked_cases.
  destruct (files w !! OUTPUT_DIR) as [[|data]|] eqn:Hdir.
  - cbv zeta. rewrite makedirs_output_dir, filter_keeps_Web,
      filter_drops_output_dir.
    destruct (files w !! "Web") as [[|data]|] eqn:HWeb; try done.
    intros [= <- <-]. split; [done|]. left. by eexists.
  - intros [= <- <-]. split; [done|]. right. by eexists.
  - cbv zeta. rewrite makedirs_output_dir, Hdir.
    destruct (files w !! "Web") as [[|data]|] eqn:HWeb; try done.
    intros [= <- <-]. split; [done|]. left. by eexists.
Qed.

Lemma wf_output_dir_Web fs :
  Fs.wf fs -> is_Some (fs !! OUTPUT_DIR) -> fs !! "Web" = Some Dir.
Proof. intros Hwf Hdir. by apply (wf_under fs "Web" OUTPUT_DIR). Qed.

(** In a well-formed filesystem a blocked reset changes nothing. *)
Lemma reset_blocked w w' r :
  Fs.wf (files w) -> blocked (files w) = true ->
  reset_output_dir w = (w', r) ->
  r = Raise (NotADirectoryError OUTPUT_DIR) /\ files w' = files w
  /\ exists ev, trace w' = trace w ++ [ev]
                /\ (ev = Rmtree OUTPUT_DIR \/ ev = Makedirs OUTPUT_DIR).
Proof.
  intros Hwf [[data HWeb]|[data Hdir]]%blocked_cases;
    rewrite reset_output_dir_eq.
  - destruct (files w !! OUTPUT_DIR) as [n|] eqn:Hdir.
    { rewrite (wf_output_dir_Web _ Hwf) in HWeb; [done|by eexists]. }
    cbv zeta. rewrite makedirs_output_dir, Hdir, HWeb.
    intros [= <- <-]. split; [done|]. split; [done|]. eauto.
  - rewrite Hdir. intros [= <- <-]. split; [done|]. split; [done|]. eauto.
Qed.

(** Otherwise it succeeds. *)
Lemma reset_unblocked w :
  Fs.wf (files w) -> blocked (files w) = false ->
  exists w1, reset_output_dir w = (w1, Ok tt).
Proof.
  intros Hwf Hfree.
  destruct (reset_output_dir w) as [w1 [[]|e]] eqn:Hreset; [by eexists|].
  apply reset_raise_blocked in Hreset as [_ Hb]. congruence.
Qed.

(** What a reset does to [Web]: nothing, or it creates the directory. *)
Lemma reset_Web w w' r :
  reset_output_dir w = (w', r) ->
  files w' !! "Web" = files w !! "Web"
  \/ (files w !! "Web" = None /\ files w' !! "Web" = Some Dir).
Proof.
  rewrite reset_output_dir_eq.
  destruct (files w !! OUTPUT_DIR) as [[|data]|] eqn:Hdir.
  - cbv zeta. rewrite makedirs_output_dir, filter_keeps_Web,
      filter_drops_output_dir.
    destruct (files w !! "Web") as [[|data]|] eqn:HWeb;
      intros [= <- <-]; cbn [files].
    + left. rewrite lookup_insert_ne by done. by rewrite filter_keeps_Web.
    + left. by rewrite filter_keeps_Web.
    + right. split; [done|]. rewrite lookup_insert_ne by done.
      by rewrite lookup_insert_eq.
  - intros [= <- <-]. by left.
  - cbv zeta. rewrite makedirs_output_dir, Hdir.
    destruct (files w !! "Web") as [[|data]|] eqn:HWeb;
      intros [= <- <-]; cbn [files].
    + left. by rewrite lookup_insert_ne.
    + by left.
    + right. split; [done|]. rewrite lookup_insert_ne by done.
      by rewrite lookup_insert_eq.
Qed.

End Reset.

(** ** The anatomy of a run *)

Section Anatomy.

Context (E : Env) (pdf : string).

Implicit Types (w : World) (fs : FS) (p : string).

(** A run ends where the probe or the directory reset fails. *)
Lemma run_probe_fails fs w' r (e : exn) :
  run E pdf fs = (w', r) -> probe E pdf fs = Raise e ->
  r = Raise e /\ w' = probed E pdf fs.
Proof.
  unfold run. rewrite convert_unfold, probe_world. intros Hrun Hprobe.
  rewrite Hprobe in Hrun. by injection Hrun as <- <-.
Qed.

Lemma run_reset_fails fs w' r (n : Z) w1 (e : exn) :
  run E pdf fs = (w', r) -> probe E pdf fs = Ok n ->
  reset_output_dir (probed E pdf fs) = (w1, Raise e) ->
  r = Raise e /\ w' = w1.
Proof.
  unfold run. rewrite convert_unfold, probe_world. intros Hrun Hprobe Hreset.
  rewrite Hprobe, Hreset in Hrun. by injection Hrun as <- <-.
Qed.

(** A run that got past the directory reset stored the slides of some
    first pages and then ended in one of three ways: it wrote the
    metadata file, it could not write it, or the next page failed. *)
Lemma run_past_reset fs w' r (n : Z) w1 :
  run E pdf fs = (w', r) ->
  probe E pdf fs = Ok n ->
  reset_output_dir (probed E pdf fs) = (w1, Ok tt) ->
  exists done rest wm,
    range 1 (n + 1) = done ++ rest
    /\ pages_stored E pdf done w1 wm
    /\ ((r = Ok tt /\ rest = []
         /\ files wm !! META_PATH <> Some Dir
         /\ w' = mkWorld
                   (<[META_PATH := File (TextData (meta_text E pdf n))]>
                      (files wm))
                   (trace wm ++ [OpenWrite META_PATH (meta_text E pdf n)]))
        \/ (r = Raise (IsADirectoryError META_PATH) /\ rest = []
            /\ files wm !! META_PATH = Some Dir
            /\ w' = mkWorld (files wm)
                      (trace wm ++ [OpenWrite META_PATH (meta_text E pdf n)]))
        \/ (exists e i rest',
              r = Raise e /\ rest = i :: rest'
              /\ page_fails E pdf i wm w' e)).
Proof.
  intros Hrun Hprobe Hreset. destruct r as [[]|e].
  - apply run_ok in Hrun as (m & v1 & w2 & Hm & Hr & Hst & Hfree & ->).
    assert (m = n) as -> by congruence.
    assert (v1 = w1) as -> by congruence.
    exists (range 1 (n + 1)), [], w2. rewrite app_nil_r.
    split; [done|]. split; [done|]. left. done.
  - apply run_raise in Hrun
      as [Hp _|m Hm Hr
         |m v1 wm done rest i Hm Hr Hsplit Hst Hfail
         |m v1 w2 Hm Hr Hst Hdir -> ->].
    + congruence.
    + congruence.
    + assert (m = n) as -> by congruence.
      assert (v1 = w1) as -> by congruence.
      exists done, (i :: rest), wm. split; [done|]. split; [done|].
      right. right. by exists e, i, rest.
    + assert (m = n) as -> by congruence.
      assert (v1 = w1) as -> by congruence.
      exists (range 1 (n + 1)), [], w2. rewrite app_nil_r.
      split; [done|]. split; [done|]. right. left. done.
Qed.

(** Below an output directory that was empty, the stored pages leave
    their slides and nothing else. *)
Lemma stored_clean (done : list Z) w1 wm p :
  pages_stored E pdf done w1 wm ->
  (forall q, Fs.under OUTPUT_DIR q = true -> files w1 !! q = None) ->
  Fs.under OUTPUT_DIR p = true ->
  (In p (map slide_path done)
   /\ exists node, files wm !! p = Some node /\ is_slide node)
  \/ (~ In p (map slide_path done) /\ files wm !! p = None).
Proof.
  intros Hst Hclean Hp.
  destruct (in_dec string_dec p (map slide_path done)) as [Hin|Hout].
  - left. split; [done|]. apply in_map_iff in Hin as (i & <- & Hi).
    by eapply stored_slides.
  - right. split; [done|].
    destruct (stored_files E pdf _ _ _ Hst) as [Hframe _].
    rewrite Hframe; [by apply Hclean|].
    intros i Hi ->. by apply Hout, in_map.
Qed.

Lemma stored_clean_not_dir (done : list Z) w1 wm (i : Z) :
  pages_stored E pdf done w1 wm ->
  (forall q, Fs.under OUTPUT_DIR q = true -> files w1 !! q = None) ->
  files wm !! slide_path i <> Some Dir.
Proof.
  intros Hst Hclean.
  destruct (stored_clean done w1 wm (slide_path i) Hst Hclean
              (slide_path_under i))
    as [[_ (node & -> & img & -> & _)]|[_ ->]]; done.
Qed.

(** The stored pages touch slide paths only. *)
Lemma stored_frame (done : list Z) w1 wm p :
  pages_stored E pdf done w1 wm ->
  Fs.under OUTPUT_DIR p = false -> files wm !! p = files w1 !! p.
Proof.
  intros Hst Hp. destruct (stored_files E pdf _ _ _ Hst) as [Hframe _].
  apply Hframe. intros i _ ->. by rewrite slide_path_under in Hp.
Qed.

(** The pages of a run go through when the renderer has an image for
    each of them and no directory stands in the place of a slide. *)
Lemma pages_progress (pages : list Z) w :
  files w !! OUTPUT_DIR = Some Dir ->
  (forall i, In i pages -> files w !! slide_path i <> Some Dir) ->
  (forall fs' i, In i pages ->
     exists page more, render E fs' pdf DPI i i = inr (page :: more)) ->
  exists w', for_each pages (convert_page E pdf) w = (w', Ok tt).
Proof.
  revert w. induction pages as [|i pages IH]; intros w Hdir Hfree Hren.
  - by eexists.
  - cbn [for_each]. unfold bind. rewrite (convert_page_eq E pdf i w Hdir).
    destruct (Hren (files w) i) as (page & more & ->); [by left|].
    assert (files w !! slide_path i <> Some Dir) as Hi
      by (apply Hfree; by left).
    assert (match files w !! slide_path i with
            | Some Dir =>
                (mkWorld (files w)
                   (trace w ++ [Render pdf DPI i i (inr (page :: more));
                                Save (slide_path i) (normalise E page)
                                  JPG_QUALITY]),
                 Raise (IsADirectoryError (slide_path i)))
            | _ => (page_stored E pdf i (page :: more) page w, Ok tt)
            end = (page_stored E pdf i (page :: more) page w, Ok tt)) as ->.
    { by destruct (files w !! slide_path i) as [[|?]|]. }
    apply IH.
    + by apply page_stored_dir.
    + intros j Hj. cbn [page_stored files].
      destruct (decide (slide_path i = slide_path j)) as [->|Hne].
      * by rewrite lookup_insert_eq.
      * rewrite lookup_insert_ne by done. apply Hfree. by right.
    + intros fs' j Hj. apply Hren. by right.
Qed.

End Anatomy.

(** ** The order of the calls *)

Section CallOrder.

Context (E : Env) (pdf : string).

Implicit Types (w : World) (fs : FS) (tr : list Event).

Lemma one_page_at_a_time_tail tr (ev : Event) :
  one_page_at_a_time pdf (ev :: tr) -> one_page_at_a_time pdf tr.
Proof. destruct ev; cbn [one_page_at_a_time]; tauto. Qed.

Lemma one_page_at_a_time_suffix (pre post : list Event) :
  one_page_at_a_time pdf (pre ++ post) -> one_page_at_a_time pdf post.
Proof.
  induction pre as [|ev pre IH]; [done|].
  intros H%one_page_at_a_time_tail. by apply IH.
Qed.

(** A trace that does not end on a call of the renderer can be
    continued. *)
Lemma one_page_at_a_time_app tr (more : list Event) :
  settled pdf tr -> one_page_at_a_time pdf more ->
  one_page_at_a_time pdf (tr ++ more).
Proof.
  intros [Hone Hlast] Hmore. induction tr as [|ev tr IH]; [done|].
  assert (one_page_at_a_time pdf (tr ++ more)) as Hrest.
  { apply IH; [by eapply one_page_at_a_time_tail|].
    destruct tr as [|ev' tr]; [done|]. intros ev0 H0. by apply Hlast. }
  destruct ev; try done.
  cbn [one_page_at_a_time app] in *.
  destruct Hone as (Hcall & Hnext & _).
  split; [done|]. split; [|done].
  destruct tr as [|ev' tr]; [|done].
  by specialize (Hlast _ eq_refl).
Qed.

Lemma no_render_one_page (more : list Event) :
  forallb (fun ev => negb (is_render ev)) more = true ->
  one_page_at_a_time pdf more.
Proof.
  induction more as [|ev more IH]; [done|].
  cbn [forallb]. intros [Hev Hmore]%andb_true_iff.
  destruct ev; try done; by apply IH.
Qed.

Lemma settled_snoc tr (more : list Event) (ev : Event) :
  settled pdf tr -> one_page_at_a_time pdf (more ++ [ev]) ->
  is_render ev = false ->
  settled pdf (tr ++ more ++ [ev]).
Proof.
  intros Htr Hmore Hev. split.
  - by apply one_page_at_a_time_app.
  - rewrite !app_assoc, last_snoc. by intros ? [= <-].
Qed.

Lemma settled_probed fs : settled pdf (trace (probed E pdf fs)).
Proof. split; [done|]. by intros ev [= <-]. Qed.

Lemma settled_reset w w' r :
  reset_output_dir w = (w', r) -> settled pdf (trace w) ->
  settled pdf (trace w').
Proof.
  rewrite reset_output_dir_eq. intros Hreset Hw.
  destruct (files w !! OUTPUT_DIR) as [[|data]|]; cbv zeta in Hreset;
    try destruct (Fs.makedirs _ _); injection Hreset as <- _;
    cbn [trace].
  1,2: by apply (settled_snoc _ [Rmtree OUTPUT_DIR] (Makedirs OUTPUT_DIR)).
  all: by apply (settled_snoc _ [] _).
Qed.

Lemma settled_stored (pages : list Z) w w' :
  pages_stored E pdf pages w w' -> settled pdf (trace w) ->
  settled pdf (trace w').
Proof.
  induction 1 as [w|i rest w w' page more Hr Hfree Hrest IH]; [done|].
  intros Hw. apply IH. cbn [page_stored trace].
  by apply (settled_snoc _ [Render pdf DPI i i (inr (page :: more))] _).
Qed.

Lemma one_page_page_fails (i : Z) w w' e :
  page_fails E pdf i w w' e -> settled pdf (trace w) ->
  one_page_at_a_time pdf (trace w').
Proof.
  inversion 1; subst; cbn [trace]; intros Hw;
    by apply one_page_at_a_time_app.
Qed.

(** Whatever its outcome, a run renders one page at a time. *)
Lemma run_one_page_at_a_time fs w' r :
  run E pdf fs = (w', r) -> one_page_at_a_time pdf (trace w').
Proof.
  intros Hrun.
  destruct (probe E pdf fs) as [n|e0] eqn:Hprobe.
  2:{ destruct (run_probe_fails E pdf fs w' r e0 Hrun Hprobe) as [_ ->].
      apply settled_probed. }
  destruct (reset_output_dir (probed E pdf fs)) as [w1 [[]|e1]] eqn:Hreset.
  2:{ destruct (run_reset_fails E pdf fs w' r n w1 e1 Hrun Hprobe Hreset)
        as [_ ->].
      eapply settled_reset; [exact Hreset|apply settled_probed]. }
  destruct (run_past_reset E pdf fs w' r n w1 Hrun Hprobe Hreset)
    as (done & rest & wm & _ & Hst & Hend).
  assert (settled pdf (trace wm)) as Hwm.
  { eapply settled_stored; [exact Hst|].
    eapply settled_reset; [exact Hreset|apply settled_probed]. }
  destruct Hend as [(_ & _ & _ & ->)|[(_ & _ & _ & ->)|(e & i & rest' & _ & _ & Hfail)]].
  - cbn [trace]. by apply one_page_at_a_time_app.
  - cbn [trace]. by apply one_page_at_a_time_app.
  - by eapply one_page_page_fails.
Qed.

(** What the discipline says of a call of the renderer in a trace. *)
Lemma one_page_at_a_time_at (pre post : list Event) (pdf' : string)
    (dpi first_page last_page : Z) (out : string + list Image) :
  one_page_at_a_time pdf
    (pre ++ Render pdf' dpi first_page last_page out :: post) ->
  (pdf' = pdf /\ dpi = DPI /\ first_page = last_page)
  /\ (post = []
      \/ exists img q post',
           post = Save (slide_path first_page) img q :: post').
Proof.
  intros H%one_page_at_a_time_suffix. cbn [one_page_at_a_time] in H.
  destruct H as (Hcall & Hnext & _). split; [done|].
  destruct post as [|[] post']; try done; [by left|].
  right. subst. eauto.
Qed.

End CallOrder.

(** ** Runs from a well-formed filesystem *)

Section WellFormed.

Context (E : Env) (pdf : string).

Implicit Types (w : World) (fs : FS) (p : string).

(** What the stored pages add to the trace that the reset left. *)
Lemma past_reset_trace fs w1 wm (done : list Z) :
  reset_output_dir (probed E pdf fs) = (w1, Ok tt) ->
  pages_stored E pdf done w1 wm ->
  rendered_pages (trace wm) = done
  /\ saved_paths (trace wm) = map slide_path done
  /\ meta_writes (trace wm) = [].
Proof.
  intros Hreset Hst.
  destruct (reset_ok _ _ Hreset) as (_ & _ & _ & Htr1).
  destruct (stored_trace E pdf _ _ _ Hst)
    as (tr & Htr & Hren & Hsav & Hmeta & _).
  destruct (reset_trace_projections (Fs.exists_ fs OUTPUT_DIR))
    as (R1 & R2 & _ & R4).
  rewrite Htr, Htr1. cbn [probed trace files].
  unfold rendered_pages, saved_paths, meta_writes in *.
  rewrite !omap_app, R1, R2, R4, Hren, Hsav, Hmeta. done.
Qed.

(** After a reset in a well-formed filesystem nothing lies below the
    output directory, and the rest of the tree is as before. *)
Lemma reset_clean fs w1 :
  Fs.wf fs -> reset_output_dir (probed E pdf fs) = (w1, Ok tt) ->
  files w1 !! OUTPUT_DIR = Some Dir
  /\ files w1 !! "Web" = Some Dir
  /\ (forall q, Fs.under OUTPUT_DIR q = true -> files w1 !! q = None)
  /\ files w1 !! META_PATH = fs !! META_PATH.
Proof.
  intros Hwf Hreset.
  destruct (reset_ok _ _ Hreset) as (Hdir & HWeb & Hclean & _).
  split; [done|]. split; [done|]. split.
  - apply Hclean. by apply wf_tidy.
  - by rewrite (reset_frame _ _ _ META_PATH Hreset).
Qed.

(** With a renderer that has an image for every page, a run from a
    well-formed filesystem that is not blocked gets to the metadata
    file. *)
Lemma run_reaches_meta fs (n : Z) :
  Fs.wf fs -> probe E pdf fs = Ok n -> blocked fs = false ->
  (forall fs' i, 1 <= i <= n ->
     exists page more, render E fs' pdf DPI i i = inr (page :: more)) ->
  exists w1 w2,
    reset_output_dir (probed E pdf fs) = (w1, Ok tt)
    /\ pages_stored E pdf (range 1 (n + 1)) w1 w2
    /\ files w2 !! META_PATH = fs !! META_PATH
    /\ run E pdf fs
       = match fs !! META_PATH with
         | Some Dir =>
             (mkWorld (files w2)
                (trace w2 ++ [OpenWrite META_PATH (meta_text E pdf n)]),
              Raise (IsADirectoryError META_PATH))
         | _ =>
             (mkWorld
                (<[META_PATH := File (TextData (meta_text E pdf n))]>
                   (files w2))
                (trace w2 ++ [OpenWrite META_PATH (meta_text E pdf n)]),
              Ok tt)
         end.
Proof.
  intros Hwf Hprobe Hfree Hren.
  destruct (reset_unblocked (probed E pdf fs) Hwf Hfree) as [w1 Hreset].
  destruct (reset_clean fs w1 Hwf Hreset) as (Hdir & HWeb & Hclean & Hmeta).
  destruct (pages_progress E pdf (range 1 (n + 1)) w1 Hdir) as [w2 Hloop].
  { intros i _. rewrite Hclean; [done|apply slide_path_under]. }
  { intros fs' i Hi%range_In. apply Hren. lia. }
  pose proof (for_each_pages E pdf _ _ _ _ Hdir Hloop) as Hst.
  cbv iota in Hst.
  assert (files w2 !! META_PATH = fs !! META_PATH) as Hmeta2.
  { by rewrite (stored_frame E pdf _ _ _ META_PATH Hst). }
  assert (files w2 !! "Web" = Some Dir) as HWeb2.
  { by rewrite (stored_frame E pdf _ _ _ "Web" Hst). }
  exists w1, w2. split; [done|]. split; [done|]. split; [done|].
  unfold run. rewrite convert_unfold, probe_world, Hprobe, Hreset, Hloop.
  rewrite (write_meta_eq _ _ HWeb2). cbv zeta. rewrite Hmeta2.
  unfold meta_text. by destruct (fs !! META_PATH) as [[|?]|].
Qed.

(** Outside the output directory and away from the metadata file, a run
    leaves what it found or what the directory reset left. *)
Lemma run_outside fs w' r p :
  run E pdf fs = (w', r) ->
  Fs.under OUTPUT_DIR p = false -> p <> META_PATH ->
  files w' !! p = fs !! p
  \/ exists w1 r1,
       reset_output_dir (probed E pdf fs) = (w1, r1)
       /\ files w' !! p = files w1 !! p.
Proof.
  intros Hrun Hp Hne.
  destruct (probe E pdf fs) as [n|e0] eqn:Hprobe.
  2:{ destruct (run_probe_fails E pdf fs w' r e0 Hrun Hprobe) as [_ ->].
      by left. }
  right.
  destruct (reset_output_dir (probed E pdf fs)) as [w1 [[]|e1]] eqn:Hreset.
  2:{ destruct (run_reset_fails E pdf fs w' r n w1 e1 Hrun Hprobe Hreset)
        as [_ ->].
      by eauto. }
  exists w1, (Ok tt). split; [done|].
  destruct (run_past_reset E pdf fs w' r n w1 Hrun Hprobe Hreset)
    as (done & rest & wm & _ & Hst & Hend).
  rewrite <- (stored_frame E pdf _ _ _ p Hst Hp).
  destruct Hend
    as [(_ & _ & _ & ->)|[(_ & _ & _ & ->)|(e & i & ? & _ & _ & Hfail)]].
  - cbn [files]. by rewrite lookup_insert_ne.
  - done.
  - by rewrite (page_fails_files E pdf _ _ _ _ Hfail).
Qed.

(** A run leaves [Web] as it is or creates it. *)
Lemma run_Web fs w' r :
  run E pdf fs = (w', r) ->
  files w' !! "Web" = fs !! "Web"
  \/ (fs !! "Web" = None /\ files w' !! "Web" = Some Dir).
Proof.
  intros Hrun.
  destruct (run_outside fs w' r "Web" Hrun) as [?|(w1 & r1 & Hreset & ->)];
    [done..|by left|].
  apply (reset_Web _ _ _ Hreset).
Qed.

(** From a well-formed filesystem that is not blocked, a run leaves the
    output directory as it was (when the probe fails) or as a
    directory. *)
Lemma run_output_dir fs w' r :
  Fs.wf fs -> blocked fs = false -> run E pdf fs = (w', r) ->
  files w' !! OUTPUT_DIR = fs !! OUTPUT_DIR
  \/ files w' !! OUTPUT_DIR = Some Dir.
Proof.
  intros Hwf Hb Hrun.
  destruct (probe E pdf fs) as [n|e0] eqn:Hprobe.
  2:{ destruct (run_probe_fails E pdf fs w' r e0 Hrun Hprobe) as [_ ->].
      by left. }
  right.
  destruct (reset_unblocked (probed E pdf fs) Hwf Hb) as [w1 Hreset].
  destruct (reset_clean fs w1 Hwf Hreset) as (Hdir & _).
  destruct (run_past_reset E pdf fs w' r n w1 Hrun Hprobe Hreset)
    as (done & rest & wm & _ & Hst & Hend).
  pose proof (stored_dir E pdf _ _ _ Hst Hdir) as Hdirm.
  destruct Hend
    as [(_ & _ & _ & ->)|[(_ & _ & _ & ->)|(e & i & ? & _ & _ & Hfail)]].
  - cbn [files]. by rewrite lookup_insert_ne.
  - done.
  - by rewrite (page_fails_files E pdf _ _ _ _ Hfail).
Qed.

(** A filesystem from which a conversion can succeed stays one, whatever
    the outcome of a run. *)
Lemma run_keeps_ready fs w' r :
  Fs.wf fs -> blocked fs = false -> fs !! META_PATH <> Some Dir ->
  run E pdf fs = (w', r) ->
  Fs.wf (files w') /\ blocked (files w') = false
  /\ files w' !! META_PATH <> Some Dir.
Proof.
  intros Hwf Hb Hmeta Hrun.
  split; [by eapply run_wf|]. split.
  - apply orb_false_iff in Hb as [HbWeb Hbdir].
    unfold blocked, is_file in *. apply orb_false_iff. split.
    + destruct (run_Web fs w' r Hrun) as [->|[_ ->]]; done.
    + destruct (run_output_dir fs w' r Hwf) as [->| ->]; try done.
      unfold blocked, is_file. by rewrite HbWeb, Hbdir.
  - destruct r as [[]|e].
    + destruct (run_ok_files E pdf fs w' Hrun) as (n & _ & -> & _). done.
    + by rewrite (run_meta_kept E pdf fs w' e Hrun).
Qed.

End WellFormed.

(** ** The entry point *)

Section EntryPoint.

Context (E : Env).

Implicit Types (w : World) (fs : FS) (argv : list string).

(** The entry point, by the shape of the argument list. *)
Lemma run_main_eq argv fs :
  run_main E argv fs =
  match argv with
  | [] => (mkWorld fs [], Uncaught IndexError)
  | [prog; pdf] =>
      match fs !! pdf with
      | None => (mkWorld fs [], SystemExit 1)
      | Some _ =>
          match run E pdf fs with
          | (w', Ok _) => (w', Completed)
          | (w', Raise e) => (w', Uncaught e)
          end
      end
  | _ => (mkWorld fs [], SystemExit 1)
  end.
Proof.
  destruct argv as [|prog [|pdf [|more argv]]]; try reflexivity.
  unfold run_main, main, Fs.exists_, run. cbn [length Nat.eqb negb].
  change (py_index [prog; pdf] 1) with (Ok pdf). cbn [files].
  by destruct (fs !! pdf).
Qed.

End EntryPoint.

(** * Further statements *)

(** ** The entry point *)

(** X1.  Called with a number of arguments other than one, or with the
    path of a file that does not exist, the script ends with exit status
    1 before it calls any tool or touches the filesystem.  It reaches
    [sys.exit(1)] in each of these cases but one: with an empty argument
    list the usage line cannot be printed and an [IndexError] ends the
    script. *)
Theorem main_rejects_bad_invocation (E : Env) (argv : list string) (fs : FS)
    (w' : World) (o : Outcome) :
  run_main E argv fs = (w', o) ->
  length argv <> 2%nat
  \/ (exists pdf, argv !! 1%nat = Some pdf /\ fs !! pdf = None) ->
  exit_status o = 1 /\ files w' = fs /\ trace w' = []
  /\ (argv <> [] -> o = SystemExit 1)
  /\ (argv = [] -> o = Uncaught IndexError).
Proof.
  rewrite run_main_eq. intros Hrun Hbad.
  destruct argv as [|prog [|pdf [|more argv]]].
  - injection Hrun as <- <-. done.
  - injection Hrun as <- <-. done.
  - destruct Hbad as [Hlen|(p & [= <-] & Hnone)]; [done|].
    rewrite Hnone in Hrun. injection Hrun as <- <-. done.
  - injection Hrun as <- <-. done.
Qed.

Lemma main_rejects_bad_invocation_witness :
  let E := Demo.env Demo.three_pages 0 Demo.stamp1 in
  let argv := ["convert_pdf.py"; "in/missing.pdf"] in
  exit_status (snd (run_main E argv Demo.stale)) = 1
  /\ files (fst (run_main E argv Demo.stale)) = Demo.stale
  /\ trace (fst (run_main E argv Demo.stale)) = [].
Proof.
  intros E argv.
  destruct (main_rejects_bad_invocation E argv Demo.stale
              (fst (run_main E argv Demo.stale))
              (snd (run_main E argv Demo.stale)))
    as (H1 & H2 & H3 & _).
  - by destruct (run_main E argv Demo.stale).
  - right. exists "in/missing.pdf". split; [reflexivity|].
    vm_compute. reflexivity.
  - split; [exact H1|]. split; [exact H2|exact H3].
Defined.

(** X2.  The exit status of the script is 0 or 1.  It is 0 exactly
    when the script was given one argument, the path of an existing
    file, and the conversion of that file ran to its end; the metadata
    file and the slide of every page are then in place.  With any other
    exit status the metadata path holds what it held before. *)
Theorem main_exit_status (E : Env) (argv : list string) (fs : FS)
    (w' : World) (o : Outcome) :
  run_main E argv fs = (w', o) ->
  (exit_status o = 0 \/ exit_status o = 1)
  /\ (exit_status o = 0 <->
      exists prog pdf,
        argv = [prog; pdf] /\ is_Some (fs !! pdf)
        /\ run E pdf fs = (w', Ok tt))
  /\ (exit_status o = 0 ->
      exists pdf n,
        argv !! 1%nat = Some pdf /\ probe E pdf fs = Ok n
        /\ files w' !! META_PATH
           = Some (File (TextData (meta_text E pdf n)))
        /\ forall i, 1 <= i <= n ->
             exists node, files w' !! slide_path i = Some node /\ is_slide node)
  /\ (exit_status o <> 0 -> files w' !! META_PATH = fs !! META_PATH).
Proof.
  rewrite run_main_eq. intros Hrun.
  assert (Hbad : (w', o) = (mkWorld fs [], Uncaught IndexError)
                 \/ (w', o) = (mkWorld fs [], SystemExit 1) ->
                 (forall prog pdf, argv = [prog; pdf] -> fs !! pdf = None) ->
    (exit_status o = 0 \/ exit_status o = 1)
    /\ (exit_status o = 0 <->
        exists prog pdf,
          argv = [prog; pdf] /\ is_Some (fs !! pdf)
          /\ run E pdf fs = (w', Ok tt))
    /\ (exit_status o = 0 ->
        exists pdf n,
          argv !! 1%nat = Some pdf /\ probe E pdf fs = Ok n
          /\ files w' !! META_PATH
             = Some (File (TextData (meta_text E pdf n)))
          /\ forall i, 1 <= i <= n ->
               exists node,
                 files w' !! slide_path i = Some node /\ is_slide node)
    /\ (exit_status o <> 0 -> files w' !! META_PATH = fs !! META_PATH)).
  { intros Ho Hargv.
    assert (exit_status o = 1 /\ files w' = fs) as [H1 ->].
    { by destruct Ho as [[= -> ->]|[= -> ->]]. }
    split; [by right|]. split; [|split; [lia|done]].
    split; [lia|]. intros (prog & pdf & -> & [node Hsome] & _).
    rewrite (Hargv prog pdf eq_refl) in Hsome. done. }
  destruct argv as [|prog [|pdf [|more argv]]];
    [apply Hbad; [by left|done]|apply Hbad; [by right|done]|
    |apply Hbad; [by right|done]].
  destruct (fs !! pdf) as [node|] eqn:Hpdf.
  2:{ apply Hbad; [by right|]. by intros ? ? [= <- <-]. }
  clear Hbad.
  destruct (run E pdf fs) as [w2 [[]|e]] eqn:Hconv; injection Hrun as <- <-.
  - cbn [exit_status]. split; [by left|]. split; [|split; [|done]].
    + split; [|done]. intros _. exists prog, pdf. by rewrite Hpdf.
    + intros _.
      destruct (run_ok_files E pdf fs w2 Hconv)
        as (n & Hprobe & Hmeta & _ & _ & Hnew & _).
      exists pdf, n. split; [done|]. split; [done|]. split; [done|].
      intros i Hi. destruct (Hnew i Hi) as (fs' & page & more & _ & Hp).
      eexists. split; [exact Hp|]. eexists. split; [done|].
      apply normalise_slide.
  - cbn [exit_status]. split; [by right|]. split; [|split; [done|]].
    + split; [done|]. intros (? & ? & [= <- <-] & _ & Hok). congruence.
    + intros _. by eapply run_meta_kept.
Qed.

Lemma main_exit_status_witness :
  let E := Demo.env Demo.three_pages 0 Demo.stamp1 in
  let argv := ["convert_pdf.py"; "in/deck.pdf"] in
  exit_status (snd (run_main E argv Demo.stale)) = 0
  /\ exists node,
       files (fst (run_main E argv Demo.stale)) !! slide_path 3 = Some node
       /\ is_slide node.
Proof.
  intros E argv.
  destruct (main_exit_status E argv Demo.stale
              (fst (run_main E argv Demo.stale))
              (snd (run_main E argv Demo.stale)))
    as (_ & _ & Hdone & _).
  - by destruct (run_main E argv Demo.stale).
  - assert (exit_status (snd (run_main E argv Demo.stale)) = 0) as H0
      by (vm_compute; reflexivity).
    split; [exact H0|].
    destruct (Hdone H0) as (pdf & n & Hpdf & Hn & _ & Hslides).
    injection Hpdf as <-.
    assert (n = 3) as ->.
    { assert (probe E "in/deck.pdf" Demo.stale = Ok 3) as H3
        by (vm_compute; reflexivity).
      rewrite H3 in Hn. by injection Hn. }
    apply Hslides. lia.
Defined.

(** X3.  Whatever the arguments and whatever the outcome, the script
    leaves a well-formed filesystem well-formed: every file and directory
    that exists afterwards lies in directories that exist. *)
Theorem main_keeps_filesystem_well_formed (E : Env) (argv : list string)
    (fs : FS) (w' : World) (o : Outcome) :
  Fs.wf fs -> run_main E argv fs = (w', o) -> Fs.wf (files w').
Proof.
  intros Hwf. rewrite run_main_eq.
  destruct argv as [|prog [|pdf [|more argv]]]; try by intros [= <- <-].
  destruct (fs !! pdf) as [node|]; [|by intros [= <- <-]].
  destruct (run E pdf fs) as [w2 r] eqn:Hconv.
  pose proof (run_wf E pdf fs w2 r Hwf Hconv) as Hwf2.
  by destruct r as [[]|e]; intros [= <- <-].
Qed.

Lemma main_keeps_filesystem_well_formed_witness :
  let E := Demo.env Demo.three_pages 2 Demo.stamp1 in
  let argv := ["convert_pdf.py"; "in/deck.pdf"] in
  Fs.wf (files (fst (run_main E argv Demo.stale))).
Proof.
  intros E argv.
  apply (main_keeps_filesystem_well_formed E argv Demo.stale
           (fst (run_main E argv Demo.stale))
           (snd (run_main E argv Demo.stale))).
  - refine (bool_decide_unpack (Fs.wf Demo.stale) _). vm_compute. exact I.
  - by destruct (run_main E argv Demo.stale).
Defined.

(** X4.  An input document that is kept below the output directory is
    deleted by the script: once the page count was read, the directory
    reset removes it, before any page is rendered, and whatever happens
    afterwards it is gone when the script ends (unless it bears the name
    of a slide). *)
Theorem input_below_output_dir_is_deleted (E : Env) (prog pdf : string)
    (fs : FS) (n : Z) (w' : World) (o : Outcome) :
  Fs.wf fs ->
  Fs.under OUTPUT_DIR pdf = true -> (forall i, pdf <> slide_path i) ->
  is_Some (fs !! pdf) -> probe E pdf fs = Ok n ->
  run_main E [prog; pdf] fs = (w', o) ->
  files w' !! pdf = None
  /\ exists w1,
       reset_output_dir (probed E pdf fs) = (w1, Ok tt)
       /\ files w1 !! pdf = None.
Proof.
  intros Hwf Hunder Hname [node Hpdf] Hprobe. rewrite run_main_eq, Hpdf.
  destruct (run E pdf fs) as [w2 r] eqn:Hconv. intros Hmain.
  assert (w' = w2) as -> by (by destruct r as [[]|e]; injection Hmain).
  clear Hmain o.
  assert (fs !! OUTPUT_DIR = Some Dir) as Hdir.
  { apply (wf_under fs OUTPUT_DIR pdf Hwf Hunder). by eexists. }
  assert (fs !! "Web" = Some Dir) as HWeb.
  { apply (wf_output_dir_Web fs Hwf). by eexists. }
  assert (blocked fs = false) as Hfree.
  { unfold blocked, is_file. by rewrite Hdir, HWeb. }
  destruct (reset_unblocked (probed E pdf fs) Hwf Hfree) as [w1 Hreset].
  destruct (reset_clean E pdf fs w1 Hwf Hreset) as (_ & _ & Hclean & _).
  split; [|exists w1; split; [done|by apply Hclean]].
  destruct (run_past_reset E pdf fs w2 r n w1 Hconv Hprobe Hreset)
    as (done & rest & wm & _ & Hst & Hend).
  assert (files wm !! pdf = None) as Hgone.
  { destruct (stored_clean E pdf done w1 wm pdf Hst Hclean Hunder)
      as [[(i & Hi & _)%in_map_iff _]|[_ ?]]; [|done].
    by destruct (Hname i). }
  destruct Hend
    as [(_ & _ & _ & ->)|[(_ & _ & _ & ->)|(e & i & rest' & _ & _ & Hfail)]].
  - cbn [files]. rewrite lookup_insert_ne; [done|]. by intros <-.
  - done.
  - by rewrite (page_fails_files E pdf _ _ _ _ Hfail).
Qed.

Lemma input_below_output_dir_is_deleted_witness :
  let E := Demo.env Demo.three_pages 0 Demo.stamp1 in
  let argv := ["convert_pdf.py"; "Web/slides/deck.pdf"] in
  input_in_output_dir !! "Web/slides/deck.pdf" = Some (File (TextData "%PDF"))
  /\ files (fst (run_main E argv input_in_output_dir)) !! "Web/slides/deck.pdf"
     = None.
Proof.
  intros E argv. split; [reflexivity|].
  refine (proj1 (input_below_output_dir_is_deleted E "convert_pdf.py"
           "Web/slides/deck.pdf" input_in_output_dir 3
           (fst (run_main E argv input_in_output_dir))
           (snd (run_main E argv input_in_output_dir)) _ _ _ _ _ _)).
  - refine (bool_decide_unpack (Fs.wf input_in_output_dir) _).
    vm_compute. exact I.
  - reflexivity.
  - intros i Heq.
    assert (String.get 11 "Web/slides/deck.pdf"
            = String.get 11 (slide_path i)) as Hchar
      by (by rewrite <- Heq).
    rewrite slide_path_eq in Hchar. vm_compute in Hchar. discriminate Hchar.
  - eexists. reflexivity.
  - vm_compute. reflexivity.
  - apply surjective_pairing.
Defined.

(** ** The page-count probe *)

(** X5.  When the standard output of [pdfinfo] consists of any number of
    lines that do not start with [Pages:], followed by a line made of
    [Pages:], spaces or tabs and the decimal numeral of [n], the probe
    returns [n]: whatever follows that line, however the line is ended,
    and whatever the return code and the error output of the tool are. *)
Theorem probe_reads_pdfinfo_output (E : Env) (pdf : string) (fs : FS)
    (code : Z) (err : string) (pre : list string) (ws : string) (n : Z)
    (rest : string) :
  forallb other_line pre = true ->
  all_chars blank ws = true ->
  at_line_end rest = true ->
  run_pdfinfo E fs pdf
  = inr (mkCompleted code
           (text_lines pre +:+ "Pages:" +:+ ws +:+ PyStr.of_int n +:+ rest)
           err) ->
  probe E pdf fs = Ok n.
Proof.
  intros Hpre Hws Hrest Hout. rewrite probe_eq, Hout. cbn [stdout].
  rewrite first_pages_line_text by done.
  rewrite pages_field_numeral; [done|].
  eapply all_chars_weaken; [apply blank_isspace|done].
Qed.

Lemma probe_reads_pdfinfo_output_witness :
  probe (complaining tabbed_report) "in/deck.pdf" Demo.stale = Ok 12.
Proof.
  apply (probe_reads_pdfinfo_output (complaining tabbed_report) "in/deck.pdf"
           Demo.stale 1 "Syntax Warning: broken xref"
           ["Title:          deck"] (String (ascii_of_nat 9) "") 12
           (PyStr.NL +:+ "Pages:          5")).
  - reflexivity.
  - reflexivity.
  - reflexivity.
  - reflexivity.
Defined.

(** X6.  When the standard output of [pdfinfo] is empty, or consists
    of lines none of which starts with [Pages:], the probe raises the
    [RuntimeError] that names the input path, whatever the return code
    and the error output of the tool are: a failure of the tool is
    noticed by the missing page count only. *)
Theorem probe_without_pages_line (E : Env) (pdf : string) (fs : FS)
    (code : Z) (err : string) (pre : list string) :
  forallb other_line pre = true ->
  run_pdfinfo E fs pdf = inr (mkCompleted code (text_lines pre) err) ->
  probe E pdf fs = Raise (RuntimeError pdf).
Proof.
  intros Hpre Hout. rewrite probe_eq, Hout. cbn [stdout].
  unfold first_pages_line.
  rewrite <- (app_empty_r (text_lines pre)).
  rewrite splitlines_text_lines by exact Hpre.
  rewrite find_other_lines by exact Hpre. reflexivity.
Qed.

Lemma probe_without_pages_line_witness :
  probe (complaining no_count_report) "in/deck.pdf" Demo.stale
  = Raise (RuntimeError "in/deck.pdf")
  /\ probe (complaining "") "in/deck.pdf" Demo.stale
     = Raise (RuntimeError "in/deck.pdf").
Proof.
  split.
  - apply (probe_without_pages_line (complaining no_count_report)
             "in/deck.pdf" Demo.stale 1 "Syntax Warning: broken xref"
             ["Title:          deck"; "Total Pages:    3";
              "pages:          3"]); reflexivity.
  - apply (probe_without_pages_line (complaining "")
             "in/deck.pdf" Demo.stale 1 "Syntax Warning: broken xref" []);
      reflexivity.
Defined.

(** ** The outcome of a conversion *)

(** X7.  Let the filesystem be well-formed, the probe return [n] and
    the renderer have an image for each of the pages 1 to [n].  Then the
    conversion succeeds exactly when no regular file stands in the place
    of [Web] or of the output directory and no directory stands in the
    place of the metadata file. *)
Theorem run_succeeds (E : Env) (pdf : string) (fs : FS) (n : Z) :
  Fs.wf fs -> probe E pdf fs = Ok n ->
  (forall fs' i, 1 <= i <= n ->
     exists page more, render E fs' pdf DPI i i = inr (page :: more)) ->
  snd (run E pdf fs) = Ok tt
  <-> blocked fs = false /\ fs !! META_PATH <> Some Dir.
Proof.
  intros Hwf Hprobe Hren.
  destruct (blocked fs) eqn:Hb.
  - split; [|by intros [? _]]. intros Hok.
    destruct (run E pdf fs) as [w' r] eqn:Hrun. cbn [snd] in Hok. subst r.
    apply run_ok in Hrun as (m & w1 & _ & _ & Hreset & _).
    apply (reset_blocked (probed E pdf fs)) in Hreset as [? _]; done.
  - destruct (run_reaches_meta E pdf fs n Hwf Hprobe Hb Hren)
      as (w1 & w2 & _ & _ & _ & ->).
    destruct (fs !! META_PATH) as [[|data]|]; cbn [snd]; split; try done;
      by intros [_ ?].
Qed.

Lemma run_succeeds_witness :
  let E := Demo.env Demo.three_pages 0 Demo.stamp1 in
  snd (run E "in/deck.pdf" Demo.stale) = Ok tt
  /\ snd (run E "in/deck.pdf" meta_is_dir) <> Ok tt.
Proof.
  intros E.
  assert (forall fs' i, 1 <= i <= 3 ->
            exists page more,
              render E fs' "in/deck.pdf" DPI i i = inr (page :: more))
    as Hren.
  { intros fs' i Hi. exists (Demo.page_image i), [].
    cbn [E Demo.env render]. destruct (i =? 0) eqn:H0; [lia|reflexivity]. }
  split.
  - apply (proj2 (run_succeeds E "in/deck.pdf" Demo.stale 3
                    ltac:(refine (bool_decide_unpack (Fs.wf Demo.stale) _);
                          vm_compute; exact I)
                    ltac:(vm_compute; reflexivity) Hren)).
    split; [reflexivity|discriminate].
  - intros Hok.
    apply (proj1 (run_succeeds E "in/deck.pdf" meta_is_dir 3
                    ltac:(refine (bool_decide_unpack (Fs.wf meta_is_dir) _);
                          vm_compute; exact I)
                    ltac:(vm_compute; reflexivity) Hren)) in Hok.
    by destruct Hok as [_ []].
Defined.

(** X8.  When a regular file stands in the place of [Web] or of the
    output directory, a conversion whose probe succeeded ends with
    [NotADirectoryError] at the directory reset: the filesystem is left
    exactly as it was, no page is rendered, no file is saved and the
    metadata file is not opened. *)
Theorem blocked_output_dir_aborts (E : Env) (pdf : string) (fs : FS) (n : Z)
    (w' : World) (r : Result unit) :
  Fs.wf fs -> probe E pdf fs = Ok n -> blocked fs = true ->
  run E pdf fs = (w', r) ->
  r = Raise (NotADirectoryError OUTPUT_DIR)
  /\ files w' = fs
  /\ rendered_pages (trace w') = []
  /\ saved_paths (trace w') = []
  /\ meta_writes (trace w') = [].
Proof.
  intros Hwf Hprobe Hb. unfold run.
  rewrite convert_unfold, probe_world, Hprobe.
  destruct (reset_output_dir (probed E pdf fs)) as [w1 r1] eqn:Hreset.
  destruct (reset_blocked (probed E pdf fs) w1 r1 Hwf Hb Hreset)
    as (-> & Hfiles & ev & Htr & Hev).
  intros [= <- <-]. split; [done|]. split; [done|].
  rewrite Htr. by destruct Hev as [-> | ->].
Qed.

Lemma blocked_output_dir_aborts_witness :
  let E := Demo.env Demo.three_pages 0 Demo.stamp1 in
  blocked web_is_file = true
  /\ snd (run E "in/deck.pdf" web_is_file)
     = Raise (NotADirectoryError OUTPUT_DIR)
  /\ files (fst (run E "in/deck.pdf" web_is_file)) = web_is_file.
Proof.
  intros E. split; [reflexivity|].
  destruct (blocked_output_dir_aborts E "in/deck.pdf" web_is_file 3
              (fst (run E "in/deck.pdf" web_is_file))
              (snd (run E "in/deck.pdf" web_is_file)))
    as (H1 & H2 & _).
  - refine (bool_decide_unpack (Fs.wf web_is_file) _). vm_compute. exact I.
  - vm_compute. reflexivity.
  - reflexivity.
  - apply surjective_pairing.
  - split; [exact H1|exact H2].
Defined.

(** X9.  When a directory stands in the place of the metadata file,
    the conversion learns of it last: all the pages are rendered and
    their slides saved, the output directory holds exactly these slides,
    and only then the conversion ends with [IsADirectoryError], the
    opening of the metadata file being its last call. *)
Theorem metadata_directory_fails_late (E : Env) (pdf : string) (fs : FS)
    (n : Z) (w' : World) (r : Result unit) :
  Fs.wf fs -> probe E pdf fs = Ok n -> blocked fs = false ->
  fs !! META_PATH = Some Dir ->
  (forall fs' i, 1 <= i <= n ->
     exists page more, render E fs' pdf DPI i i = inr (page :: more)) ->
  run E pdf fs = (w', r) ->
  r = Raise (IsADirectoryError META_PATH)
  /\ rendered_pages (trace w') = range 1 (n + 1)
  /\ saved_paths (trace w') = map slide_path (range 1 (n + 1))
  /\ (forall i, 1 <= i <= n ->
        exists node, files w' !! slide_path i = Some node /\ is_slide node)
  /\ dom (slides_of (files w'))
     = list_to_set (map slide_path (range 1 (n + 1)))
  /\ files w' !! META_PATH = Some Dir
  /\ last (trace w') = Some (OpenWrite META_PATH (meta_text E pdf n)).
Proof.
  intros Hwf Hprobe Hb Hmeta Hren.
  destruct (run_reaches_meta E pdf fs n Hwf Hprobe Hb Hren)
    as (w1 & w2 & Hreset & Hst & Hmeta2 & ->).
  rewrite Hmeta. intros [= <- <-]. cbn [files trace].
  destruct (past_reset_trace E pdf fs w1 w2 _ Hreset Hst)
    as (Hrendered & Hsaved & _).
  destruct (reset_clean E pdf fs w1 Hwf Hreset) as (_ & _ & Hclean & _).
  split; [done|].
  unfold rendered_pages, saved_paths in *. rewrite !omap_app.
  cbn [omap list_omap]. rewrite !app_nil_r.
  split; [done|]. split; [done|]. split.
  { intros i Hi. eapply stored_slides; [exact Hst|]. apply range_In. lia. }
  split.
  { apply set_eq. intros p.
    rewrite elem_of_dom, elem_of_list_to_set, list_elem_of_In.
    unfold slides_of. split.
    - intros [node [Hp Hunder]%map_lookup_filter_Some]. cbn [fst] in Hunder.
      destruct (stored_clean E pdf _ w1 w2 p Hst Hclean Hunder)
        as [[? _]|[_ Hnone]]; [done|congruence].
    - intros Hin.
      assert (Fs.under OUTPUT_DIR p = true) as Hunder.
      { apply in_map_iff in Hin as (i & <- & _). apply slide_path_under. }
      destruct (stored_clean E pdf _ w1 w2 p Hst Hclean Hunder)
        as [[_ (node & Hnode & _)]|[? _]]; [|done].
      exists node. by apply map_lookup_filter_Some. }
  split; [by rewrite Hmeta2|]. by rewrite last_snoc.
Qed.

Lemma metadata_directory_fails_late_witness :
  let E := Demo.env Demo.three_pages 0 Demo.stamp1 in
  let w' := fst (run E "in/deck.pdf" meta_is_dir) in
  snd (run E "in/deck.pdf" meta_is_dir) = Raise (IsADirectoryError META_PATH)
  /\ saved_paths (trace w')
     = ["Web/slides/slide_001.jpg"; "Web/slides/slide_002.jpg";
        "Web/slides/slide_003.jpg"].
Proof.
  intros E w'.
  destruct (metadata_directory_fails_late E "in/deck.pdf" meta_is_dir 3
              w' (snd (run E "in/deck.pdf" meta_is_dir)))
    as (H1 & _ & H2 & _).
  - refine (bool_decide_unpack (Fs.wf meta_is_dir) _). vm_compute. exact I.
  - vm_compute. reflexivity.
  - reflexivity.
  - reflexivity.
  - intros fs' i Hi. exists (Demo.page_image i), [].
    cbn [E Demo.env render]. destruct (i =? 0) eqn:H0; [lia|reflexivity].
  - apply surjective_pairing.
  - split; [exact H1|exact H2].
Defined.

(** X10.  The error that ends a failed conversion is one of seven: an
    error of [pdfinfo] or of the renderer, the [RuntimeError] or the
    [ValueError] of the probe, [NotADirectoryError] for the output
    directory (only when a regular file blocks it), [IndexError],
    [IsADirectoryError] for a slide and [IsADirectoryError] for the
    metadata file (only when a directory stands in its place).  No step
    fails for a missing directory, an existing output directory or an
    image mode that JPEG cannot store; from a well-formed filesystem no
    slide fails to be written. *)
Theorem run_error_kinds (E : Env) (pdf : string) (fs : FS) (w' : World)
    (e : exn) :
  run E pdf fs = (w', Raise e) ->
  ((exists tag, e = External tag) \/ e = RuntimeError pdf \/ e = ValueError
   \/ e = NotADirectoryError OUTPUT_DIR \/ e = IndexError
   \/ (exists i, e = IsADirectoryError (slide_path i))
   \/ e = IsADirectoryError META_PATH)
  /\ (e = NotADirectoryError OUTPUT_DIR -> blocked fs = true)
  /\ (e = IsADirectoryError META_PATH -> fs !! META_PATH = Some Dir)
  /\ (forall p, e <> FileNotFoundError p)
  /\ (forall p, e <> FileExistsError p)
  /\ (forall msg, e <> OSError msg)
  /\ e <> RecursionError
  /\ (Fs.wf fs -> forall i, e <> IsADirectoryError (slide_path i)).
Proof.
  intros [Hprobe ->|n Hprobe Hreset
         |n w1 wm done rest i0 Hprobe Hreset Hsplit Hst Hfail
         |n w1 w2 Hprobe Hreset Hst Hdir -> ->]%run_raise.
  - apply probe_error in Hprobe as [[tag ->]|[-> | ->]];
      (split; [eauto 8|]); repeat split; done.
  - apply reset_raise_blocked in Hreset as [-> Hb].
    split; [eauto 8|]. repeat split; done.
  - assert (forall j, IsADirectoryError (slide_path j)
                      <> IsADirectoryError META_PATH) as Hne.
    { intros j Heq. apply (slide_path_not_meta j). congruence. }
    assert (Fs.wf fs -> forall j, e <> IsADirectoryError (slide_path j))
      as Hwf.
    { intros Hwf j ->. inversion Hfail as [| |page more Hr Hd]; subst.
      destruct (reset_clean E pdf fs w1 Hwf Hreset) as (_ & _ & Hclean & _).
      by apply (stored_clean_not_dir E pdf done w1 wm i0 Hst Hclean). }
    inversion Hfail; subst; (split; [eauto 10|]); repeat split;
      try done; try (by intros ?%Hne); by apply Hwf.
  - split; [eauto 10|]. repeat split; try done.
    intros _. rewrite <- Hdir.
    rewrite (stored_frame E pdf _ _ _ META_PATH Hst) by done.
    symmetry. by apply (reset_frame _ _ _ META_PATH Hreset).
Qed.

Lemma run_error_kinds_witness :
  let E := Demo.env Demo.three_pages 0 Demo.stamp1 in
  snd (run E "in/deck.pdf" web_is_file) = Raise (NotADirectoryError OUTPUT_DIR)
  /\ blocked web_is_file = true.
Proof.
  intros E.
  assert (run E "in/deck.pdf" web_is_file
          = (fst (run E "in/deck.pdf" web_is_file),
             Raise (NotADirectoryError OUTPUT_DIR))) as Hrun
    by (vm_compute; reflexivity).
  destruct (run_error_kinds E "in/deck.pdf" web_is_file _ _ Hrun)
    as (_ & Hb & _).
  split; [by rewrite Hrun|]. by apply Hb.
Defined.

(** X11.  Whatever its outcome, a conversion changes nothing outside
    the output directory but the metadata file and the directory [Web],
    which it creates when it is missing and otherwise leaves as it is. *)
Theorem run_touches_output_only (E : Env) (pdf : string) (fs : FS)
    (w' : World) (r : Result unit) :
  run E pdf fs = (w', r) ->
  (forall p, Fs.within OUTPUT_DIR p = false -> p <> "Web" -> p <> META_PATH ->
     files w' !! p = fs !! p)
  /\ (files w' !! "Web" = fs !! "Web"
      \/ (fs !! "Web" = None /\ files w' !! "Web" = Some Dir)).
Proof.
  intros Hrun. split; [|by eapply run_Web].
  intros p Hp HpWeb Hpmeta.
  assert (Fs.under OUTPUT_DIR p = false) as Hunder.
  { destruct (Fs.under OUTPUT_DIR p) eqn:Hu; [|done].
    by rewrite (under_within _ _ Hu) in Hp. }
  destruct (run_outside E pdf fs w' r p Hrun Hunder Hpmeta)
    as [?|(w1 & r1 & Hreset & ->)]; [done|].
  by apply (reset_frame _ _ _ p Hreset).
Qed.

Lemma run_touches_output_only_witness :
  let E := Demo.env Demo.three_pages 0 Demo.stamp1 in
  files (fst (run E "in/deck.pdf" Demo.stale)) !! "in/deck.pdf"
  = Some (File (TextData "%PDF")).
Proof.
  intros E.
  destruct (run_touches_output_only E "in/deck.pdf" Demo.stale
              (fst (run E "in/deck.pdf" Demo.stale))
              (snd (run E "in/deck.pdf" Demo.stale)))
    as [Hframe _].
  - apply surjective_pairing.
  - rewrite Hframe; reflexivity || discriminate.
Defined.

(** X12.  When the directory reset went through, the output directory
    holds, at the end of the conversion and whatever its outcome,
    exactly the files that this conversion saved: the slides of the
    pages 1 to [k] for some [k] up to the page count, and nothing of what
    it held before.  When the conversion fails, the metadata file still
    is the one of the earlier conversion, whose slides are gone. *)
Theorem output_dir_holds_what_was_saved (E : Env) (pdf : string) (fs : FS)
    (n : Z) (w' : World) (r : Result unit) :
  Fs.wf fs -> probe E pdf fs = Ok n -> blocked fs = false ->
  run E pdf fs = (w', r) ->
  dom (slides_of (files w')) = list_to_set (saved_paths (trace w'))
  /\ (exists k, 0 <= k <= Z.max 0 n
        /\ saved_paths (trace w') = map slide_path (range 1 (k + 1))
        /\ (r = Ok tt -> k = Z.max 0 n))
  /\ (forall p node, Fs.under OUTPUT_DIR p = true ->
        files w' !! p = Some node -> is_slide node)
  /\ files w' !! OUTPUT_DIR = Some Dir
  /\ (r <> Ok tt -> files w' !! META_PATH = fs !! META_PATH).
Proof.
  intros Hwf Hprobe Hb Hrun.
  assert (r <> Ok tt -> files w' !! META_PATH = fs !! META_PATH) as Hstale.
  { destruct r as [[]|e]; [done|]. intros _. by eapply run_meta_kept. }
  destruct (reset_unblocked (probed E pdf fs) Hwf Hb) as [w1 Hreset].
  destruct (reset_clean E pdf fs w1 Hwf Hreset) as (Hdir & _ & Hclean & _).
  destruct (run_past_reset E pdf fs w' r n w1 Hrun Hprobe Hreset)
    as (done & rest & wm & Hsplit & Hst & Hend).
  destruct (past_reset_trace E pdf fs w1 wm done Hreset Hst)
    as (_ & Hsaved & _).
  assert (Hfiles : forall p, Fs.under OUTPUT_DIR p = true \/ p = OUTPUT_DIR ->
                             files w' !! p = files wm !! p).
  { intros p Hp.
    destruct Hend
      as [(_ & _ & _ & ->)|[(_ & _ & _ & ->)|(e & i & ? & _ & _ & Hfail)]].
    - cbn [files]. rewrite lookup_insert_ne; [done|].
      intros <-. by destruct Hp as [Hp|Hp].
    - done.
    - by rewrite (page_fails_files E pdf _ _ _ _ Hfail). }
  assert (Htrace : saved_paths (trace w') = map slide_path done).
  { destruct Hend
      as [(_ & _ & _ & ->)|[(_ & _ & _ & ->)|(e & i & ? & _ & _ & Hfail)]].
    - cbn [trace]. unfold saved_paths in *. rewrite omap_app, Hsaved.
      cbn [omap list_omap]. by rewrite app_nil_r.
    - cbn [trace]. unfold saved_paths in *. rewrite omap_app, Hsaved.
      cbn [omap list_omap]. by rewrite app_nil_r.
    - inversion Hfail as [tag Hr| Hr |page more Hr Hd]; subst; cbn [trace].
      + unfold saved_paths in *. rewrite omap_app, Hsaved.
        cbn [omap list_omap]. by rewrite app_nil_r.
      + unfold saved_paths in *. rewrite omap_app, Hsaved.
        cbn [omap list_omap]. by rewrite app_nil_r.
      + by destruct (stored_clean_not_dir E pdf done w1 wm i Hst Hclean). }
  split.
  { rewrite Htrace. apply set_eq. intros p.
    rewrite elem_of_dom, elem_of_list_to_set, list_elem_of_In.
    unfold slides_of. split.
    - intros [node [Hp Hunder]%map_lookup_filter_Some]. cbn [fst] in Hunder.
      rewrite Hfiles in Hp by auto.
      destruct (stored_clean E pdf _ w1 wm p Hst Hclean Hunder)
        as [[? _]|[_ Hnone]]; [done|congruence].
    - intros Hin.
      assert (Fs.under OUTPUT_DIR p = true) as Hunder.
      { apply in_map_iff in Hin as (i & <- & _). apply slide_path_under. }
      destruct (stored_clean E pdf _ w1 wm p Hst Hclean Hunder)
        as [[_ (node & Hnode & _)]|[? _]]; [|done].
      exists node. apply map_lookup_filter_Some.
      split; [|done]. rewrite Hfiles by auto. done. }
  split.
  { rewrite Htrace.
    destruct Hend
      as [(-> & -> & _)|[(-> & -> & _)|(e & i & rest' & -> & -> & _)]].
    - rewrite app_nil_r in Hsplit. subst done. exists (Z.max 0 n).
      split; [lia|]. split; [|done]. f_equal. unfold range. f_equal. f_equal.
      lia.
    - rewrite app_nil_r in Hsplit. subst done. exists (Z.max 0 n).
      split; [lia|]. split; [|done]. f_equal. unfold range. f_equal. f_equal.
      lia.
    - apply range_split in Hsplit as [Hi ->]. exists (i - 1).
      split; [lia|]. split; [|done]. f_equal. f_equal. lia. }
  split.
  { intros p node Hunder Hp. rewrite Hfiles in Hp by auto.
    destruct (stored_clean E pdf _ w1 wm p Hst Hclean Hunder)
      as [[_ (node' & Hnode & Hslide)]|[_ Hnone]]; congruence. }
  split; [|done]. rewrite Hfiles by auto. by eapply stored_dir.
Qed.

Lemma output_dir_holds_what_was_saved_witness :
  let E := Demo.env Demo.three_pages 2 Demo.stamp1 in
  let w' := fst (run E "in/deck.pdf" Demo.stale) in
  snd (run E "in/deck.pdf" Demo.stale) = Raise (External "PDFPageCountError")
  /\ Demo.stale !! "Web/slides/slide_009.jpg" = Some (File (TextData "old"))
  /\ dom (slides_of (files w')) = {["Web/slides/slide_001.jpg"]}.
Proof.
  intros E w'. split; [vm_compute; reflexivity|]. split; [reflexivity|].
  destruct (output_dir_holds_what_was_saved E "in/deck.pdf" Demo.stale 3
              w' (snd (run E "in/deck.pdf" Demo.stale)))
    as (Hdom & _).
  - refine (bool_decide_unpack (Fs.wf Demo.stale) _). vm_compute. exact I.
  - vm_compute. reflexivity.
  - reflexivity.
  - apply surjective_pairing.
  - rewrite Hdom.
    assert (saved_paths (trace w') = ["Web/slides/slide_001.jpg"]) as ->
      by (vm_compute; reflexivity).
    cbn [list_to_set]. apply right_id_L; apply _.
Defined.

(** X13.  A conversion never spoils the ground for the next one.  From
    a well-formed filesystem in which nothing blocks the output directory
    or the metadata file, a run of any outcome, with any tools, leaves
    such a filesystem again; so a later conversion whose probe succeeds
    and whose renderer has an image for every page succeeds. *)
Theorem failed_run_can_be_repeated (E1 E2 : Env) (pdf1 pdf2 : string)
    (fs : FS) (w1 : World) (r1 : Result unit) (n : Z) :
  Fs.wf fs -> blocked fs = false -> fs !! META_PATH <> Some Dir ->
  run E1 pdf1 fs = (w1, r1) ->
  (Fs.wf (files w1) /\ blocked (files w1) = false
   /\ files w1 !! META_PATH <> Some Dir)
  /\ (probe E2 pdf2 (files w1) = Ok n ->
      (forall fs' i, 1 <= i <= n ->
         exists page more, render E2 fs' pdf2 DPI i i = inr (page :: more)) ->
      snd (run E2 pdf2 (files w1)) = Ok tt).
Proof.
  intros Hwf Hb Hmeta Hrun.
  destruct (run_keeps_ready E1 pdf1 fs w1 r1 Hwf Hb Hmeta Hrun)
    as (Hwf1 & Hb1 & Hmeta1).
  split; [done|]. intros Hprobe Hren.
  destruct (run_reaches_meta E2 pdf2 (files w1) n Hwf1 Hprobe Hb1 Hren)
    as (v1 & v2 & _ & _ & _ & ->).
  by destruct (files w1 !! META_PATH) as [[|data]|].
Qed.

Lemma failed_run_can_be_repeated_witness :
  let E1 := Demo.env Demo.three_pages 2 Demo.stamp1 in
  let E2 := Demo.env Demo.three_pages 0 Demo.stamp2 in
  let w1 := fst (run E1 "in/deck.pdf" Demo.stale) in
  snd (run E1 "in/deck.pdf" Demo.stale) = Raise (External "PDFPageCountError")
  /\ snd (run E2 "in/deck.pdf" (files w1)) = Ok tt.
Proof.
  intros E1 E2 w1. split; [vm_compute; reflexivity|].
  destruct (failed_run_can_be_repeated E1 E2 "in/deck.pdf" "in/deck.pdf"
              Demo.stale w1 (snd (run E1 "in/deck.pdf" Demo.stale)) 3)
    as [_ Hagain].
  - refine (bool_decide_unpack (Fs.wf Demo.stale) _). vm_compute. exact I.
  - reflexivity.
  - discriminate.
  - apply surjective_pairing.
  - apply Hagain.
    + vm_compute. reflexivity.
    + intros fs' i Hi. exists (Demo.page_image i), [].
      cbn [E2 Demo.env render]. destruct (i =? 0) eqn:H0; [lia|reflexivity].
Defined.

(** ** The content of the slides *)

(** X14.  After a successful conversion the slide of each page holds
    the first of the images that the renderer returned for that page,
    and no other: the image is brought to 1920 by 1080 whatever its own
    size, by the resize call (which asks for Lanczos resampling) in its
    own mode, and only then, and only when its mode is not [RGB],
    converted to [RGB]; it is stored at quality 85. *)
Theorem slide_holds_first_rendered_image (E : Env) (pdf : string) (fs : FS)
    (w' : World) (n i : Z) :
  run E pdf fs = (w', Ok tt) -> probe E pdf fs = Ok n -> 1 <= i <= n ->
  exists fs' page more,
    render E fs' pdf 150 i i = inr (page :: more)
    /\ files w' !! slide_path i
       = Some (File (JpegData (normalise E page) 85))
    /\ let resampled :=
         mkImage (1920, 1080) (im_mode page) (lanczos E page (1920, 1080)) in
       normalise E page
       = if String.eqb (im_mode page) "RGB" then resampled
         else mkImage (1920, 1080) "RGB" (to_rgb E resampled).
Proof.
  intros Hrun Hprobe Hi.
  destruct (run_ok_files E pdf fs w' Hrun) as (m & Hm & _ & _ & _ & Hnew & _).
  assert (m = n) as -> by congruence.
  destruct (Hnew i Hi) as (fs' & page & more & Hr & Hp).
  exists fs', page, more. split; [exact Hr|]. split; [exact Hp|].
  unfold normalise, Pil.resize, Pil.convert_rgb. cbn [im_mode im_size].
  by destruct (String.eqb (im_mode page) "RGB").
Qed.

Lemma slide_holds_first_rendered_image_witness :
  let E := Demo.env Demo.three_pages 0 Demo.stamp1 in
  let w' := fst (run E "in/deck.pdf" Demo.stale) in
  files w' !! slide_path 1
  = Some (File (JpegData (mkImage (1920, 1080) "RGB" [3; 1920; 1080; 1]) 85)).
Proof.
  intros E w'.
  assert (run E "in/deck.pdf" Demo.stale = (w', Ok tt)) as Hrun
    by (vm_compute; reflexivity).
  assert (probe E "in/deck.pdf" Demo.stale = Ok 3) as Hprobe
    by (vm_compute; reflexivity).
  destruct (slide_holds_first_rendered_image E "in/deck.pdf" Demo.stale
              w' 3 1 Hrun Hprobe)
    as (fs' & page & more & Hr & Hp & _); [lia|].
  rewrite Hp. cbn [E Demo.env render] in Hr.
  change (1 =? 0) with false in Hr. cbv iota in Hr.
  injection Hr as <- _. reflexivity.
Defined.

(** ** The order of the calls *)

(** X15.  A conversion renders one page at a time.  Every call of the
    renderer, in a run of any outcome, names the input document, the
    configured resolution and a single page (first page and last page
    are the same), and it is either the last call of the run or
    immediately followed by the call that saves the slide of that page:
    no second page is rendered while one is waiting to be saved. *)
Theorem renders_one_page_at_a_time (E : Env) (pdf : string) (fs : FS)
    (w' : World) (r : Result unit) (pre post : list Event) (pdf' : string)
    (dpi first_page last_page : Z) (out : string + list Image) :
  run E pdf fs = (w', r) ->
  trace w' = pre ++ Render pdf' dpi first_page last_page out :: post ->
  (pdf' = pdf /\ dpi = DPI /\ first_page = last_page)
  /\ (post = []
      \/ exists img q post',
           post = Save (slide_path first_page) img q :: post')
  /\ (r = Ok tt -> post <> []).
Proof.
  intros Hrun Htrace.
  pose proof (run_one_page_at_a_time E pdf fs w' r Hrun) as Hone.
  rewrite Htrace in Hone.
  destruct (one_page_at_a_time_at pdf _ _ _ _ _ _ _ Hone) as [Hcall Hnext].
  split; [done|]. split; [done|].
  intros -> ->.
  apply run_ok in Hrun as (n & w1 & w2 & _ & _ & _ & _ & ->).
  cbn [trace] in Htrace.
  apply (f_equal last) in Htrace. rewrite !last_snoc in Htrace. done.
Qed.

Lemma renders_one_page_at_a_time_witness :
  let E := Demo.env Demo.three_pages 0 Demo.stamp1 in
  exists pre img post',
    trace (fst (run E "in/deck.pdf" Demo.stale))
    = pre ++ Render "in/deck.pdf" 150 2 2 (inr [Demo.page_image 2])
          :: Save (slide_path 2) img 85 :: post'.
Proof.
  intros E.
  set (w' := fst (run E "in/deck.pdf" Demo.stale)).
  assert (exists pre post,
            trace w' = pre ++ Render "in/deck.pdf" 150 2 2
                                (inr [Demo.page_image 2]) :: post)
    as (pre & post & Htrace).
  { exists (firstn 5 (trace w')), (skipn 6 (trace w')).
    vm_compute. reflexivity. }
  destruct (renders_one_page_at_a_time E "in/deck.pdf" Demo.stale w'
              (snd (run E "in/deck.pdf" Demo.stale)) pre post
              "in/deck.pdf" 150 2 2 (inr [Demo.page_image 2]))
    as (_ & Hnext & Hmore).
  - apply surjective_pairing.
  - exact Htrace.
  - destruct Hnext as [->|(img & q & post' & ->)].
    + exfalso. apply Hmore; [vm_compute; reflexivity|reflexivity].
    + assert (q = 85) as ->.
      { assert (Forall slide_event (trace w')) as Hev
          by (apply (run_events E "in/deck.pdf" Demo.stale w'
                       (snd (run E "in/deck.pdf" Demo.stale)));
              apply surjective_pairing).
        rewrite Htrace in Hev. apply Forall_app in Hev as [_ Hev].
        inversion Hev as [|? ? _ Hev']. inversion Hev' as [|? ? Hs _].
        by destruct Hs as (_ & -> & _). }
      by exists pre, img, post'.
Defined.

(** ** Page counts that are not positive *)

(** X16.  A page count that is zero or negative is accepted: the
    conversion renders no page and saves no file, and from a well-formed
    filesystem in which nothing blocks the output directory or the
    metadata file it succeeds, leaves the output directory empty and
    records the count it read, negative or not, as [total_pages]. *)
Theorem nonpositive_page_count (E : Env) (pdf : string) (fs : FS) (n : Z)
    (w' : World) (r : Result unit) :
  probe E pdf fs = Ok n -> n <= 0 -> run E pdf fs = (w', r) ->
  rendered_pages (trace w') = []
  /\ saved_paths (trace w') = []
  /\ (Fs.wf fs -> blocked fs = false -> fs !! META_PATH <> Some Dir ->
      r = Ok tt
      /\ slides_of (files w') = ∅
      /\ files w' !! META_PATH = Some (File (TextData (meta_text E pdf n)))
      /\ Json.get (make_meta E n (PosixPath.basename pdf)) "total_pages"
         = Some (Json.JInt n)).
Proof.
  intros Hprobe Hn Hrun.
  assert (range 1 (n + 1) = []) as Hrange.
  { unfold range. by replace (Z.to_nat (n + 1 - 1)) with 0%nat by lia. }
  assert (rendered_pages (trace w') = [] /\ saved_paths (trace w') = [])
    as [Hrendered Hsaved].
  { destruct (reset_output_dir (probed E pdf fs)) as [w1 [[]|e1]] eqn:Hreset.
    2:{ destruct (run_reset_fails E pdf fs w' r n w1 e1 Hrun Hprobe Hreset)
          as [_ ->].
        apply reset_events in Hreset as (tr & -> & Hall). cbn [probed trace].
        unfold rendered_pages, saved_paths. cbn [app omap list_omap].
        clear -Hall. induction Hall as [|ev tr [-> | ->] _ IH]; done. }
    destruct (run_past_reset E pdf fs w' r n w1 Hrun Hprobe Hreset)
      as (done & rest & wm & Hsplit & Hst & Hend).
    rewrite Hrange in Hsplit. symmetry in Hsplit.
    apply app_eq_nil in Hsplit as [-> ->].
    destruct (past_reset_trace E pdf fs w1 wm [] Hreset Hst)
      as (Hr & Hs & _).
    destruct Hend
      as [(_ & _ & _ & ->)|[(_ & _ & _ & ->)|(e & i & ? & _ & ? & _)]];
      [| |done]; cbn [trace]; unfold rendered_pages, saved_paths in *;
      by rewrite !omap_app, ?Hr, ?Hs. }
  split; [done|]. split; [done|]. intros Hwf Hb Hmeta.
  destruct (run_reaches_meta E pdf fs n Hwf Hprobe Hb)
    as (w1 & w2 & Hreset & Hst & Hmeta2 & Heq).
  { intros fs' i Hi. lia. }
  rewrite Heq in Hrun.
  assert ((w', r)
          = (mkWorld
               (<[META_PATH := File (TextData (meta_text E pdf n))]>
                  (files w2))
               (trace w2 ++ [OpenWrite META_PATH (meta_text E pdf n)]),
             Ok tt)) as Hw.
  { by destruct (fs !! META_PATH) as [[|?]|]. }
  injection Hw as -> ->. split; [done|]. cbn [files].
  split; [|split; [by rewrite lookup_insert_eq|done]].
  destruct (reset_clean E pdf fs w1 Hwf Hreset) as (_ & _ & Hclean & _).
  apply map_empty. intros p. unfold slides_of.
  apply map_lookup_filter_None. right. intros node Hp Hunder.
  cbn [fst] in Hunder. rewrite lookup_insert_ne in Hp by (by intros <-).
  rewrite Hrange in Hst.
  destruct (stored_clean E pdf [] w1 w2 p Hst Hclean Hunder)
    as [[[] _]|[_ Hnone]]; congruence.
Qed.

Lemma nonpositive_page_count_witness :
  let E := Demo.env negative_pages 0 Demo.stamp1 in
  let w' := fst (run E "in/deck.pdf" Demo.stale) in
  probe E "in/deck.pdf" Demo.stale = Ok (-3)
  /\ snd (run E "in/deck.pdf" Demo.stale) = Ok tt
  /\ slides_of (files w') = ∅
  /\ Json.get (make_meta E (-3) "deck.pdf") "total_pages"
     = Some (Json.JInt (-3)).
Proof.
  intros E w'.
  assert (probe E "in/deck.pdf" Demo.stale = Ok (-3)) as Hprobe
    by (vm_compute; reflexivity).
  split; [exact Hprobe|].
  destruct (nonpositive_page_count E "in/deck.pdf" Demo.stale (-3) w'
              (snd (run E "in/deck.pdf" Demo.stale)) Hprobe)
    as (_ & _ & Hgood).
  - lia.
  - apply surjective_pairing.
  - destruct Hgood as (H1 & H2 & _ & H4).
    + refine (bool_decide_unpack (Fs.wf Demo.stale) _). vm_compute. exact I.
    + reflexivity.
    + discriminate.
    + split; [exact H1|]. split; [exact H2|exact H4].
Defined.

(** ** The names of the slides *)

Section Names.

Lemma ascii_compare_refl (c : ascii) : Ascii.compare c c = Eq.
Proof.
  pose proof (Ascii.compare_antisym c c) as H.
  by destruct (Ascii.compare c c).
Qed.

Lemma ascii_compare_trans (a b c : ascii) :
  Ascii.compare a b = Lt -> Ascii.compare b c = Lt -> Ascii.compare a c = Lt.
Proof.
  unfold Ascii.compare. rewrite !N.compare_lt_iff. lia.
Qed.

(** The order of strings is transitive. *)
Lemma str_lt_trans (a b c : string) :
  str_lt a b = true -> str_lt b c = true -> str_lt a c = true.
Proof.
  unfold str_lt, String.ltb. revert b c.
  induction a as [|x a IH]; intros [|y b] [|z c]; cbn [String.compare];
    try done.
  destruct (Ascii.compare x y) eqn:Hxy; try done;
    destruct (Ascii.compare y z) eqn:Hyz; try done.
  - apply Ascii.compare_eq_iff in Hxy as ->.
    apply Ascii.compare_eq_iff in Hyz as ->.
    rewrite ascii_compare_refl. apply IH.
  - apply Ascii.compare_eq_iff in Hxy as ->. by rewrite Hyz.
  - apply Ascii.compare_eq_iff in Hyz as <-. by rewrite Hxy.
  - by rewrite (ascii_compare_trans x y z Hxy Hyz).
Qed.

(** Up to page 999 the name of a slide comes before that of the next
    page. *)
Lemma slide_names_step (i : Z) :
  0 <= i < 999 ->
  str_lt (slide_filename i) (slide_filename (i + 1)) = true
  /\ str_lt (slide_path i) (slide_path (i + 1)) = true
  /\ String.length (slide_filename i) = 13%nat.
Proof.
  intros Hi.
  assert (forallb (fun a =>
            str_lt (slide_filename a) (slide_filename (a + 1))
            && str_lt (slide_path a) (slide_path (a + 1))
            && (String.length (slide_filename a) =? 13)%nat)
            (range 0 999) = true) as Hall by (vm_compute; reflexivity).
  rewrite forallb_forall in Hall.
  specialize (Hall i (proj2 (range_In 0 999 i) Hi)).
  by apply andb_true_iff in Hall as [[H1 H2]%andb_true_iff H3%Nat.eqb_eq].
Qed.

Lemma slide_names_sorted (i : Z) (k : nat) :
  0 <= i -> i + Z.of_nat (S k) <= 999 ->
  str_lt (slide_filename i) (slide_filename (i + Z.of_nat (S k))) = true
  /\ str_lt (slide_path i) (slide_path (i + Z.of_nat (S k))) = true.
Proof.
  intros Hi. induction k as [|k IH]; intros Hk.
  - destruct (slide_names_step i) as (H1 & H2 & _); [lia|].
    change (Z.of_nat 1) with 1. done.
  - destruct IH as [H1 H2]; [lia|].
    destruct (slide_names_step (i + Z.of_nat (S k))) as (S1 & S2 & _); [lia|].
    replace (i + Z.of_nat (S (S k))) with (i + Z.of_nat (S k) + 1) by lia.
    split; eapply str_lt_trans; eauto.
Qed.

End Names.

(** X17.  Up to page 999 the names of the slides sort in page order:
    for pages [i < j] the name of the slide of page [i] comes before that
    of page [j] in the order of strings, as file names and as paths, and
    all these names have thirteen characters.  From page 1000 on this
    fails: the slide of page 1000 sorts before the slide of page 999. *)
Theorem slide_names_sort_by_page (i j : Z) :
  0 <= i -> i < j -> j <= 999 ->
  str_lt (slide_filename i) (slide_filename j) = true
  /\ str_lt (slide_path i) (slide_path j) = true
  /\ String.length (slide_filename i) = 13%nat
  /\ str_lt (slide_filename 1000) (slide_filename 999) = true.
Proof.
  intros Hi Hij Hj.
  destruct (slide_names_sorted i (Z.to_nat (j - i - 1)) Hi) as [H1 H2];
    [lia|].
  replace (i + Z.of_nat (S (Z.to_nat (j - i - 1)))) with j in * by lia.
  destruct (slide_names_step i) as (_ & _ & H3); [lia|].
  split; [exact H1|]. split; [exact H2|]. split; [exact H3|].
  vm_compute. reflexivity.
Qed.

Lemma slide_names_sort_by_page_witness :
  str_lt "slide_009.jpg" "slide_010.jpg" = true
  /\ str_lt (slide_path 9) (slide_path 10) = true.
Proof.
  destruct (slide_names_sort_by_page 9 10) as (H1 & H2 & _); [lia..|].
  split; [exact H1|exact H2].
Defined.

(** ** The text of the metadata file *)

Section MetadataText.

Lemma escape_char_plain (c : ascii) :
  plain_char c = true -> Json.escape_char c = String c "".
Proof.
  destruct c as [[] [] [] [] [] [] [] []]; vm_compute; congruence.
Qed.

(** A text without quotes, backslashes and control characters is written
    as it is. *)
Lemma escape_plain (s : string) :
  all_chars plain_char s = true -> Json.escape s = s.
Proof.
  induction s as [|c s IH]; [done|].
  cbn [all_chars Json.escape]. intros [Hc Hs]%andb_true_iff.
  by rewrite (escape_char_plain c Hc), (IH Hs).
Qed.

Lemma quote_plain (s : string) :
  all_chars plain_char s = true -> Json.quote s = quoted s.
Proof. intros Hs. unfold Json.quote, quoted. by rewrite escape_plain. Qed.

End MetadataText.

(** X18.  The metadata file of a successful conversion is a text of six
    lines without a final newline: an opening brace, the four entries
    [total_pages], [version], [generated_at] and [source_pdf] in this
    order, each indented by two spaces, with a colon and a space after
    the key and a comma after all but the last, and a closing brace.  The
    time stamp and the file name stand between double quotes as they
    are, when they hold no double quote, backslash or control
    character: characters beyond ASCII are not escaped. *)
Theorem metadata_layout (E : Env) (pdf : string) (fs : FS) (w' : World)
    (n : Z) :
  run E pdf fs = (w', Ok tt) -> probe E pdf fs = Ok n ->
  all_chars plain_char (utc_stamp E) = true ->
  all_chars plain_char (PosixPath.basename pdf) = true ->
  files w' !! META_PATH
  = Some (File (TextData
      ("{" +:+ PyStr.NL +:+
       "  " +:+ quoted "total_pages" +:+ ": " +:+ PyStr.of_int n +:+ ","
         +:+ PyStr.NL +:+
       "  " +:+ quoted "version" +:+ ": 1," +:+ PyStr.NL +:+
       "  " +:+ quoted "generated_at" +:+ ": " +:+ quoted (utc_stamp E)
         +:+ "," +:+ PyStr.NL +:+
       "  " +:+ quoted "source_pdf" +:+ ": "
         +:+ quoted (PosixPath.basename pdf) +:+ PyStr.NL +:+
       "}"))).
Proof.
  intros Hrun Hprobe Hstamp Hname.
  destruct (run_ok_files E pdf fs w' Hrun) as (m & Hm & -> & _).
  assert (m = n) as -> by congruence.
  do 3 f_equal. unfold meta_text, make_meta, Json.dump.
  cbn [Json.items]. unfold Json.item, Json.encode. cbn [fst snd].
  rewrite (quote_plain (utc_stamp E) Hstamp).
  rewrite (quote_plain (PosixPath.basename pdf) Hname).
  rewrite (quote_plain "total_pages" eq_refl), (quote_plain "version" eq_refl),
    (quote_plain "generated_at" eq_refl), (quote_plain "source_pdf" eq_refl).
  change (PyStr.of_int 1) with "1". unfold Json.NL.
  repeat (rewrite app_assoc_s || rewrite app_cons || rewrite app_empty_l).
  reflexivity.
Qed.

Lemma metadata_layout_witness :
  let E := Demo.env Demo.three_pages 0 Demo.stamp1 in
  let w' := fst (run E "in/deck.pdf" Demo.stale) in
  files w' !! META_PATH
  = Some (File (TextData
      ("{" +:+ PyStr.NL +:+
       "  " +:+ quoted "total_pages" +:+ ": 3," +:+ PyStr.NL +:+
       "  " +:+ quoted "version" +:+ ": 1," +:+ PyStr.NL +:+
       "  " +:+ quoted "generated_at" +:+ ": "
         +:+ quoted "2024-01-01T00:00:00Z" +:+ "," +:+ PyStr.NL +:+
       "  " +:+ quoted "source_pdf" +:+ ": " +:+ quoted "deck.pdf"
         +:+ PyStr.NL +:+
       "}"))).
Proof.
  intros E w'.
  assert (run E "in/deck.pdf" Demo.stale = (w', Ok tt)) as Hrun
    by (vm_compute; reflexivity).
  assert (probe E "in/deck.pdf" Demo.stale = Ok 3) as Hprobe
    by (vm_compute; reflexivity).
  exact (metadata_layout E "in/deck.pdf" Demo.stale w' 3 Hrun Hprobe
           eq_refl eq_refl).
Defined.
